(** * Portable spreadsheet generator: the export engine

    A shallow embedding of [portable_spreadsheet/serialization.py]
    (class [Serialization]) and the properties of its encoders.

    Python values are embedded as follows.
    - A cell value is [None], a number or some other object; numbers are
      integers ([Z]) and the only non-numeric objects are strings.
    - A [dict] is an association list that keeps insertion order and has
      one entry per key: assignment to an existing key replaces the value
      where the key already stands, assignment to a new key appends.
    - The warning logger, the abstract [_get_cell_at] and the calls into
      the workbook writer are observable effects; an encoder is a
      computation that yields the list of effects it performed, in order,
      together with its result or the exception it raised.
    - The workbook writer is a library outside this code: what it answers
      to a call, carrying it out or raising, is a parameter of the
      workbook encoder.
    - The numeric matrix holds float64 entries: an integer is rounded to
      53 significant bits when it is stored, and the conversion raises
      when the integer is out of the range of a float64. *)

From Stdlib Require Import List String Ascii ZArith Lia Bool Arith Permutation.
From Stdlib Require Import DecimalString.
Import ListNotations.

Local Open Scope string_scope.
Local Open Scope list_scope.

(** ** Python values *)

Module Py.

(** The scalar a cell can hold. *)
Inductive scalar : Type :=
| SNone
| SNum (z : Z)
| SStr (s : string).

(** [isinstance(value, Number)] *)
Definition is_number (v : scalar) : bool :=
  match v with SNum _ => true | _ => false end.

Definition is_none (v : scalar) : bool :=
  match v with SNone => true | _ => false end.

(** Objects that can appear in the exported dictionary. *)
#[local] Set Warnings "-register-all".
Inductive obj : Type :=
| ONone
| ONum (z : Z)
| OStr (s : string)
| OList (l : list obj)
| ODict (d : list (string * obj)).

#[local] Set Warnings "register-all".

Definition of_scalar (v : scalar) : obj :=
  match v with
  | SNone => ONone
  | SNum z => ONum z
  | SStr s => OStr s
  end.

Definition of_option_str (o : option string) : obj :=
  match o with Some s => OStr s | None => ONone end.

(** [str(value)] *)
Definition str (v : scalar) : string :=
  match v with
  | SNone => "None"
  | SNum z => NilZero.string_of_int (Z.to_int z)
  | SStr s => s
  end.

(** [s.replace(' ', r)] *)
Fixpoint replace_space (r s : string) : string :=
  match s with
  | EmptyString => EmptyString
  | String c rest =>
      if Ascii.eqb c " "%char
      then String.append r (replace_space r rest)
      else String c (replace_space r rest)
  end.

(** [s[-n:]] for [n > 0]: the last [n] characters, the whole string when it
    is shorter. *)
Definition last_chars (n : nat) (s : string) : string :=
  substring (String.length s - n) n s.

(** [sub in s] *)
Fixpoint contains (sub s : string) : bool :=
  if prefix sub s then true
  else match s with
       | EmptyString => false
       | String _ rest => contains sub rest
       end.

(** [range(start, stop)] over the integers. *)
Definition range (start stop : Z) : list Z :=
  map (fun k => (start + Z.of_nat k)%Z) (seq 0 (Z.to_nat (stop - start))).

(** [l[n:]] for [n >= 0] *)
Definition slice_from {A} (n : nat) (l : list A) : list A := skipn n l.

(** [l[i]] with an integer index: a negative index counts from the end,
    [None] stands for [IndexError]. *)
Definition index {A} (l : list A) (i : Z) : option A :=
  if (i <? 0)%Z
  then (if (i + Z.of_nat (List.length l) <? 0)%Z then None
        else nth_error l (Z.to_nat (i + Z.of_nat (List.length l))))
  else nth_error l (Z.to_nat i).

(** The double quote and line feed characters. *)
Definition dquote : string := String "034"%char EmptyString.
Definition newline : string := String "010"%char EmptyString.

End Py.

(** ** Dictionaries *)

Module Dict.

Section WithValue.
Context {V : Type}.

Definition t := list (string * V).

Definition empty : t := [].

(** [d[k]] as a lookup. *)
Fixpoint get (d : t) (k : string) : option V :=
  match d with
  | [] => None
  | (k', v) :: rest => if String.eqb k k' then Some v else get rest k
  end.

(** [d[k] = v] *)
Fixpoint set (d : t) (k : string) (v : V) : t :=
  match d with
  | [] => [(k, v)]
  | (k', v') :: rest =>
      if String.eqb k k' then (k, v) :: rest else (k', v') :: set rest k v
  end.

Definition keys (d : t) : list string := map fst d.

End WithValue.

Arguments t : clear implicits.

End Dict.

(** ** The sheet seen by the serializer *)

Inductive CellType : Type := value_only | computational.

Definition style := Dict.t Py.scalar.

Record Cell : Type := {
  value : Py.scalar;
  cell_type : CellType;
  parse : Dict.t string;
  description : option string;
  excel_format : style;
  constructing_words : Dict.t string
}.

Record CellIndices : Type := {
  rows_labels : list string;
  columns_labels : list string;
  rows_help_text : option (list string);
  columns_help_text : option (list string);
  languages : list string;
  excel_append_labels : bool
}.

Record VariableEntry : Type := {
  var_value : Py.scalar;
  var_description : option string
}.

Record SheetVariables : Type := {
  empty : bool;
  variables_dict : list (string * VariableEntry)
}.

(** The attributes and abstract members of [Serialization]. *)
Record Sheet : Type := {
  export_offset : nat * nat;
  export_subset : bool;
  shape : nat * nat;
  cell_indices : CellIndices;
  _get_cell_at : nat -> nat -> Cell;
  _get_variables : SheetVariables
}.

(** ** Effects *)

Inductive exn : Type :=
| ValueError (msg : string)
| IndexError
| KeyError (key : string)
| OverflowError
| LibraryError (name : string).

Inductive worksheet : Type := WsResults | WsVariables.

Inductive event : Type :=
| Warning (msg : string)
| GetCell (row col : nat)
| WorkbookOpen (file_path : string)
| AddWorksheet (ws : worksheet) (name : string)
| AddFormat (fmt : style)
| DefineName (name formula : string)
| Write (ws : worksheet) (row col : nat) (v : Py.scalar) (fmt : option style)
| WriteFormula (ws : worksheet) (row col : nat) (formula : string)
    (v : Py.scalar) (fmt : option style)
| WorkbookClose.

Inductive result (A : Type) : Type :=
| Ok (a : A)
| Raise (e : exn).
Arguments Ok {A} a.
Arguments Raise {A} e.

(** A computation: the effects performed, oldest first, and the outcome. *)
Definition M (A : Type) : Type := list event * result A.

Definition ret {A} (a : A) : M A := ([], Ok a).

Definition bind {A B} (m : M A) (f : A -> M B) : M B :=
  match snd m with
  | Ok a => (fst m ++ fst (f a), snd (f a))
  | Raise e => (fst m, Raise e)
  end.

Definition raise {A} (e : exn) : M A := ([], Raise e).

Definition emit (e : event) : M unit := ([e], Ok tt).

(** What the workbook writer answers to a call: [None] when it carries the
    call out, the exception it raises otherwise (an invalid or repeated
    worksheet name, an unknown format property, a value it cannot write, a
    file it cannot create). *)
Definition library : Type := event -> option exn.

(** A call into the workbook writer: an effect when the writer carries it
    out, the exception of the writer otherwise. *)
Definition xlsx_call (lib : library) (e : event) : M unit :=
  match lib e with
  | Some err => raise err
  | None => emit e
  end.

(** An option turned into an exception. *)
Definition orelse {A} (o : option A) (e : exn) : M A :=
  match o with Some a => ret a | None => raise e end.

Declare Scope py_scope.
Delimit Scope py_scope with py.
Notation "x <- m ;; k" := (bind m (fun x => k))
  (at level 61, m at next level, right associativity) : py_scope.
Notation "m ;; k" := (bind m (fun _ => k))
  (at level 61, right associativity) : py_scope.
Local Open Scope py_scope.

(** [for x in l: s = body(x, s)] *)
Fixpoint for_in {X S} (l : list X) (body : X -> S -> M S) (s : S) : M S :=
  match l with
  | [] => ret s
  | x :: rest => s' <- body x s ;; for_in rest body s'
  end.

(** [for x in l: body(x)] *)
Definition for_each {X} (l : list X) (body : X -> M unit) : M unit :=
  for_in l (fun x _ => body x) tt.

(** [range(n)] *)
Definition range (n : nat) : list nat := seq 0 n.

(** ** The encoders of [Serialization] *)

(** [s1 + s2] on strings *)
Infix "^^" := String.append (at level 60, right associativity) : py_scope.

Definition subset_warning : string :=
  "Slice is being exported => there is a possibility of data losses.".

Definition coercion_warning : string :=
  "Some values in the sheet are not numbers, the nan value is set instead.".

(** An entry of the [numpy.ndarray] of float64: the float that holds the
    integer [z], or NaN. Cell values being integers, strings or [None],
    no other float is ever stored. *)
Inductive npfloat : Type :=
| NpNum (z : Z)
| NpNaN.

(** [float(z)] for a Python [int], as the assignment into a float64 array
    performs it: the integer is rounded to 53 significant bits, a tie
    going to the even neighbour; [None] stands for [OverflowError], raised
    when the rounded magnitude reaches [2 ** 1024]. The float is given by
    the integer it holds. *)
Definition float_of_int (z : Z) : option Z :=
  let a := Z.abs z in
  let bits := if (a =? 0)%Z then 0%Z else (Z.log2 a + 1)%Z in
  let shift := Z.max 0 (bits - 53) in
  let q := Z.shiftr a shift in
  let rest := (a - Z.shiftl q shift)%Z in
  let half := Z.shiftl 1 (shift - 1) in
  let q :=
    if (0 <? shift)%Z
       && ((half <? rest)%Z || ((rest =? half)%Z && Z.odd q))
    then (q + 1)%Z else q in
  let rounded := Z.shiftl q shift in
  if (2 ^ 1024 <=? rounded)%Z then None
  else Some (Z.sgn z * rounded)%Z.

(** A two-dimensional [numpy.ndarray]: its shape and its rows. *)
Record ndarray : Type := {
  np_shape : nat * nat;
  np_data : list (list npfloat)
}.

(** [numpy.zeros(shape)] *)
Definition np_zeros (shp : nat * nat) : ndarray :=
  {| np_shape := shp;
     np_data := repeat (repeat (NpNum 0) (snd shp)) (fst shp) |}.

(** [l[i] = x] on a list; [None] stands for [IndexError]. *)
Fixpoint list_setitem {A} (l : list A) (i : nat) (x : A) : option (list A) :=
  match l, i with
  | [], _ => None
  | _ :: rest, O => Some (x :: rest)
  | y :: rest, S i' =>
      match list_setitem rest i' x with
      | Some rest' => Some (y :: rest')
      | None => None
      end
  end.

(** [a[r, c] = x] *)
Definition np_setitem (a : ndarray) (r c : nat) (x : npfloat) : option ndarray :=
  match nth_error (np_data a) r with
  | Some row =>
      match list_setitem row c x with
      | Some row' =>
          match list_setitem (np_data a) r row' with
          | Some data => Some {| np_shape := np_shape a; np_data := data |}
          | None => None
          end
      | None => None
      end
  | None => None
  end.

Section Serialization.

Variable self : Sheet.

(** The workbook writer the encoder runs with. *)
Variable xlsxwriter : library.

(** [self.warning_logger(msg)] *)
Definition warning_logger (msg : string) : M unit := emit (Warning msg).

(** [self._get_cell_at(row, column)], recorded as an effect. *)
Definition get_cell_at (row col : nat) : M Cell :=
  emit (GetCell row col) ;; ret (_get_cell_at self row col).

Definition log_export_subset_warning_if_needed : M unit :=
  if export_subset self then warning_logger subset_warning else ret tt.

(** The labels of an axis as the exports show them: the suffix after the
    export offset, spaces replaced. *)
Definition exported_labels (spaces_replacement : string) (labels : list string)
  (offset : nat) : list string :=
  map (Py.replace_space spaces_replacement) (Py.slice_from offset labels).

Definition exported_help_text (help : option (list string)) (offset : nat)
  : option (list string) :=
  match help with
  | Some h => Some (Py.slice_from offset h)
  | None => None
  end.

Definition to_string_of_values : M string :=
  log_export_subset_warning_if_needed ;;
  export <- for_in (range (fst (shape self))) (fun row_idx export =>
    let export := export ^^ "[" in
    export <- for_in (range (snd (shape self))) (fun col_idx export =>
      cell <- get_cell_at row_idx col_idx ;;
      let export := export ^^ Py.str (value cell) in
      ret (if (Z.of_nat col_idx <? Z.of_nat (snd (shape self)) - 1)%Z
           then export ^^ ", " else export)) export ;;
    let export := export ^^ "]" in
    ret (if (Z.of_nat row_idx <? Z.of_nat (fst (shape self)) - 1)%Z
         then export ^^ "," ^^ Py.newline else export)) "[" ;;
  ret (export ^^ "]").

Definition to_2d_list : M (list (list Py.scalar)) :=
  log_export_subset_warning_if_needed ;;
  for_in (range (fst (shape self))) (fun row_idx export =>
    row <- for_in (range (snd (shape self))) (fun col_idx row =>
      cell <- get_cell_at row_idx col_idx ;;
      ret (row ++ [value cell])) [] ;;
    ret (export ++ [row])) [].

(** The text of a value in the text targets: [na_rep] for [None]. *)
Definition value_text (na_rep : string) (v : Py.scalar) : string :=
  Py.str (if Py.is_none v then Py.SStr na_rep else v).

Definition to_csv (spaces_replacement top_right_corner_text sep
  line_terminator na_rep : string) : M string :=
  log_export_subset_warning_if_needed ;;
  for_in (Py.range (-1) (Z.of_nat (fst (shape self)))) (fun row_idx export =>
    export <-
      (if (row_idx =? -1)%Z then
         let export := export ^^ top_right_corner_text ^^ sep in
         for_in (range (snd (shape self))) (fun col_i export =>
           col <- orelse (Py.index (columns_labels (cell_indices self))
                    (Z.of_nat col_i + Z.of_nat (snd (export_offset self))))
                    IndexError ;;
           let export := export ^^ Py.replace_space spaces_replacement col in
           ret (if (Z.of_nat col_i <? Z.of_nat (snd (shape self)) - 1)%Z
                then export ^^ sep else export)) export
       else
         label <- orelse (Py.index (rows_labels (cell_indices self))
                    (row_idx + Z.of_nat (fst (export_offset self))))
                    IndexError ;;
         let export :=
           export ^^ Py.replace_space spaces_replacement label ^^ sep in
         for_in (range (snd (shape self))) (fun col_idx export =>
           cell <- get_cell_at (Z.to_nat row_idx) col_idx ;;
           let export := export ^^ value_text na_rep (value cell) in
           ret (if (Z.of_nat col_idx <? Z.of_nat (snd (shape self)) - 1)%Z
                then export ^^ sep else export)) export) ;;
    ret (if (row_idx <? Z.of_nat (fst (shape self)) - 1)%Z
         then export ^^ line_terminator else export)) "".

Definition to_markdown (spaces_replacement top_right_corner_text
  na_rep : string) : M string :=
  log_export_subset_warning_if_needed ;;
  for_in (Py.range (-2) (Z.of_nat (fst (shape self)))) (fun row_idx export =>
    if (row_idx =? -2)%Z then
      let export := export ^^ "| " ^^ top_right_corner_text ^^ " |" in
      for_in (range (snd (shape self))) (fun col_i export =>
        col <- orelse (Py.index (columns_labels (cell_indices self))
                 (Z.of_nat col_i + Z.of_nat (snd (export_offset self))))
                 IndexError ;;
        let export :=
          export ^^ "*" ^^ Py.replace_space spaces_replacement col ^^ "*" in
        ret (if (Z.of_nat col_i <? Z.of_nat (snd (shape self)) - 1)%Z
             then export ^^ " | "
             else if (Z.of_nat col_i =? Z.of_nat (snd (shape self)) - 1)%Z
             then export ^^ " |" ^^ Py.newline
             else export)) export
    else if (row_idx =? -1)%Z then
      let export := export ^^ "|----|" in
      for_in (range (snd (shape self))) (fun col_i export =>
        let export := export ^^ "----|" in
        ret (if (Z.of_nat col_i =? Z.of_nat (snd (shape self)) - 1)%Z
             then export ^^ Py.newline else export)) export
    else
      let export := export ^^ "| *" in
      label <- orelse (Py.index (rows_labels (cell_indices self))
                 (row_idx + Z.of_nat (fst (export_offset self))))
                 IndexError ;;
      let export := export ^^ Py.replace_space spaces_replacement label in
      let export := export ^^ "*" ^^ " | " in
      for_in (range (snd (shape self))) (fun col_idx export =>
        cell <- get_cell_at (Z.to_nat row_idx) col_idx ;;
        let export := export ^^ value_text na_rep (value cell) in
        ret (if (Z.of_nat col_idx <? Z.of_nat (snd (shape self)) - 1)%Z
             then export ^^ " | "
             else if (Z.of_nat col_idx =? Z.of_nat (snd (shape self)) - 1)%Z
             then export ^^ " |" ^^ Py.newline
             else export)) export) "".

(** The float64 a number is stored as by [results[r, c] = value]; the
    conversion of an integer out of range raises [OverflowError]. *)
Definition np_float (v : Py.scalar) : M npfloat :=
  match v with
  | Py.SNum z =>
      f <- orelse (float_of_int z) OverflowError ;;
      ret (NpNum f)
  | _ => ret NpNaN
  end.

(** One turn of the inner loop of [to_numpy]; the state is the array and
    the flag [contains_nonumeric_values]. *)
Definition to_numpy_visit (row_idx col_idx : nat) (st : ndarray * bool)
  : M (ndarray * bool) :=
  cell <- get_cell_at row_idx col_idx ;;
  let '(results, contains_nonumeric_values) := st in
  let value := value cell in
  if negb (Py.is_none value) then
    if Py.is_number value then
      entry <- np_float value ;;
      results <- orelse (np_setitem results row_idx col_idx entry)
                   IndexError ;;
      ret (results, contains_nonumeric_values)
    else
      results <- orelse (np_setitem results row_idx col_idx NpNaN)
                   IndexError ;;
      ret (results, true)
  else
    results <- orelse (np_setitem results row_idx col_idx NpNaN)
                 IndexError ;;
    ret (results, contains_nonumeric_values).

Definition to_numpy : M ndarray :=
  log_export_subset_warning_if_needed ;;
  let results := np_zeros (shape self) in
  let contains_nonumeric_values := false in
  st <- for_in (range (fst (shape self))) (fun row_idx st =>
    for_in (range (snd (shape self))) (to_numpy_visit row_idx) st)
    (results, contains_nonumeric_values) ;;
  let '(results, contains_nonumeric_values) := st in
  (if contains_nonumeric_values
   then warning_logger coercion_warning else ret tt) ;;
  ret results.

(** [' title="{}"'.format(text)] *)
Definition title_format (text : string) : string :=
  " title=" ^^ Py.dquote ^^ text ^^ Py.dquote.

(** [f'<a href="javascript:;" {title_attr}>'] *)
Definition anchor_open (title_attr : string) : string :=
  "<a href=" ^^ Py.dquote ^^ "javascript:;" ^^ Py.dquote ^^ " "
    ^^ title_attr ^^ ">".

(** The tooltip attribute of the label of exported column [col_i]. *)
Definition html_column_title_attr (col_i : nat) : M string :=
  match columns_help_text (cell_indices self) with
  | Some help_text =>
      h <- orelse (Py.index help_text
             (Z.of_nat col_i + Z.of_nat (snd (export_offset self))))
             IndexError ;;
      ret (title_format h)
  | None => ret ""
  end.

(** The tooltip attribute of the label of exported row [row_idx]. *)
Definition html_row_title_attr (row_idx : Z) : M string :=
  match rows_help_text (cell_indices self) with
  | Some help_text =>
      h <- orelse (Py.index help_text
             (row_idx + Z.of_nat (snd (export_offset self))))
             IndexError ;;
      ret (title_format h)
  | None => ret ""
  end.

(** The tooltip attribute of a data cell. *)
Definition html_cell_title_attr (language_for_description : option string)
  (cell_at_pos : Cell) : M string :=
  match description cell_at_pos with
  | Some d => ret (title_format d)
  | None =>
      match language_for_description with
      | Some lang =>
          match cell_type cell_at_pos with
          | computational =>
              title <- orelse (Dict.get (constructing_words cell_at_pos) lang)
                         (KeyError lang) ;;
              ret (" title=" ^^ Py.dquote ^^ title ^^ Py.dquote)
          | value_only => ret ""
          end
      | None => ret ""
      end
  end.

Definition to_html_table (spaces_replacement top_right_corner_text
  na_rep : string) (language_for_description : option string) : M string :=
  log_export_subset_warning_if_needed ;;
  export <- for_in (Py.range (-1) (Z.of_nat (fst (shape self))))
    (fun row_idx export =>
    let export := export ^^ "<tr>" in
    export <-
      (if (row_idx =? -1)%Z then
         let export := export ^^ "<th>" ^^ top_right_corner_text ^^ "</th>" in
         for_in (range (snd (shape self))) (fun col_i export =>
           let export := export ^^ "<th>" in
           col <- orelse (Py.index (columns_labels (cell_indices self))
                    (Z.of_nat col_i + Z.of_nat (snd (export_offset self))))
                    IndexError ;;
           title_attr <- html_column_title_attr col_i ;;
           ret (export ^^ anchor_open title_attr
                  ^^ Py.replace_space spaces_replacement col
                  ^^ "</a>" ^^ "</th>")) export
       else
         title_attr <- html_row_title_attr row_idx ;;
         let export := export ^^ "<td>" ^^ anchor_open title_attr in
         label <- orelse (Py.index (rows_labels (cell_indices self))
                    (row_idx + Z.of_nat (fst (export_offset self))))
                    IndexError ;;
         let export := export ^^ Py.replace_space spaces_replacement label
                         ^^ "</a>" ^^ "</td>" in
         for_in (range (snd (shape self))) (fun col_idx export =>
           cell_at_pos <- get_cell_at (Z.to_nat row_idx) col_idx ;;
           title_attr <-
             html_cell_title_attr language_for_description cell_at_pos ;;
           ret (export ^^ "<td>" ^^ anchor_open title_attr
                  ^^ value_text na_rep (value cell_at_pos)
                  ^^ "</a>" ^^ "</td>")) export) ;;
    ret (export ^^ "</tr>")) "<table>" ;;
  ret (export ^^ "</table>").

(** [enumerate(l)] *)
Definition enumerate {A} (l : list A) : list (nat * A) :=
  combine (seq 0 (List.length l)) l.

(** The iteration plan of [to_dictionary]: the x axis is the outer one. *)
Record AxisPlan : Type := {
  x_range : nat;
  x : list string;
  x_helptext : option (list string);
  x_start_key : string;
  y_range : nat;
  y : list string;
  y_helptext : option (list string);
  y_start_key : string
}.

Definition axis_plan (by_row : bool) (spaces_replacement : string) : AxisPlan :=
  let ci := cell_indices self in
  (* A) the x axis represents the columns *)
  let plan :=
    {| x_range := snd (shape self);
       x := exported_labels spaces_replacement (columns_labels ci)
              (snd (export_offset self));
       x_helptext := exported_help_text (columns_help_text ci)
                       (snd (export_offset self));
       x_start_key := "columns";
       y_range := fst (shape self);
       y := exported_labels spaces_replacement (rows_labels ci)
              (fst (export_offset self));
       y_helptext := exported_help_text (rows_help_text ci)
                       (fst (export_offset self));
       y_start_key := "rows" |} in
  (* B) the x axis represents the rows *)
  if by_row then
    {| x_range := fst (shape self);
       x := exported_labels spaces_replacement (rows_labels ci)
              (fst (export_offset self));
       x_helptext := exported_help_text (rows_help_text ci)
                       (fst (export_offset self));
       x_start_key := "rows";
       y_range := snd (shape self);
       y := exported_labels spaces_replacement (columns_labels ci)
              (snd (export_offset self));
       y_helptext := exported_help_text (columns_help_text ci)
                       (snd (export_offset self));
       y_start_key := "columns" |}
  else plan.

(** The record of one cell: the formula text per (pseudo)language, then
    the value and the description. *)
Definition cell_record (languages languages_used : list string) (cell : Cell)
  (cell_value : Py.obj) : M (Dict.t Py.obj) :=
  let parsed_cell := parse cell in
  pseudolang_and_val <-
    for_in (enumerate languages) (fun '(i, language) pseudolang_and_val =>
      text <- orelse (Dict.get parsed_cell language) (KeyError language) ;;
      name <- orelse (nth_error languages_used i) IndexError ;;
      ret (Dict.set pseudolang_and_val name (Py.OStr text))) Dict.empty ;;
  let pseudolang_and_val := Dict.set pseudolang_and_val "value" cell_value in
  ret (Dict.set pseudolang_and_val "description"
         (Py.of_option_str (description cell))).

(** One turn of the inner loop of [to_dictionary]; [inner] is the
    dictionary under [y_values[y_start_key]]. *)
Definition to_dictionary_cell (plan : AxisPlan) (by_row : bool)
  (languages languages_used : list string) (skip_nan_cell : bool)
  (nan_replacement : Py.obj) (idx_x idx_y : nat) (inner : Dict.t Py.obj)
  : M (Dict.t Py.obj) :=
  cell <- (if by_row then get_cell_at idx_x idx_y
           else get_cell_at idx_y idx_x) ;;
  let cell_value := value cell in
  if Py.is_none cell_value && skip_nan_cell then ret inner
  else
    let cell_value :=
      if Py.is_none cell_value then nan_replacement
      else Py.of_scalar cell_value in
    pseudolang_and_val <- cell_record languages languages_used cell cell_value ;;
    label <- orelse (nth_error (y plan) idx_y) IndexError ;;
    match y_helptext plan with
    | Some help =>
        h <- orelse (nth_error help idx_y) IndexError ;;
        ret (Dict.set inner label
               (Py.ODict (Dict.set pseudolang_and_val "help_text" (Py.OStr h))))
    | None => ret (Dict.set inner label (Py.ODict pseudolang_and_val))
    end.

(** One turn of the outer loop; [outer] is the dictionary under
    [values[x_start_key]]. *)
Definition to_dictionary_line (plan : AxisPlan) (by_row : bool)
  (languages languages_used : list string) (skip_nan_cell : bool)
  (nan_replacement : Py.obj) (idx_x : nat) (outer : Dict.t Py.obj)
  : M (Dict.t Py.obj) :=
  inner <- for_in (range (y_range plan))
             (to_dictionary_cell plan by_row languages languages_used
                skip_nan_cell nan_replacement idx_x) Dict.empty ;;
  let y_values := Dict.set Dict.empty (y_start_key plan) (Py.ODict inner) in
  label <- orelse (nth_error (x plan) idx_x) IndexError ;;
  match x_helptext plan with
  | Some help =>
      h <- orelse (nth_error help idx_x) IndexError ;;
      ret (Dict.set outer label
             (Py.ODict (Dict.set y_values "help_text" (Py.OStr h))))
  | None => ret (Dict.set outer label (Py.ODict y_values))
  end.

Definition variables_obj (vars : SheetVariables) : Py.obj :=
  Py.ODict (map (fun '(name, v) =>
    (name, Py.ODict [("value", Py.of_scalar (var_value v));
                     ("description", Py.of_option_str (var_description v))]))
    (variables_dict vars)).

Definition labels_obj (labels : list string) : Py.obj :=
  Py.OList (map Py.OStr labels).

(** [self.cell_indices.languages] *)
Definition all_languages : list string := languages (cell_indices self).

Definition to_dictionary (languages : option (list string)) (by_row : bool)
  (languages_pseudonyms : option (list string)) (spaces_replacement : string)
  (skip_nan_cell : bool) (nan_replacement : Py.obj) : M Py.obj :=
  log_export_subset_warning_if_needed ;;
  let languages :=
    match languages with
    | None => all_languages
    | Some l => l
    end in
  if match languages_pseudonyms with
     | Some p => negb (Nat.eqb (List.length p) (List.length languages))
     | None => false
     end
  then raise (ValueError
    "Language pseudonyms does not have the same size as the language array!")
  else
    let languages_used :=
      match languages_pseudonyms with
      | Some p => p
      | None => languages
      end in
    let plan := axis_plan by_row spaces_replacement in
    outer <- for_in (range (x_range plan))
               (to_dictionary_line plan by_row languages languages_used
                  skip_nan_cell nan_replacement) Dict.empty ;;
    let values := Dict.set Dict.empty (x_start_key plan) (Py.ODict outer) in
    let values := Dict.set values "variables"
                    (variables_obj (_get_variables self)) in
    let values := Dict.set values "row-labels"
                    (labels_obj (if by_row then x plan else y plan)) in
    let values := Dict.set values "column-labels"
                    (labels_obj (if by_row then y plan else x plan)) in
    ret (Py.ODict values).

(** The decimal text of a natural number, as in an f-string. *)
Definition nat_text (n : nat) : string := Py.str (Py.SNum (Z.of_nat n)).

(** Registration of the variables in [to_excel]. *)
Definition excel_variables (variables_sheet_name : option string)
  (variables_sheet_header : Dict.t string) (col_label_format : style)
  : M unit :=
  if empty (_get_variables self) then ret tt
  else
    match variables_sheet_name with
    | None =>
        for_each (variables_dict (_get_variables self)) (fun '(name, v) =>
          xlsx_call xlsxwriter (DefineName name (Py.str (var_value v))))
    | Some vs_name =>
        xlsx_call xlsxwriter (AddWorksheet WsVariables vs_name) ;;
        h <- orelse (Dict.get variables_sheet_header "name")
               (KeyError "name") ;;
        xlsx_call xlsxwriter
          (Write WsVariables 0 0 (Py.SStr h) (Some col_label_format)) ;;
        h <- orelse (Dict.get variables_sheet_header "value")
               (KeyError "value") ;;
        xlsx_call xlsxwriter
          (Write WsVariables 0 1 (Py.SStr h) (Some col_label_format)) ;;
        h <- orelse (Dict.get variables_sheet_header "description")
               (KeyError "description") ;;
        xlsx_call xlsxwriter
          (Write WsVariables 0 2 (Py.SStr h) (Some col_label_format)) ;;
        for_in (variables_dict (_get_variables self))
          (fun '(var_n, var_v) row_idx =>
            xlsx_call xlsxwriter
              (Write WsVariables row_idx 0 (Py.SStr var_n) None) ;;
            xlsx_call xlsxwriter
              (Write WsVariables row_idx 1 (var_value var_v) None) ;;
            xlsx_call xlsxwriter
              (Write WsVariables row_idx 2
                 (match var_description var_v with
                  | Some d => Py.SStr d
                  | None => Py.SNone
                  end) None) ;;
            xlsx_call xlsxwriter
              (DefineName var_n
                 ("=" ^^ vs_name ^^ "!$B$" ^^ nat_text (row_idx + 1))) ;;
            ret (row_idx + 1)) 1 ;;
        ret tt
    end.

(** The body of the data loop of [to_excel] for one cell. *)
Definition excel_cell (row_idx col_idx : nat) : M unit :=
  cell <- get_cell_at row_idx col_idx ;;
  if negb (Py.is_none (value cell)) then
    let offset := 0 in
    let offset :=
      if excel_append_labels (cell_indices self) then 1 else offset in
    cell_format <-
      (if Nat.ltb 0 (List.length (excel_format cell))
       then xlsx_call xlsxwriter (AddFormat (excel_format cell)) ;;
            ret (Some (excel_format cell))
       else ret None) ;;
    match cell_type cell with
    | value_only =>
        xlsx_call xlsxwriter
          (Write WsResults (row_idx + offset) (col_idx + offset)
             (value cell) cell_format)
    | computational =>
        formula <- orelse (Dict.get (parse cell) "excel") (KeyError "excel") ;;
        xlsx_call xlsxwriter
          (WriteFormula WsResults (row_idx + offset) (col_idx + offset)
             formula (value cell) cell_format)
    end
  else ret tt.

(** The labels of the columns and of the rows in [to_excel]. *)
Definition excel_labels (spaces_replacement : string)
  (label_row_format label_column_format : style) : M unit :=
  if excel_append_labels (cell_indices self) then
    for_each (range (snd (shape self))) (fun col_idx =>
      label <- orelse (nth_error (columns_labels (cell_indices self))
                 (col_idx + snd (export_offset self))) IndexError ;;
      xlsx_call xlsxwriter
        (Write WsResults 0 (col_idx + 1)
           (Py.SStr (Py.replace_space spaces_replacement label))
           (Some label_column_format))) ;;
    for_each (range (fst (shape self))) (fun row_idx =>
      label <- orelse (nth_error (rows_labels (cell_indices self))
                 (row_idx + fst (export_offset self))) IndexError ;;
      xlsx_call xlsxwriter
        (Write WsResults (row_idx + 1) 0
           (Py.SStr (Py.replace_space spaces_replacement label))
           (Some label_row_format)))
  else ret tt.

(** The sanity check on the file path: [".xlsx" not in file_path[-5:]]. *)
Definition bad_suffix (file_path : string) : bool :=
  negb (Py.contains ".xlsx" (Py.last_chars 5 file_path)).

(** The sanity check on the sheet name:
    [not isinstance(sheet_name, str) or len(sheet_name) < 1]. *)
Definition bad_sheet_name (sheet_name : Py.scalar) : bool :=
  match sheet_name with
  | Py.SStr name => Nat.ltb (String.length name) 1
  | _ => true
  end.

Definition to_excel (file_path : string) (sheet_name : Py.scalar)
  (spaces_replacement : string) (label_row_format label_column_format : style)
  (variables_sheet_name : option string)
  (variables_sheet_header : Dict.t string) : M unit :=
  if bad_suffix file_path
  then raise (ValueError "Suffix of the file has to be '.xslx'!")
  else if bad_sheet_name sheet_name
  then raise (ValueError "Sheet name has to be non-empty string!")
  else
    log_export_subset_warning_if_needed ;;
    (* [xlsxwriter.Workbook(file_path)] records the path and nothing else:
       the file is created by [close]. *)
    emit (WorkbookOpen file_path) ;;
    xlsx_call xlsxwriter (AddWorksheet WsResults (Py.str sheet_name)) ;;
    xlsx_call xlsxwriter (AddFormat label_column_format) ;;
    xlsx_call xlsxwriter (AddFormat label_row_format) ;;
    excel_variables variables_sheet_name variables_sheet_header
      label_column_format ;;
    for_each (range (fst (shape self))) (fun row_idx =>
      for_each (range (snd (shape self))) (fun col_idx =>
        excel_cell row_idx col_idx)) ;;
    excel_labels spaces_replacement label_row_format label_column_format ;;
    xlsx_call xlsxwriter WorkbookClose.

End Serialization.

(** ** Encoder calls and what is observed of them *)

Inductive encoder_call : Type :=
| ToExcel (file_path : string) (sheet_name : Py.scalar)
    (spaces_replacement : string) (label_row_format label_column_format : style)
    (variables_sheet_name : option string)
    (variables_sheet_header : Dict.t string)
| ToDictionary (languages : option (list string)) (by_row : bool)
    (languages_pseudonyms : option (list string)) (spaces_replacement : string)
    (skip_nan_cell : bool) (nan_replacement : Py.obj)
| ToStringOfValues
| To2dList
| ToCsv (spaces_replacement top_right_corner_text sep line_terminator
    na_rep : string)
| ToMarkdown (spaces_replacement top_right_corner_text na_rep : string)
| ToNumpy
| ToHtmlTable (spaces_replacement top_right_corner_text na_rep : string)
    (language_for_description : option string).

Inductive output : Type :=
| OutNone
| OutObj (o : Py.obj)
| OutStr (s : string)
| OutList (l : list (list Py.scalar))
| OutArray (a : ndarray).

Definition mmap {A B} (f : A -> B) (m : M A) : M B :=
  (fst m, match snd m with Ok a => Ok (f a) | Raise e => Raise e end).

Definition run_encoder (self : Sheet) (xlsxwriter : library)
  (call : encoder_call) : M output :=
  match call with
  | ToExcel fp sn sr lrf lcf vsn vsh =>
      mmap (fun _ => OutNone)
        (to_excel self xlsxwriter fp sn sr lrf lcf vsn vsh)
  | ToDictionary ls br lp sr sk nr =>
      mmap OutObj (to_dictionary self ls br lp sr sk nr)
  | ToStringOfValues => mmap OutStr (to_string_of_values self)
  | To2dList => mmap OutList (to_2d_list self)
  | ToCsv sr tr sep lt na => mmap OutStr (to_csv self sr tr sep lt na)
  | ToMarkdown sr tr na => mmap OutStr (to_markdown self sr tr na)
  | ToNumpy => mmap OutArray (to_numpy self)
  | ToHtmlTable sr tr na ld => mmap OutStr (to_html_table self sr tr na ld)
  end.

(** A [to_excel] call that its sanity check turns down. *)
Definition rejected_by_sanity_check (call : encoder_call) : bool :=
  match call with
  | ToExcel fp sn _ _ _ _ _ => bad_suffix fp || bad_sheet_name sn
  | _ => false
  end.

Definition is_subset_warning (e : event) : bool :=
  match e with
  | Warning msg => String.eqb msg subset_warning
  | _ => false
  end.

Definition is_coercion_warning (e : event) : bool :=
  match e with
  | Warning msg => String.eqb msg coercion_warning
  | _ => false
  end.

Definition count_events (p : event -> bool) (tr : list event) : nat :=
  List.length (filter p tr).

(** Every cell read of the trace comes after a subset warning. *)
Definition warned_before_reads (tr : list event) : Prop :=
  forall pre row col post,
    tr = pre ++ GetCell row col :: post ->
    In (Warning subset_warning) pre.

(** The file path ends in [.xlsx]. *)
Definition ends_in_xlsx (file_path : string) : Prop :=
  exists stem, file_path = stem ^^ ".xlsx".

(** The sheet name is a non-empty string. *)
Definition nonempty_str (sheet_name : Py.scalar) : Prop :=
  exists s, sheet_name = Py.SStr s /\ s <> "".

(** The languages [to_dictionary] exports. *)
Definition languages_exported (self : Sheet) (languages : option (list string))
  : list string :=
  match languages with
  | None => all_languages self
  | Some l => l
  end.

(** ** Sheets for the examples *)

Definition plain_cell (v : Py.scalar) : Cell :=
  {| value := v;
     cell_type := value_only;
     parse := [("excel", Py.str v); ("native", Py.str v)];
     description := None;
     excel_format := [];
     constructing_words := [] |}.

(** The cell of a table of values given by rows; [None] outside. *)
Definition cell_of_rows (rows : list (list Py.scalar)) (row col : nat) : Cell :=
  plain_cell (nth col (nth row rows []) Py.SNone).

Definition example_indices (rows cols : list string)
  (rows_help cols_help : option (list string)) (append : bool) : CellIndices :=
  {| rows_labels := rows;
     columns_labels := cols;
     rows_help_text := rows_help;
     columns_help_text := cols_help;
     languages := ["excel"; "native"];
     excel_append_labels := append |}.

Definition example_sheet (offset : nat * nat) (subset : bool)
  (shp : nat * nat) (ci : CellIndices) (rows : list (list Py.scalar)) : Sheet :=
  {| export_offset := offset;
     export_subset := subset;
     shape := shp;
     cell_indices := ci;
     _get_cell_at := cell_of_rows rows;
     _get_variables := {| empty := true; variables_dict := [] |} |}.

(** The 2x2 grid with values [[7, None], [9, 10]]. *)
Definition sheet_7_none_9_10 : Sheet :=
  example_sheet (0, 0) false (2, 2)
    (example_indices ["r0"; "r1"] ["c0"; "c1"] None None false)
    [[Py.SNum 7; Py.SNone]; [Py.SNum 9; Py.SNum 10]].

(** The same grid exported as a subset. *)
Definition subset_7_none_9_10 : Sheet :=
  example_sheet (0, 0) true (2, 2)
    (example_indices ["r0"; "r1"] ["c0"; "c1"] None None false)
    [[Py.SNum 7; Py.SNone]; [Py.SNum 9; Py.SNum 10]].

(** The subset warning of one encoder call, as the trace shows it: sent
    once and ahead of every cell read when the export is a subset, never
    sent otherwise. *)
Definition subset_warning_discipline (self : Sheet) (tr : list event) : Prop :=
  (export_subset self = true ->
     count_events is_subset_warning tr = 1 /\
     (exists rest, tr = Warning subset_warning :: rest) /\
     warned_before_reads tr) /\
  (export_subset self = false ->
     count_events is_subset_warning tr = 0).

Definition not_subset_warning (e : event) : Prop :=
  is_subset_warning e = false.

(** What all events of a computation satisfy. *)
Definition emits_only {A} (P : event -> Prop) (m : M A) : Prop :=
  Forall P (fst m).

(** ** The numeric matrix *)

(** [a[r, c]] *)
Definition np_getitem (a : ndarray) (r c : nat) : option npfloat :=
  match nth_error (np_data a) r with
  | Some row => nth_error row c
  | None => None
  end.

(** [a.shape == shp], with as many rows and entries per row. *)
Definition has_shape (shp : nat * nat) (a : ndarray) : Prop :=
  np_shape a = shp /\
  List.length (np_data a) = fst shp /\
  Forall (fun row => List.length row = snd shp) (np_data a).

(** The entry a value is stored as: the float of a number, NaN for
    anything else; [None] when the number is out of the range of a
    float64. *)
Definition float_entry (v : Py.scalar) : option npfloat :=
  match v with
  | Py.SNum z =>
      match float_of_int z with
      | Some f => Some (NpNum f)
      | None => None
      end
  | _ => Some NpNaN
  end.

(** The value is a number out of the range of a float64. *)
Definition overflows (v : Py.scalar) : bool :=
  match float_entry v with
  | Some _ => false
  | None => true
  end.

(** A value that is neither [None] nor a number. *)
Definition is_other_object (v : Py.scalar) : bool :=
  negb (Py.is_none v) && negb (Py.is_number v).

(** Some cell of the exported shape holds such a value. *)
Definition has_other_object (self : Sheet) : bool :=
  existsb (fun r =>
    existsb (fun c => is_other_object (value (_get_cell_at self r c)))
      (seq 0 (snd (shape self))))
    (seq 0 (fst (shape self))).

(** The cell reads of a row-major traversal of the exported shape. *)
Definition row_reads (self : Sheet) (r : nat) : list event :=
  flat_map (fun c => [GetCell r c]) (seq 0 (snd (shape self))).

Definition all_reads (self : Sheet) : list event :=
  flat_map (row_reads self) (seq 0 (fst (shape self))).

(** The positions of the exported shape in row-major order. *)
Definition positions (self : Sheet) : list (nat * nat) :=
  flat_map (fun r => map (pair r) (seq 0 (snd (shape self))))
    (seq 0 (fst (shape self))).

Definition read_at (pos : nat * nat) : list event :=
  [GetCell (fst pos) (snd pos)].

Definition overflows_at (self : Sheet) (pos : nat * nat) : bool :=
  overflows (value (_get_cell_at self (fst pos) (snd pos))).

Definition other_object_at (self : Sheet) (pos : nat * nat) : bool :=
  is_other_object (value (_get_cell_at self (fst pos) (snd pos))).

(** Some cell of the exported shape holds a number out of the range of a
    float64. *)
Definition has_overflow (self : Sheet) : bool :=
  existsb (overflows_at self) (positions self).

(** The items of a list up to the first one with the property, that one
    included; the whole list when there is none. *)
Fixpoint upto {A} (p : A -> bool) (l : list A) : list A :=
  match l with
  | [] => []
  | x :: rest => if p x then [x] else x :: upto p rest
  end.

(** The cell reads of [to_numpy]: in row-major order, up to the first
    cell that holds a number out of range. *)
Definition reads_until_overflow (self : Sheet) : list event :=
  flat_map read_at (upto (overflows_at self) (positions self)).

(** The state of the loop of [to_numpy] once it has been through the
    positions [done]. *)
Definition numpy_inv (self : Sheet) (done : list (nat * nat))
  (st : ndarray * bool) : Prop :=
  has_shape (shape self) (fst st) /\
  (forall pos, In pos done ->
     np_getitem (fst st) (fst pos) (snd pos)
     = float_entry (value (_get_cell_at self (fst pos) (snd pos)))) /\
  snd st = existsb (other_object_at self) done.

(** One cell that holds ten to the power 400. *)
Definition sheet_ten_to_400 : Sheet :=
  example_sheet (0, 0) false (1, 1)
    (example_indices ["r0"] ["c0"] None None false)
    [[Py.SNum (10 ^ 400)]].

(** A text, then ten to the power 400, then 1. *)
Definition sheet_text_then_overflow : Sheet :=
  example_sheet (0, 0) false (1, 3)
    (example_indices ["r0"] ["c0"; "c1"; "c2"] None None false)
    [[Py.SStr "abc"; Py.SNum (10 ^ 400); Py.SNum 1]].

(** One cell that holds two to the power 53, plus one. *)
Definition sheet_2_53_plus_1 : Sheet :=
  example_sheet (0, 0) false (1, 1)
    (example_indices ["r0"] ["c0"] None None false)
    [[Py.SNum (2 ^ 53 + 1)]].

(** ** Hypertext tooltips *)

(** A 1x1 export that leaves out the first row of a two-row sheet: the
    export offset is (1, 0) and the exported row is the one labelled r1. *)
Definition sheet_skipping_first_row : Sheet :=
  example_sheet (1, 0) false (1, 1)
    (example_indices ["r0"; "r1"] ["c0"]
       (Some ["help r0"; "help r1"]) None false)
    [[Py.SNum 5]].

(** ** Workbook entries *)

(** The event writes a cell of the results worksheet at the position. *)
Definition writes_data_at (row col : nat) (e : event) : bool :=
  match e with
  | Write WsResults r c _ _ => Nat.eqb r row && Nat.eqb c col
  | WriteFormula WsResults r c _ _ _ => Nat.eqb r row && Nat.eqb c col
  | _ => false
  end.

Definition entry_written (tr : list event) (row col : nat) : bool :=
  existsb (writes_data_at row col) tr.

(** Data cells move by one row and one column when labels are appended. *)
Definition label_shift (self : Sheet) : nat :=
  if excel_append_labels (cell_indices self) then 1 else 0.

(** A workbook writer that carries out every call. *)
Definition xlsx_accepts : library := fun _ => None.

(** A workbook writer that turns down a worksheet name with a slash, as
    [xlsxwriter] does, and carries out every other call. *)
Definition xlsx_checks_names : library := fun e =>
  match e with
  | AddWorksheet _ name =>
      if Py.contains "/" name
      then Some (LibraryError "InvalidWorksheetName") else None
  | _ => None
  end.

(** The 2x2 grid [[7, None], [9, 10]] with a valid workbook target. *)
Definition to_excel_7_none_9_10 : M unit :=
  to_excel sheet_7_none_9_10 xlsx_accepts "results.xlsx" (Py.SStr "Results")
    " " [("bold", Py.SNum 1)] [("bold", Py.SNum 1)] None [].

(** ** Reading the exported dictionary *)

(** The entries of a dictionary under a key. *)
Definition entries_for {V} (d : Dict.t V) (k : string) : list (string * V) :=
  filter (fun kv => String.eqb (fst kv) k) d.

(** [d] without the key [k]. *)
Definition dict_remove {V} (d : Dict.t V) (k : string) : Dict.t V :=
  filter (fun kv => negb (String.eqb (fst kv) k)) d.

(** [o[k]] when [o] is a dictionary that has the key. *)
Definition obj_get (o : Py.obj) (k : string) : option Py.obj :=
  match o with
  | Py.ODict d => Dict.get d k
  | _ => None
  end.

(** [values[k1][l1][k2][l2]]: the cell record under two axis keys and two
    labels. *)
Definition record_at (values : Py.obj) (k1 l1 k2 l2 : string)
  : option Py.obj :=
  match obj_get values k1 with
  | Some axis =>
      match obj_get axis l1 with
      | Some line =>
          match obj_get line k2 with
          | Some inner => obj_get inner l2
          | None => None
          end
      | None => None
      end
  | None => None
  end.

(** A cell record without its [help_text] field. *)
Definition strip_help (o : Py.obj) : Py.obj :=
  match o with
  | Py.ODict d => Py.ODict (dict_remove d "help_text")
  | _ => o
  end.

(** The highest index below [n] that satisfies [p]. *)
Fixpoint last_index (p : nat -> bool) (n : nat) : option nat :=
  match n with
  | O => None
  | S n' => if p n' then Some n' else last_index p n'
  end.

(** The label at index [i] is [l]. *)
Definition label_at (labels : list string) (i : nat) (l : string) : bool :=
  match nth_error labels i with
  | Some l' => String.eqb l' l
  | None => false
  end.

(** The cell [to_dictionary] fetches for the indices of its two loops. *)
Definition cell_at (self : Sheet) (by_row : bool) (idx_x idx_y : nat) : Cell :=
  if by_row then _get_cell_at self idx_x idx_y
  else _get_cell_at self idx_y idx_x.

(** The cell is left out of the dictionary. *)
Definition skipped (skip_nan_cell : bool) (cell : Cell) : bool :=
  Py.is_none (value cell) && skip_nan_cell.

(** The value exported for a cell. *)
Definition exported_value (nan_replacement : Py.obj) (cell : Cell) : Py.obj :=
  if Py.is_none (value cell) then nan_replacement
  else Py.of_scalar (value cell).

(** [rec] is the record [to_dictionary] builds for [cell], met at index
    [idx] of the inner axis whose help text is [help]. *)
Definition record_built (languages languages_used : list string)
  (nan_replacement : Py.obj) (help : option (list string)) (idx : nat)
  (cell : Cell) (rec : Py.obj) : Prop :=
  exists base,
    snd (cell_record languages languages_used cell
           (exported_value nan_replacement cell)) = Ok base /\
    match help with
    | Some h =>
        exists t, nth_error h idx = Some t /\
          rec = Py.ODict (Dict.set base "help_text" (Py.OStr t))
    | None => rec = Py.ODict base
    end.

(** The key under which a turn of the inner loop stores its record, if it
    stores one. *)
Definition inner_key (self : Sheet) (plan : AxisPlan) (by_row : bool)
  (skip_nan_cell : bool) (idx_x idx_y : nat) : option string :=
  if skipped skip_nan_cell (cell_at self by_row idx_x idx_y) then None
  else nth_error (y plan) idx_y.

Definition key_is (k : option string) (l : string) : bool :=
  match k with
  | Some k' => String.eqb k' l
  | None => false
  end.

(** The languages and the names they are exported under. *)
Definition languages_used_for (languages : list string)
  (languages_pseudonyms : option (list string)) : list string :=
  match languages_pseudonyms with
  | Some p => p
  | None => languages
  end.

(** [line] is what a turn of the outer loop of [to_dictionary] stores for
    index [idx_x]: the dictionary of the inner loop under the key of the
    inner axis, and the help text of the line when the outer axis has one. *)
Definition line_built (self : Sheet) (plan : AxisPlan) (by_row : bool)
  (languages languages_used : list string) (skip_nan_cell : bool)
  (nan_replacement : Py.obj) (idx_x : nat) (line : Py.obj) : Prop :=
  exists inner,
    snd (for_in (range (y_range plan))
           (to_dictionary_cell self plan by_row languages languages_used
              skip_nan_cell nan_replacement idx_x) Dict.empty) = Ok inner /\
    let y_values := Dict.set Dict.empty (y_start_key plan) (Py.ODict inner) in
    match x_helptext plan with
    | Some h =>
        exists t, nth_error h idx_x = Some t /\
          line = Py.ODict (Dict.set y_values "help_text" (Py.OStr t))
    | None => line = Py.ODict y_values
    end.

(** The object a computation returns; [None] when it raises. *)
Definition returned (m : M Py.obj) : Py.obj :=
  match snd m with
  | Ok o => o
  | Raise _ => Py.ONone
  end.

(** One row, two columns that share the label c; the second cell is empty. *)
Definition sheet_duplicate_columns : Sheet :=
  example_sheet (0, 0) false (1, 2)
    (example_indices ["r0"] ["c"; "c"] None None false)
    [[Py.SNum 5; Py.SNone]].

(** Its dictionary by rows, cells without a value left out. *)
Definition dictionary_duplicate_columns : M Py.obj :=
  to_dictionary sheet_duplicate_columns None true None " " true Py.ONone.

(** ** Transposition *)

(** The exported labels of the two axes. *)
Definition exported_row_labels (self : Sheet) (spaces_replacement : string)
  : list string :=
  exported_labels spaces_replacement (rows_labels (cell_indices self))
    (fst (export_offset self)).

Definition exported_column_labels (self : Sheet) (spaces_replacement : string)
  : list string :=
  exported_labels spaces_replacement (columns_labels (cell_indices self))
    (snd (export_offset self)).

(** The help texts of the two axes as the exports show them, if any. *)
Definition exported_rows_help (self : Sheet) : option (list string) :=
  exported_help_text (rows_help_text (cell_indices self))
    (fst (export_offset self)).

Definition exported_columns_help (self : Sheet) : option (list string) :=
  exported_help_text (columns_help_text (cell_indices self))
    (snd (export_offset self)).

(** The first [n] labels are pairwise distinct. *)
Definition distinct_labels (labels : list string) (n : nat) : Prop :=
  NoDup (firstn n labels).

(** At most one index below [n] satisfies [p]. *)
Definition at_most_one (p : nat -> bool) (n : nat) : Prop :=
  forall i j, i < n -> j < n -> p i = true -> p j = true -> i = j.

(** The indices a lookup by two labels ends at: the last outer index that
    fits, then the last inner index that fits on that line. *)
Definition select_cell (px : nat -> bool) (py : nat -> nat -> bool)
  (nx ny : nat) : option (nat * nat) :=
  match last_index px nx with
  | Some i =>
      match last_index (py i) ny with
      | Some j => Some (i, j)
      | None => None
      end
  | None => None
  end.

Definition swap_pair (p : nat * nat) : nat * nat := (snd p, fst p).

(** Two rows and two columns, both axes with help texts, exported from
    the second row on. *)
Definition sheet_with_help_texts : Sheet :=
  example_sheet (1, 0) true (1, 2)
    (example_indices ["r0"; "r1"] ["c0"; "c1"]
       (Some ["help r0"; "help r1"]) (Some ["help c0"; "help c1"]) false)
    [[Py.SNum 1; Py.SNum 2]].

(** A 1x1 sheet whose row carries a help text. *)
Definition sheet_with_row_help : Sheet :=
  example_sheet (0, 0) false (1, 1)
    (example_indices ["r0"] ["c0"] (Some ["help r0"]) None false)
    [[Py.SNum 5]].

(** Two rows that share the label r; the second cell is empty. *)
Definition sheet_duplicate_rows : Sheet :=
  example_sheet (0, 0) false (2, 1)
    (example_indices ["r"; "r"] ["c0"] None None false)
    [[Py.SNum 5]; [Py.SNone]].

(** The dictionary of a sheet with the default arguments but [by_row] and
    [skip_nan_cell]. *)
Definition dictionary_of (self : Sheet) (by_row skip_nan_cell : bool)
  : M Py.obj :=
  to_dictionary self None by_row None " " skip_nan_cell Py.ONone.

(** ** What the flat-sequence encoders return *)

(** The subset warning of a call, if the export is a subset. *)
Definition subset_trace (self : Sheet) : list event :=
  if export_subset self then [Warning subset_warning] else [].

(** The values of the cells of the exported shape, row by row. *)
Definition values_row (self : Sheet) (r : nat) : list Py.scalar :=
  map (fun c => value (_get_cell_at self r c)) (seq 0 (snd (shape self))).

Definition values_table (self : Sheet) : list (list Py.scalar) :=
  map (values_row self) (seq 0 (fst (shape self))).

(** The list literal of a row and of a table of values. *)
Definition render_row (row : list Py.scalar) : string :=
  "[" ^^ String.concat ", " (map Py.str row) ^^ "]".

Definition render_table (table : list (list Py.scalar)) : string :=
  "[" ^^ String.concat ("," ^^ Py.newline) (map render_row table) ^^ "]".

(** ** What the delimited-text encoder returns *)

(** The header line: the corner text, then the exported column labels. *)
Definition csv_header (self : Sheet) (spaces_replacement top_right_corner_text
  sep : string) : string :=
  top_right_corner_text ^^ sep
    ^^ String.concat sep
         (firstn (snd (shape self))
            (exported_column_labels self spaces_replacement)).

(** A data line: the row label, then the values of the row. *)
Definition csv_line (sep na_rep : string)
  (line : string * list Py.scalar) : string :=
  fst line ^^ sep ^^ String.concat sep (map (value_text na_rep) (snd line)).

Definition csv_lines (self : Sheet) (spaces_replacement top_right_corner_text
  sep na_rep : string) : list string :=
  csv_header self spaces_replacement top_right_corner_text sep
  :: map (csv_line sep na_rep)
       (combine (firstn (fst (shape self))
                   (exported_row_labels self spaces_replacement))
          (values_table self)).

(** The label lists reach as far as the exported shape. *)
Definition labels_cover_shape (self : Sheet) : Prop :=
  fst (shape self) + fst (export_offset self)
    <= List.length (rows_labels (cell_indices self)) /\
  snd (shape self) + snd (export_offset self)
    <= List.length (columns_labels (cell_indices self)).

(** One row, two columns and a single column label. *)
Definition sheet_short_column_labels : Sheet :=
  example_sheet (0, 0) true (1, 2)
    (example_indices ["r0"] ["c0"] None None false)
    [[Py.SNum 1; Py.SNum 2]].

(** ** What the markup encoder returns *)

(** What closes a line of the table: nothing when the sheet has no column. *)
Definition md_line_end (self : Sheet) (close : string) : string :=
  if Nat.eqb (snd (shape self)) 0 then "" else close.

Definition md_header (self : Sheet) (spaces_replacement
  top_right_corner_text : string) : string :=
  "| " ^^ top_right_corner_text ^^ " |"
    ^^ String.concat " | "
         (map (fun label => "*" ^^ label ^^ "*")
            (firstn (snd (shape self))
               (exported_column_labels self spaces_replacement)))
    ^^ md_line_end self (" |" ^^ Py.newline).

Definition md_separator (self : Sheet) : string :=
  "|----|" ^^ String.concat "" (repeat "----|" (snd (shape self)))
    ^^ md_line_end self Py.newline.

Definition md_line (self : Sheet) (na_rep : string)
  (line : string * list Py.scalar) : string :=
  "| *" ^^ fst line ^^ "*" ^^ " | "
    ^^ String.concat " | " (map (value_text na_rep) (snd line))
    ^^ md_line_end self (" |" ^^ Py.newline).

Definition md_table (self : Sheet) (spaces_replacement top_right_corner_text
  na_rep : string) : string :=
  md_header self spaces_replacement top_right_corner_text
    ^^ md_separator self
    ^^ String.concat ""
         (map (md_line self na_rep)
            (combine (firstn (fst (shape self))
                        (exported_row_labels self spaces_replacement))
               (values_table self))).

(** ** The life of the workbook *)

Definition is_open_or_close (e : event) : bool :=
  match e with
  | WorkbookOpen _ => true
  | WorkbookClose => true
  | _ => false
  end.

Definition between_open_and_close (e : event) : Prop :=
  is_open_or_close e = false.

(** The computation closes the workbook when it returns, as its last
    effect, and only then. *)
Definition closes_iff_returns (m : M unit) : Prop :=
  match snd m with
  | Ok _ =>
      exists mid, fst m = mid ++ [WorkbookClose] /\
        Forall between_open_and_close mid
  | Raise _ => Forall between_open_and_close (fst m)
  end.

(** The format a cell is written with. *)
Definition cell_format_of (cell : Cell) : option style :=
  if Nat.ltb 0 (List.length (excel_format cell))
  then Some (excel_format cell) else None.

(** The effects of the data loop of [to_excel]. *)
Definition excel_data_trace (self : Sheet) (xlsx : library) : list event :=
  flat_map (fun r =>
    flat_map (fun c => fst (excel_cell self xlsx r c))
      (seq 0 (snd (shape self))))
    (seq 0 (fst (shape self))).

(** The workbook writer carries out every call. *)
Definition accepts_all (xlsx : library) : Prop :=
  forall e, xlsx e = None.

(** The effects that are calls of the workbook writer after the workbook
    object has been made. *)
Definition writer_call (e : event) : bool :=
  match e with
  | Warning _ | GetCell _ _ | WorkbookOpen _ => false
  | _ => true
  end.

(** The workbook writer carries out every call among [effects]. *)
Definition accepts (xlsx : library) (effects : list event) : Prop :=
  forall e, In e effects -> writer_call e = true -> xlsx e = None.

(** [m] is the run [m'] when the writer carries out every call of [m']. *)
Definition follows {A} (xlsx : library) (m m' : M A) : Prop :=
  accepts xlsx (fst m') -> m = m'.

(** The named reference of the variable written at [row] of the variables
    sheet: column B, the row counted from one. *)
Definition variable_reference (variables_sheet_name : string) (row : nat)
  : string :=
  "=" ^^ variables_sheet_name ^^ "!$B$" ^^ nat_text (row + 1).

(** The effects of the loop over the variables when they get a sheet of
    their own, the first of them written at [row]. *)
Fixpoint variable_rows (variables_sheet_name : string) (row : nat)
  (vars : list (string * VariableEntry)) : list event :=
  match vars with
  | [] => []
  | (var_n, var_v) :: rest =>
      [Write WsVariables row 0 (Py.SStr var_n) None;
       Write WsVariables row 1 (var_value var_v) None;
       Write WsVariables row 2
         (match var_description var_v with
          | Some d => Py.SStr d
          | None => Py.SNone
          end) None;
       DefineName var_n (variable_reference variables_sheet_name row)]
      ++ variable_rows variables_sheet_name (row + 1) rest
  end.

(** The effect registers a variable or touches the variables sheet. *)
Definition is_variables_effect (e : event) : bool :=
  match e with
  | DefineName _ _ => true
  | AddWorksheet WsVariables _ => true
  | Write WsVariables _ _ _ _ => true
  | WriteFormula WsVariables _ _ _ _ _ => true
  | _ => false
  end.

(** A variable registered as a workbook-level constant. *)
Definition define_constant (var : string * VariableEntry) : event :=
  DefineName (fst var) (Py.str (var_value (snd var))).

(** A cell that holds a formula. *)
Definition formula_cell (v : Py.scalar) (excel native : string) : Cell :=
  {| value := v;
     cell_type := computational;
     parse := [("excel", excel); ("native", native)];
     description := None;
     excel_format := [];
     constructing_words := [("excel", excel); ("native", native)] |}.

(** A 1x2 sheet with labels appended on export, two variables, a value
    and a formula that doubles it. *)
Definition sheet_with_variables : Sheet :=
  {| export_offset := (0, 0);
     export_subset := false;
     shape := (1, 2);
     cell_indices := example_indices ["r0"] ["c0"; "c1"] None None true;
     _get_cell_at := fun _ c =>
       if Nat.eqb c 0 then plain_cell (Py.SNum 4)
       else formula_cell (Py.SNum 8) "=B2*2" "4*2";
     _get_variables :=
       {| empty := false;
          variables_dict :=
            [("rate", {| var_value := Py.SNum 3;
                         var_description := Some "yearly rate" |});
             ("years", {| var_value := Py.SNum 10;
                          var_description := None |})] |} |}.

(** The header of the variables sheet that [to_excel] uses by default. *)
Definition default_variables_header : Dict.t string :=
  [("name", "Name"); ("value", "Value"); ("description", "Description")].

(** Labels are appended on export but the column labels fall short. *)
Definition sheet_short_appended_labels : Sheet :=
  example_sheet (0, 0) false (1, 2)
    (example_indices ["r0"] ["c0"] None None true)
    [[Py.SNum 1; Py.SNum 2]].

(** A formula cell that holds a value but has no text in the excel
    language. *)
Definition lacks_excel_formula (cell : Cell) : bool :=
  negb (Py.is_none (value cell))
  && match cell_type cell with
     | computational =>
         match Dict.get (parse cell) "excel" with
         | Some _ => false
         | None => true
         end
     | value_only => false
     end.

(** A 1x1 sheet whose cell is a formula known in the native language
    only. *)
Definition sheet_native_formula : Sheet :=
  {| export_offset := (0, 0);
     export_subset := false;
     shape := (1, 1);
     cell_indices := example_indices ["r0"] ["c0"] None None false;
     _get_cell_at := fun _ _ =>
       {| value := Py.SNum 8;
          cell_type := computational;
          parse := [("native", "4*2")];
          description := None;
          excel_format := [];
          constructing_words := [("native", "4*2")] |};
     _get_variables := {| empty := true; variables_dict := [] |} |}.

(** ** The order of the cell reads of [to_dictionary] *)

(** The cell reads of a column-major traversal of the exported shape. *)
Definition column_reads (self : Sheet) (c : nat) : list event :=
  flat_map (fun r => [GetCell r c]) (seq 0 (fst (shape self))).

Definition all_reads_by_column (self : Sheet) : list event :=
  flat_map (column_reads self) (seq 0 (snd (shape self))).

(** The help texts, where an axis has them, reach as far as the exported
    shape. *)
Definition help_covers_shape (self : Sheet) : Prop :=
  match rows_help_text (cell_indices self) with
  | Some h => fst (shape self) + fst (export_offset self) <= List.length h
  | None => True
  end /\
  match columns_help_text (cell_indices self) with
  | Some h => snd (shape self) + snd (export_offset self) <= List.length h
  | None => True
  end.

(** Every cell of the exported shape that is not skipped has a text in
    every exported language. *)
Definition cells_speak (self : Sheet) (languages : list string)
  (skip_nan_cell : bool) : Prop :=
  forall r c lang,
    r < fst (shape self) -> c < snd (shape self) -> In lang languages ->
    skipped skip_nan_cell (_get_cell_at self r c) = false ->
    Dict.get (parse (_get_cell_at self r c)) lang <> None.

(** The pseudonyms, if any, are as many as the languages. *)
Definition pseudonyms_match (languages : list string)
  (languages_pseudonyms : option (list string)) : Prop :=
  match languages_pseudonyms with
  | Some p => List.length p = List.length languages
  | None => True
  end.

(** ** What the hypertext encoder returns *)

(** The tooltip attribute of a data cell; [None] when the phrase of the
    cell in the fallback language is missing. *)
Definition html_cell_title (language_for_description : option string)
  (cell : Cell) : option string :=
  match description cell with
  | Some d => Some (title_format d)
  | None =>
      match language_for_description with
      | Some lang =>
          match cell_type cell with
          | computational =>
              match Dict.get (constructing_words cell) lang with
              | Some title => Some (title_format title)
              | None => None
              end
          | value_only => Some ""
          end
      | None => Some ""
      end
  end.

(** The tooltip attribute of a label: the help text found at [index] when
    the axis has help texts; [None] when the index is out of range. *)
Definition html_label_title (help : option (list string)) (index : nat)
  : option string :=
  match help with
  | Some h =>
      match nth_error h index with
      | Some t => Some (title_format t)
      | None => None
      end
  | None => Some ""
  end.

Definition or_empty (o : option string) : string :=
  match o with
  | Some s => s
  | None => ""
  end.

(** A header cell, a label cell and a data cell of the table. *)
Definition html_th (title_attr text : string) : string :=
  "<th>" ^^ anchor_open title_attr ^^ text ^^ "</a>" ^^ "</th>".

Definition html_td (title_attr text : string) : string :=
  "<td>" ^^ anchor_open title_attr ^^ text ^^ "</a>" ^^ "</td>".

Definition html_header_row (self : Sheet) (spaces_replacement
  top_right_corner_text : string) : string :=
  "<tr>" ^^ "<th>" ^^ top_right_corner_text ^^ "</th>"
    ^^ String.concat ""
         (map (fun c =>
                 html_th
                   (or_empty (html_label_title
                                (columns_help_text (cell_indices self))
                                (c + snd (export_offset self))))
                   (nth c (exported_column_labels self spaces_replacement) ""))
            (seq 0 (snd (shape self))))
    ^^ "</tr>".

(** The row of exported index [r]; its tooltip is read at [r] plus the
    column component of the export offset. *)
Definition html_data_row (self : Sheet) (spaces_replacement na_rep : string)
  (language_for_description : option string) (r : nat) : string :=
  "<tr>"
    ^^ html_td
         (or_empty (html_label_title (rows_help_text (cell_indices self))
                      (r + snd (export_offset self))))
         (nth r (exported_row_labels self spaces_replacement) "")
    ^^ String.concat ""
         (map (fun c =>
                 html_td
                   (or_empty (html_cell_title language_for_description
                                (_get_cell_at self r c)))
                   (value_text na_rep (value (_get_cell_at self r c))))
            (seq 0 (snd (shape self))))
    ^^ "</tr>".

Definition html_table (self : Sheet) (spaces_replacement top_right_corner_text
  na_rep : string) (language_for_description : option string) : string :=
  "<table>"
    ^^ html_header_row self spaces_replacement top_right_corner_text
    ^^ String.concat ""
         (map (html_data_row self spaces_replacement na_rep
                 language_for_description)
            (seq 0 (fst (shape self))))
    ^^ "</table>".

(** Every tooltip the encoder looks for is there. *)
Definition tooltips_available (self : Sheet)
  (language_for_description : option string) : Prop :=
  (forall c, c < snd (shape self) ->
     html_label_title (columns_help_text (cell_indices self))
       (c + snd (export_offset self)) <> None) /\
  (forall r, r < fst (shape self) ->
     html_label_title (rows_help_text (cell_indices self))
       (r + snd (export_offset self)) <> None) /\
  (forall r c, r < fst (shape self) -> c < snd (shape self) ->
     html_cell_title language_for_description (_get_cell_at self r c)
     <> None).

(** The rows have no help text, or the two components of the export
    offset agree: the index the encoder reads the tooltip of a row label
    at is then the index of the label itself. *)
Definition row_tooltips_at_labels (self : Sheet) : Prop :=
  rows_help_text (cell_indices self) = None \/
  fst (export_offset self) = snd (export_offset self).

(** The row of exported index [r], the tooltip of its label being the help
    text of that row. *)
Definition html_row_with_own_help (self : Sheet)
  (spaces_replacement na_rep : string)
  (language_for_description : option string) (r : nat) : string :=
  "<tr>"
    ^^ html_td
         (or_empty (html_label_title (rows_help_text (cell_indices self))
                      (r + fst (export_offset self))))
         (nth r (exported_row_labels self spaces_replacement) "")
    ^^ String.concat ""
         (map (fun c =>
                 html_td
                   (or_empty (html_cell_title language_for_description
                                (_get_cell_at self r c)))
                   (value_text na_rep (value (_get_cell_at self r c))))
            (seq 0 (snd (shape self))))
    ^^ "</tr>".

(** The table in which every label carries the help text of its own row
    or column. *)
Definition html_table_with_own_help (self : Sheet)
  (spaces_replacement top_right_corner_text na_rep : string)
  (language_for_description : option string) : string :=
  "<table>"
    ^^ html_header_row self spaces_replacement top_right_corner_text
    ^^ String.concat ""
         (map (html_row_with_own_help self spaces_replacement na_rep
                 language_for_description)
            (seq 0 (fst (shape self))))
    ^^ "</table>".

(** A value described as four and a formula that doubles it, in the
    second row of a sheet whose two axes carry help texts; the export
    leaves out the first row and the first column. *)
Definition sheet_with_tooltips : Sheet :=
  {| export_offset := (1, 1);
     export_subset := true;
     shape := (1, 2);
     cell_indices :=
       example_indices ["r0"; "r1"] ["c0"; "c1"; "c2"]
         (Some ["help r0"; "help r1"])
         (Some ["help c0"; "help c1"; "help c2"]) false;
     _get_cell_at := fun _ c =>
       if Nat.eqb c 0
       then {| value := Py.SNum 4;
               cell_type := value_only;
               parse := [("excel", "4"); ("native", "4")];
               description := Some "four";
               excel_format := [];
               constructing_words := [] |}
       else formula_cell (Py.SNum 8) "=B2*2" "4*2";
     _get_variables := {| empty := true; variables_dict := [] |} |}.

(** ** What every encoder does with the cells *)

(** A computation that returns has read the cell. *)
Definition reads_cell {A} (r c : nat) (m : M A) : Prop :=
  forall a, snd m = Ok a -> In (GetCell r c) (fst m).

(** What an encoder call that returned has made of the cells: the entries
    of its result, or of the workbook, cell by cell. *)
Definition cells_in_result (self : Sheet) (call : encoder_call)
  (tr : list event) (out : output) : Prop :=
  match call with
  | ToExcel _ _ _ _ _ _ _ =>
      forall r c, r < fst (shape self) -> c < snd (shape self) ->
        entry_written tr (r + label_shift self) (c + label_shift self)
        = negb (Py.is_none (value (_get_cell_at self r c)))
  | ToDictionary _ by_row _ sr skip_nan_cell _ =>
      let plan := axis_plan self by_row sr in
      distinct_labels (x plan) (x_range plan) ->
      distinct_labels (y plan) (y_range plan) ->
      forall values i j lx ly,
        out = OutObj values ->
        i < x_range plan -> j < y_range plan ->
        nth_error (x plan) i = Some lx -> nth_error (y plan) j = Some ly ->
        (record_at values (x_start_key plan) lx (y_start_key plan) ly = None
         <-> Py.is_none (value (cell_at self by_row i j)) = true /\
             skip_nan_cell = true)
  | ToStringOfValues => out = OutStr (render_table (values_table self))
  | To2dList => out = OutList (values_table self)
  | ToCsv sr corner sep lt na =>
      labels_cover_shape self ->
      out = OutStr (String.concat lt (csv_lines self sr corner sep na))
  | ToMarkdown sr corner na =>
      labels_cover_shape self ->
      out = OutStr (md_table self sr corner na)
  | ToNumpy =>
      exists a, out = OutArray a /\
        forall r c, r < fst (shape self) -> c < snd (shape self) ->
          np_getitem a r c = float_entry (value (_get_cell_at self r c)) /\
          (Py.is_none (value (_get_cell_at self r c)) = true ->
           np_getitem a r c = Some NpNaN)
  | ToHtmlTable sr corner na ld =>
      labels_cover_shape self -> tooltips_available self ld ->
      out = OutStr (html_table self sr corner na ld)
  end.

(** * The sheet of [spreadsheet.py]

    The class [Spreadsheet] keeps its cells in a list of rows and is
    addressed by integer position ([iloc]) or by nickname ([loc]). The
    class [Cell] is defined elsewhere: the two ways the sheet builds a
    cell are taken as parameters. *)

Module Spreadsheet.

(** [l.index(x)]: the first position of [x]; [None] stands for
    [ValueError]. *)
Fixpoint list_index (l : list string) (x : string) : option nat :=
  match l with
  | [] => None
  | y :: rest =>
      if String.eqb y x then Some 0
      else match list_index rest x with
           | Some i => Some (S i)
           | None => None
           end
  end.

(** [l[i] = x] with an integer index: a negative index counts from the
    end, [None] stands for [IndexError]. *)
Definition setitem {A} (l : list A) (i : Z) (x : A) : option (list A) :=
  if (i <? 0)%Z
  then (if (i + Z.of_nat (List.length l) <? 0)%Z then None
        else list_setitem l (Z.to_nat (i + Z.of_nat (List.length l))) x)
  else list_setitem l (Z.to_nat i) x.

(** The part of [CellIndices] the sheet uses. *)
Record Indices : Type := {
  shape : nat * nat;
  rows_nicknames : list string;
  columns_nicknames : list string;
  languages : list string
}.

Record t : Type := {
  cell_indices : Indices;
  _sheet : list (list Cell)
}.

(** What is assigned to a position: a cell, or a bare value. *)
Inductive item : Type :=
| ItemCell (c : Cell)
| ItemValue (v : Py.scalar).

(** The error of [l.index(x)] for an absent [x]; the text is the one Python
    prints for a name that needs no escaping. *)
Definition not_in_list (x : string) : exn :=
  ValueError ("'" ^^ x ^^ "' is not in list").

Definition both_indices : exn :=
  ValueError
    "Only one of parameters 'index_integer' and'index_nickname' has to be set!".

Section WithCell.

(** [Cell(cell_indices=...)] *)
Variable empty_cell : Cell.
(** [Cell(row, column, value=value, cell_indices=...)] *)
Variable value_cell : Z -> Z -> Py.scalar -> Cell.

Definition _initialise_array (ci : Indices) : list (list Cell) :=
  fold_left (fun array (_ : nat) =>
    let row := fold_left (fun row (_ : nat) => row ++ [empty_cell])
                 (range (snd (shape ci))) [] in
    array ++ [row]) (range (fst (shape ci))) [].

(** [Spreadsheet(cell_indices)] *)
Definition init (ci : Indices) : t :=
  {| cell_indices := ci; _sheet := _initialise_array ci |}.

(** The integer index a nickname index stands for: both nicknames are
    looked up among the nicknames of the rows. *)
Definition resolve (self : t) (index_integer : option (Z * Z))
  (index_nickname : option (string * string)) : M (option (Z * Z)) :=
  match index_nickname with
  | Some (a, b) =>
      _x <- orelse (list_index (rows_nicknames (cell_indices self)) a)
              (not_in_list a) ;;
      _y <- orelse (list_index (rows_nicknames (cell_indices self)) b)
              (not_in_list b) ;;
      ret (Some (Z.of_nat _x, Z.of_nat _y))
  | None => ret index_integer
  end.

Definition _set_item (self : t) (value : item)
  (index_integer : option (Z * Z))
  (index_nickname : option (string * string)) : M t :=
  match index_integer, index_nickname with
  | Some _, Some _ => raise both_indices
  | _, _ =>
      index_integer <- resolve self index_integer index_nickname ;;
      match index_integer with
      | Some (i, j) =>
          let _value :=
            match value with
            | ItemCell c => c
            | ItemValue v => value_cell i j v
            end in
          row <- orelse (Py.index (_sheet self) i) IndexError ;;
          row <- orelse (setitem row j _value) IndexError ;;
          sheet <- orelse (setitem (_sheet self) i row) IndexError ;;
          ret {| cell_indices := cell_indices self; _sheet := sheet |}
      | None => ret self
      end
  end.

Definition _get_item (self : t) (index_integer : option (Z * Z))
  (index_nickname : option (string * string)) : M (option Cell) :=
  match index_integer, index_nickname with
  | Some _, Some _ => raise both_indices
  | _, _ =>
      index_integer <- resolve self index_integer index_nickname ;;
      match index_integer with
      | Some (i, j) =>
          row <- orelse (Py.index (_sheet self) i) IndexError ;;
          cell <- orelse (Py.index row j) IndexError ;;
          ret (Some cell)
      | None => ret None
      end
  end.

(** [self.iloc[i, j]] and [self.iloc[i, j] = val] *)
Definition iloc_get (self : t) (index : Z * Z) : M (option Cell) :=
  _get_item self (Some index) None.

Definition iloc_set (self : t) (index : Z * Z) (val : item) : M t :=
  _set_item self val (Some index) None.

(** [self.loc[a, b]] and [self.loc[a, b] = val] *)
Definition loc_get (self : t) (index : string * string) : M (option Cell) :=
  _get_item self None (Some index).

Definition loc_set (self : t) (index : string * string) (val : item) : M t :=
  _set_item self val None (Some index).

End WithCell.

(** [self.shape] *)
Definition sheet_shape (self : t) : nat * nat :=
  (fst (shape (cell_indices self)), snd (shape (cell_indices self))).

(** [self.iloc[row_idx, col_idx]] where the encoders read a cell: with an
    integer index, [_get_item] returns a cell or raises. *)
Definition iloc_cell (self : t) (row_idx col_idx : nat) : M Cell :=
  row <- orelse (Py.index (_sheet self) (Z.of_nat row_idx)) IndexError ;;
  orelse (Py.index row (Z.of_nat col_idx)) IndexError.

(** The body of the data loop of [to_excel] for one cell. *)
Definition excel_cell (self : t) (xlsxwriter : library)
  (row_idx col_idx : nat) : M unit :=
  cell <- iloc_cell self row_idx col_idx ;;
  if negb (Py.is_none (value cell)) then
    match cell_type cell with
    | value_only =>
        xlsx_call xlsxwriter
          (Write WsResults row_idx col_idx (value cell) None)
    | computational =>
        formula <- orelse (Dict.get (parse cell) "excel")
                     (KeyError "excel") ;;
        xlsx_call xlsxwriter
          (WriteFormula WsResults row_idx col_idx formula (value cell) None)
    end
  else ret tt.

Definition to_excel (self : t) (xlsxwriter : library) (file_path : string)
  (sheet_name : Py.scalar) : M unit :=
  if bad_suffix file_path
  then raise (ValueError "Suffix of the file has to be '.xslx'!")
  else if bad_sheet_name sheet_name
  then raise (ValueError "Sheet name has to be non-empty string!")
  else
    (* [xlsxwriter.Workbook(file_path)] records the path and nothing else:
       the file is created by [close]. *)
    emit (WorkbookOpen file_path) ;;
    xlsx_call xlsxwriter (AddWorksheet WsResults (Py.str sheet_name)) ;;
    for_each (range (fst (sheet_shape self))) (fun row_idx =>
      for_each (range (snd (sheet_shape self))) (fun col_idx =>
        excel_cell self xlsxwriter row_idx col_idx)) ;;
    xlsx_call xlsxwriter WorkbookClose.

(** One turn of the inner loop of [to_dictionary]. *)
Definition to_dictionary_cell (self : t) (by_row : bool)
  (languages languages_used y : list string) (idx_x idx_y : nat)
  (x_values : Dict.t Py.obj) : M (Dict.t Py.obj) :=
  cell <- (if by_row then iloc_cell self idx_x idx_y
           else iloc_cell self idx_y idx_x) ;;
  if Py.is_none (value cell) then ret x_values
  else
    let parsed_cell := parse cell in
    pseudolang_and_val <-
      for_in (enumerate languages) (fun '(i, language) pseudolang_and_val =>
        text <- orelse (Dict.get parsed_cell language) (KeyError language) ;;
        name <- orelse (nth_error languages_used i) IndexError ;;
        ret (Dict.set pseudolang_and_val name (Py.OStr text))) Dict.empty ;;
    let pseudolang_and_val :=
      Dict.set pseudolang_and_val "value" (Py.of_scalar (value cell)) in
    label <- orelse (nth_error y idx_y) IndexError ;;
    ret (Dict.set x_values label (Py.ODict pseudolang_and_val)).

Definition to_dictionary (self : t) (languages : option (list string))
  (by_row : bool) (languages_pseudonyms : option (list string)) : M Py.obj :=
  let languages :=
    match languages with
    | None => Spreadsheet.languages (cell_indices self)
    | Some l => l
    end in
  if match languages_pseudonyms with
     | Some p => negb (Nat.eqb (List.length p) (List.length languages))
     | None => false
     end
  then raise (ValueError
    "Language pseudonyms does not have the same size as the language array!")
  else
    let languages_used :=
      match languages_pseudonyms with
      | Some p => p
      | None => languages
      end in
    let x_range := snd (sheet_shape self) in
    let x := columns_nicknames (cell_indices self) in
    let y_range := fst (sheet_shape self) in
    let y := rows_nicknames (cell_indices self) in
    let x_range := if by_row then fst (sheet_shape self) else x_range in
    let x := if by_row then rows_nicknames (cell_indices self) else x in
    let y_range := if by_row then snd (sheet_shape self) else y_range in
    let y := if by_row then columns_nicknames (cell_indices self) else y in
    values <- for_in (range x_range) (fun idx_x values =>
      x_values <- for_in (range y_range)
                    (to_dictionary_cell self by_row languages languages_used
                       y idx_x) Dict.empty ;;
      label <- orelse (nth_error x idx_x) IndexError ;;
      ret (Dict.set values label (Py.ODict x_values))) Dict.empty ;;
    ret (Py.ODict values).

Definition values_to_string (self : t) : M string :=
  export <- for_in (range (fst (shape (cell_indices self))))
    (fun row_idx export =>
      let export := export ^^ "[" in
      export <- for_in (range (snd (shape (cell_indices self))))
        (fun col_idx export =>
          cell <- iloc_cell self row_idx col_idx ;;
          let export := export ^^ Py.str (value cell) in
          ret (if (Z.of_nat col_idx
                   <? Z.of_nat (snd (shape (cell_indices self))) - 1)%Z
               then export ^^ ", " else export)) export ;;
      let export := export ^^ "]" in
      ret (if (Z.of_nat row_idx
               <? Z.of_nat (fst (shape (cell_indices self))) - 1)%Z
           then export ^^ "," ^^ Py.newline else export)) "[" ;;
  ret (export ^^ "]").

(** ** What is stated about a sheet *)

(** The sheet has as many rows and columns as its shape says. *)
Definition well_shaped (self : t) : Prop :=
  List.length (_sheet self) = fst (shape (cell_indices self)) /\
  Forall (fun row => List.length row = snd (shape (cell_indices self)))
    (_sheet self).

(** What a position holds after an assignment: the cell itself, or the
    cell built around the bare value. *)
Definition stored (value_cell : Z -> Z -> Py.scalar -> Cell) (i j : Z)
  (val : item) : Cell :=
  match val with
  | ItemCell c => c
  | ItemValue v => value_cell i j v
  end.

(** The cell at a position of the list of rows. *)
Definition cell_at_position (self : t) (r c : nat) : option Cell :=
  match nth_error (_sheet self) r with
  | Some row => nth_error row c
  | None => None
  end.

(** The value at a position; [None] where there is no cell. *)
Definition value_at (self : t) (r c : nat) : Py.scalar :=
  match cell_at_position self r c with
  | Some cell => value cell
  | None => Py.SNone
  end.

(** The values of the cells, row by row. *)
Definition values (self : t) : list (list Py.scalar) :=
  map (map value) (_sheet self).

(** What the workbook receives for a position: nothing for a cell without
    a value, else the value, with the formula for a computed cell. *)
Definition written (self : t) (r c : nat) : list event :=
  match cell_at_position self r c with
  | Some cell =>
      if Py.is_none (value cell) then []
      else match cell_type cell with
           | value_only => [Write WsResults r c (value cell) None]
           | computational =>
               match Dict.get (parse cell) "excel" with
               | Some formula =>
                   [WriteFormula WsResults r c formula (value cell) None]
               | None => []
               end
           end
  | None => []
  end.

(** Every computed cell that has a value has a formula for the workbook. *)
Definition formulas_for_excel (self : t) : Prop :=
  forall row cell, In row (_sheet self) -> In cell row ->
    Py.is_none (value cell) = false -> cell_type cell = computational ->
    Dict.get (parse cell) "excel" <> None.

(** The languages [to_dictionary] exports. *)
Definition languages_exported (self : t) (languages : option (list string))
  : list string :=
  match languages with
  | None => Spreadsheet.languages (cell_indices self)
  | Some l => l
  end.

(** Every cell that has a value has a text in each of the languages. *)
Definition cells_speak (self : t) (languages : list string) : Prop :=
  forall row cell lang, In row (_sheet self) -> In cell row ->
    Py.is_none (value cell) = false -> In lang languages ->
    Dict.get (parse cell) lang <> None.

(** The nicknames name every row and column of the shape, each once. *)
Definition nicknames_name_shape (self : t) : Prop :=
  fst (shape (cell_indices self))
    <= List.length (rows_nicknames (cell_indices self)) /\
  snd (shape (cell_indices self))
    <= List.length (columns_nicknames (cell_indices self)) /\
  distinct_labels (rows_nicknames (cell_indices self))
    (fst (shape (cell_indices self))) /\
  distinct_labels (columns_nicknames (cell_indices self))
    (snd (shape (cell_indices self))).

(** The cell the loops of [to_dictionary] meet at their indices. *)
Definition cell_met (self : t) (by_row : bool) (idx_x idx_y : nat)
  : option Cell :=
  if by_row then cell_at_position self idx_x idx_y
  else cell_at_position self idx_y idx_x.

(** The key under which a turn of the inner loop stores its record, if it
    stores one. *)
Definition inner_key (self : t) (by_row : bool) (y : list string)
  (idx_x idx_y : nat) : option string :=
  match cell_met self by_row idx_x idx_y with
  | Some cell => if Py.is_none (value cell) then None else nth_error y idx_y
  | None => None
  end.

(** [rec] carries the value of the cell met at the indices. *)
Definition record_of (self : t) (by_row : bool) (idx_x idx_y : nat)
  (rec : Py.obj) : Prop :=
  exists cell, cell_met self by_row idx_x idx_y = Some cell /\
    obj_get rec "value" = Some (Py.of_scalar (value cell)).

(** [line] holds, under every key, the record of the last turn of the
    inner loop that stored under that key. *)
Definition line_of (self : t) (by_row : bool) (y : list string)
  (y_range idx_x : nat) (line : Py.obj) : Prop :=
  forall l,
    match last_index (fun j => key_is (inner_key self by_row y idx_x j) l)
            y_range with
    | Some j => exists rec, obj_get line l = Some rec /\
                  record_of self by_row idx_x j rec
    | None => obj_get line l = None
    end.

(** [values[outer][inner]], when both keys are there. *)
Definition lookup (values : Py.obj) (outer inner : string) : option Py.obj :=
  match obj_get values outer with
  | Some line => obj_get line inner
  | None => None
  end.

(** The integer index lies within the sheet, counted from the start. *)
Definition in_sheet (self : t) (index : Z * Z) : Prop :=
  (0 <= fst index < Z.of_nat (fst (shape (cell_indices self))))%Z /\
  (0 <= snd index < Z.of_nat (snd (shape (cell_indices self))))%Z.

(** The integer index lies beyond the sheet, from either end. *)
Definition out_of_sheet (self : t) (index : Z * Z) : Prop :=
  (fst index < - Z.of_nat (fst (shape (cell_indices self))))%Z \/
  (Z.of_nat (fst (shape (cell_indices self))) <= fst index)%Z \/
  (snd index < - Z.of_nat (snd (shape (cell_indices self))))%Z \/
  (Z.of_nat (snd (shape (cell_indices self))) <= snd index)%Z.

End Spreadsheet.

(** The indices of the sheet built at the end of [spreadsheet.py], and the
    sheet itself with cells that carry their value only. *)
Definition script_indices : Spreadsheet.Indices :=
  {| Spreadsheet.shape := (5, 6);
     Spreadsheet.rows_nicknames :=
       ["row_a"; "row_ab"; "row_ac"; "row_ad"; "row_ae"];
     Spreadsheet.columns_nicknames :=
       ["col_a"; "col_b"; "col_c"; "col_d"; "col_e"; "col_f"];
     Spreadsheet.languages := ["excel"; "native"] |}.

Definition script_sheet : Spreadsheet.t :=
  Spreadsheet.init (plain_cell Py.SNone) script_indices.

Definition script_value_cell (i j : Z) (v : Py.scalar) : Cell := plain_cell v.

(** A sheet of two rows and two columns holding 7, nothing, 9 and 10. *)
Definition small_indices : Spreadsheet.Indices :=
  {| Spreadsheet.shape := (2, 2);
     Spreadsheet.rows_nicknames := ["r0"; "r1"];
     Spreadsheet.columns_nicknames := ["c0"; "c1"];
     Spreadsheet.languages := ["excel"; "native"] |}.

Definition small_sheet : Spreadsheet.t :=
  {| Spreadsheet.cell_indices := small_indices;
     Spreadsheet._sheet :=
       [[plain_cell (Py.SNum 7); plain_cell Py.SNone];
        [plain_cell (Py.SNum 9); plain_cell (Py.SNum 10)]] |}.

(** * Properties *)

(** ** Computations *)

Lemma fst_bind {A B} (m : M A) (f : A -> M B) :
  fst (bind m f) =
  fst m ++ match snd m with Ok a => fst (f a) | Raise _ => [] end.
Proof.
  unfold bind. destruct (snd m); simpl; [reflexivity|].
  now rewrite app_nil_r.
Qed.

Lemma snd_bind {A B} (m : M A) (f : A -> M B) :
  snd (bind m f) =
  match snd m with Ok a => snd (f a) | Raise e => Raise e end.
Proof. unfold bind. now destruct (snd m). Qed.

Lemma bind_ok_inv {A B} (m : M A) (f : A -> M B) (b : B) :
  snd (bind m f) = Ok b ->
  exists a, snd m = Ok a /\ snd (f a) = Ok b /\
            fst (bind m f) = fst m ++ fst (f a).
Proof.
  rewrite fst_bind, snd_bind. destruct (snd m) as [a|e]; [|discriminate].
  intros H. now exists a.
Qed.

Lemma bind_ret_l {A B} (a : A) (f : A -> M B) : bind (ret a) f = f a.
Proof. unfold bind, ret. simpl. now destruct (f a). Qed.

Lemma bind_run {A B} (tr : list event) (a : A) (f : A -> M B) :
  bind (tr, Ok a) f = (tr ++ fst (f a), snd (f a)).
Proof. reflexivity. Qed.

Lemma bind_run_ret {A B} (tr : list event) (a : A) (g : A -> B) :
  bind (tr, Ok a) (fun x => ret (g x)) = (tr, Ok (g a)).
Proof. unfold bind, ret. simpl. now rewrite app_nil_r. Qed.

Lemma bind_emit_run {B} (e : event) (f : unit -> M B) :
  bind (emit e) f = (e :: fst (f tt), snd (f tt)).
Proof. reflexivity. Qed.

Lemma xlsx_call_accepted (lib : library) (e : event) :
  lib e = None -> xlsx_call lib e = ([e], Ok tt).
Proof. intros H. unfold xlsx_call. now rewrite H. Qed.

Lemma xlsx_call_ok (lib : library) (e : event) (u : unit) :
  snd (xlsx_call lib e) = Ok u -> xlsx_call lib e = ([e], Ok tt).
Proof. unfold xlsx_call. destruct (lib e); [discriminate|reflexivity]. Qed.

Lemma xlsx_call_cases (lib : library) (e : event) :
  xlsx_call lib e = ([e], Ok tt) \/
  exists err, xlsx_call lib e = ([], Raise err).
Proof.
  unfold xlsx_call.
  destruct (lib e); [right; eexists; reflexivity|left; reflexivity].
Qed.

(** Splits every call into the workbook writer into its two outcomes. *)
Ltac xlsx_cases :=
  repeat match goal with
         | |- context [xlsx_call ?l ?e] =>
             let Hc := fresh "Hc" in
             destruct (xlsx_call_cases l e) as [Hc|[? Hc]];
             rewrite Hc in *; clear Hc
         | H : context [xlsx_call ?l ?e] |- _ =>
             let Hc := fresh "Hc" in
             destruct (xlsx_call_cases l e) as [Hc|[? Hc]];
             rewrite Hc in *; clear Hc
         end.

Lemma for_in_app {X S} (l1 l2 : list X) (body : X -> S -> M S) (s : S) :
  for_in (l1 ++ l2) body s =
  bind (for_in l1 body s) (fun s' => for_in l2 body s').
Proof.
  revert s. induction l1 as [|x l1 IH]; intros s; simpl.
  - now rewrite bind_ret_l.
  - unfold bind at 1 3. destruct (body x s) as [tr [s'|e]]; simpl.
    + rewrite IH. unfold bind. destruct (snd (for_in l1 body s')); simpl.
      * now rewrite app_assoc.
      * reflexivity.
    + reflexivity.
Qed.

(** *** What all events of a computation satisfy *)

Section EmitsOnly.

Variable P : event -> Prop.

Lemma emits_only_ret {A} (a : A) : emits_only P (ret a).
Proof. constructor. Qed.

Lemma emits_only_raise {A} (e : exn) : emits_only P (@raise A e).
Proof. constructor. Qed.

Lemma emits_only_orelse {A} (o : option A) (e : exn) :
  emits_only P (orelse o e).
Proof. destruct o; constructor. Qed.

Lemma emits_only_emit (e : event) : P e -> emits_only P (emit e).
Proof. intros H. unfold emits_only; simpl. auto. Qed.

Lemma emits_only_xlsx_call (lib : library) (e : event) :
  P e -> emits_only P (xlsx_call lib e).
Proof.
  intros H. unfold xlsx_call.
  destruct (lib e); [constructor|now apply emits_only_emit].
Qed.

Lemma emits_only_bind {A B} (m : M A) (f : A -> M B) :
  emits_only P m -> (forall a, emits_only P (f a)) ->
  emits_only P (bind m f).
Proof.
  unfold emits_only. intros Hm Hf. rewrite fst_bind.
  apply Forall_app. split; [assumption|].
  destruct (snd m); [apply Hf | constructor].
Qed.

Lemma emits_only_for_in {X S} (l : list X) (body : X -> S -> M S) (s : S) :
  (forall x s', emits_only P (body x s')) ->
  emits_only P (for_in l body s).
Proof.
  intros Hb. revert s. induction l as [|x l IH]; intros s; simpl.
  - apply emits_only_ret.
  - apply emits_only_bind; auto.
Qed.

Lemma emits_only_for_each {X} (l : list X) (body : X -> M unit) :
  (forall x, emits_only P (body x)) ->
  emits_only P (for_each l body).
Proof. intros Hb. apply emits_only_for_in. intros x _. apply Hb. Qed.

End EmitsOnly.

(** Breaks a computation down to its effects. *)
Ltac emits_only_step :=
  first
    [ apply emits_only_ret
    | apply emits_only_raise
    | apply emits_only_orelse
    | apply emits_only_emit
    | apply emits_only_xlsx_call
    | apply emits_only_bind; [|intros]
    | apply emits_only_for_in; intros
    | apply emits_only_for_each; intros
    | match goal with
      | |- emits_only _ (if ?b then _ else _) => destruct b
      | |- emits_only _ (match ?x with _ => _ end) => destruct x
      | |- emits_only _ (let '(_, _) := ?x in _) => destruct x
      | |- emits_only _ ((let '(_, _) := ?x in _) _) => destruct x
      end ].

(** ** The subset warning *)

Lemma count_events_quiet (tr : list event) :
  Forall not_subset_warning tr -> count_events is_subset_warning tr = 0.
Proof.
  unfold count_events. induction 1 as [|e tr He _ IH]; simpl; [reflexivity|].
  unfold not_subset_warning in He. now rewrite He.
Qed.

Lemma log_export_subset_warning_run (self : Sheet) :
  log_export_subset_warning_if_needed self =
  (if export_subset self then [Warning subset_warning] else [], Ok tt).
Proof.
  unfold log_export_subset_warning_if_needed. now destruct (export_subset self).
Qed.

Lemma logged_then_quiet {A} (self : Sheet) (rest : M A) :
  emits_only not_subset_warning rest ->
  subset_warning_discipline self
    (fst (bind (log_export_subset_warning_if_needed self) (fun _ => rest))).
Proof.
  intros Hq. rewrite fst_bind, log_export_subset_warning_run. simpl.
  split; intros Hs; rewrite Hs; simpl.
  - split; [|split].
    + unfold count_events. simpl. f_equal. now apply count_events_quiet.
    + eauto.
    + intros pre row col post Heq. destruct pre as [|e pre]; simpl in Heq.
      * discriminate.
      * injection Heq as <- _. now left.
  - now apply count_events_quiet.
Qed.

Ltac quiet :=
  repeat first
    [ emits_only_step
    | progress unfold get_cell_at, warning_logger, to_numpy_visit, np_float,
        html_column_title_attr,
        html_row_title_attr, html_cell_title_attr, cell_record,
        to_dictionary_cell, to_dictionary_line, excel_variables, excel_cell,
        excel_labels
    | reflexivity ].

Lemma to_string_of_values_subset_warning (self : Sheet) :
  subset_warning_discipline self (fst (to_string_of_values self)).
Proof. apply logged_then_quiet. quiet. Qed.

Lemma to_2d_list_subset_warning (self : Sheet) :
  subset_warning_discipline self (fst (to_2d_list self)).
Proof. apply logged_then_quiet. quiet. Qed.

Lemma to_csv_subset_warning (self : Sheet) sr tr sep lt na :
  subset_warning_discipline self (fst (to_csv self sr tr sep lt na)).
Proof. apply logged_then_quiet. quiet. Qed.

Lemma to_markdown_subset_warning (self : Sheet) sr tr na :
  subset_warning_discipline self (fst (to_markdown self sr tr na)).
Proof. apply logged_then_quiet. quiet. Qed.

Lemma to_numpy_subset_warning (self : Sheet) :
  subset_warning_discipline self (fst (to_numpy self)).
Proof. apply logged_then_quiet. quiet. Qed.

Lemma to_html_table_subset_warning (self : Sheet) sr tr na ld :
  subset_warning_discipline self (fst (to_html_table self sr tr na ld)).
Proof. apply logged_then_quiet. quiet. Qed.

Lemma to_dictionary_subset_warning (self : Sheet) ls br lp sr sk nr :
  subset_warning_discipline self (fst (to_dictionary self ls br lp sr sk nr)).
Proof. apply logged_then_quiet. quiet. Qed.

Lemma to_excel_subset_warning (self : Sheet) (xlsx : library)
  fp sn sr lrf lcf vsn vsh :
  bad_suffix fp = false -> bad_sheet_name sn = false ->
  subset_warning_discipline self
    (fst (to_excel self xlsx fp sn sr lrf lcf vsn vsh)).
Proof.
  intros H1 H2. unfold to_excel. rewrite H1, H2.
  apply logged_then_quiet. quiet.
Qed.

(** C5, as the code has it: every encoder call, a [to_excel] call turned
    down by its sanity check apart, sends the subset warning exactly once
    when [export_subset] is true and never when it is false; when sent it
    is the first effect of the call, ahead of every cell read, whatever the
    size of the grid. *)
Theorem subset_warning_once_before_reads (self : Sheet) (xlsx : library)
  (call : encoder_call) :
  rejected_by_sanity_check call = false ->
  subset_warning_discipline self (fst (run_encoder self xlsx call)).
Proof.
  destruct call; simpl; intros Hok.
  - apply orb_false_iff in Hok as [H1 H2]. now apply to_excel_subset_warning.
  - apply to_dictionary_subset_warning.
  - apply to_string_of_values_subset_warning.
  - apply to_2d_list_subset_warning.
  - apply to_csv_subset_warning.
  - apply to_markdown_subset_warning.
  - apply to_numpy_subset_warning.
  - apply to_html_table_subset_warning.
Qed.

Lemma subset_warning_once_before_reads_witness :
  rejected_by_sanity_check ToNumpy = false /\
  subset_warning_discipline subset_7_none_9_10
    (fst (run_encoder subset_7_none_9_10 xlsx_accepts ToNumpy)).
Proof.
  split; [reflexivity|].
  apply (subset_warning_once_before_reads subset_7_none_9_10 xlsx_accepts
           ToNumpy).
  reflexivity.
Defined.

(** C5 as stated fails: a [to_excel] call with a wrong suffix on a subset
    export raises before the warning is sent, so no subset warning at all
    reaches the logger. *)
Lemma subset_warning_skipped_by_rejected_to_excel :
  export_subset subset_7_none_9_10 = true /\
  count_events is_subset_warning
    (fst (run_encoder subset_7_none_9_10 xlsx_accepts
            (ToExcel "results.csv" (Py.SStr "Results") " " [] [] None [])))
  = 0.
Proof. split; reflexivity. Qed.

(** ** The pseudonym check of [to_dictionary] *)

Lemma to_dictionary_mismatch_run (self : Sheet) ls br p sr sk nr :
  List.length p <> List.length (languages_exported self ls) ->
  to_dictionary self ls br (Some p) sr sk nr =
  (if export_subset self then [Warning subset_warning] else [],
   Raise (ValueError
     "Language pseudonyms does not have the same size as the language array!")).
Proof.
  intros Hne. unfold to_dictionary.
  fold (languages_exported self ls).
  apply Nat.eqb_neq in Hne. rewrite Hne. simpl.
  rewrite log_export_subset_warning_run. unfold bind. simpl.
  now rewrite app_nil_r.
Qed.

(** C6: a pseudonym list whose length differs from that of the language
    list makes [to_dictionary] fail with [ValueError]; no cell of the grid
    is read and no dictionary is returned. *)
Theorem to_dictionary_rejects_pseudonym_mismatch (self : Sheet)
  (languages : option (list string)) (by_row : bool) (pseudonyms : list string)
  (spaces_replacement : string) (skip_nan_cell : bool)
  (nan_replacement : Py.obj) :
  List.length pseudonyms <> List.length (languages_exported self languages) ->
  let run := to_dictionary self languages by_row (Some pseudonyms)
               spaces_replacement skip_nan_cell nan_replacement in
  (exists msg, snd run = Raise (ValueError msg)) /\
  (forall row col, ~ In (GetCell row col) (fst run)).
Proof.
  intros Hne run. subst run. rewrite to_dictionary_mismatch_run by assumption.
  simpl. split; [eauto|].
  intros row col. destruct (export_subset self); simpl; [|tauto].
  intros [H|[]]. discriminate.
Qed.

Lemma to_dictionary_rejects_pseudonym_mismatch_witness :
  let run := to_dictionary sheet_7_none_9_10 (Some ["d1"; "d2"]) true
               (Some ["p1"]) " " false Py.ONone in
  (exists msg, snd run = Raise (ValueError msg)) /\
  (forall row col, ~ In (GetCell row col) (fst run)).
Proof.
  apply (to_dictionary_rejects_pseudonym_mismatch sheet_7_none_9_10
           (Some ["d1"; "d2"]) true ["p1"] " " false Py.ONone).
  simpl. lia.
Defined.

(** C10: on a subset export the warning is logged before the pseudonym
    check, so a call that fails on a pseudonym list of the wrong length has
    sent exactly the one subset warning, and nothing else, when it raises. *)
Theorem to_dictionary_warns_before_pseudonym_check (self : Sheet)
  (languages : option (list string)) (by_row : bool) (pseudonyms : list string)
  (spaces_replacement : string) (skip_nan_cell : bool)
  (nan_replacement : Py.obj) :
  export_subset self = true ->
  List.length pseudonyms <> List.length (languages_exported self languages) ->
  exists msg,
    to_dictionary self languages by_row (Some pseudonyms)
      spaces_replacement skip_nan_cell nan_replacement
    = ([Warning subset_warning], Raise (ValueError msg)).
Proof.
  intros Hs Hne. rewrite to_dictionary_mismatch_run by assumption.
  rewrite Hs. eauto.
Qed.

Lemma to_dictionary_warns_before_pseudonym_check_witness :
  exists msg,
    to_dictionary subset_7_none_9_10 None false (Some ["only one"])
      " " false Py.ONone
    = ([Warning subset_warning], Raise (ValueError msg)).
Proof.
  apply (to_dictionary_warns_before_pseudonym_check subset_7_none_9_10
           None false ["only one"] " " false Py.ONone).
  - reflexivity.
  - simpl. lia.
Defined.

(** ** The sanity check of [to_excel] *)

Lemma prefix_split (a s : string) :
  prefix a s = true -> exists t, s = a ^^ t.
Proof.
  revert s. induction a as [|c a IH]; intros s H.
  - now exists s.
  - destruct s as [|d s]; simpl in H; [discriminate|].
    destruct (ascii_dec c d) as [->|]; [|discriminate].
    destruct (IH s H) as [t ->]. now exists t.
Qed.

Lemma append_length (a b : string) :
  String.length (a ^^ b) = String.length a + String.length b.
Proof. induction a; simpl; congruence. Qed.

Lemma append_empty_r (a : string) : a ^^ "" = a.
Proof. induction a; simpl; congruence. Qed.

Lemma contains_short (sub s : string) :
  String.length s <= String.length sub ->
  Py.contains sub s = true -> s = sub.
Proof.
  induction s as [|c s IH]; intros Hlen H.
  - destruct sub; [reflexivity|discriminate].
  - cbn [Py.contains] in H. destruct (prefix sub (String c s)) eqn:Hp.
    + destruct (prefix_split _ _ Hp) as [t Ht].
      assert (Hl : String.length (String c s) = String.length (sub ^^ t))
        by now rewrite Ht.
      rewrite append_length in Hl.
      destruct t; [now rewrite append_empty_r in Ht|].
      simpl in Hl, Hlen. lia.
    + simpl in Hlen. assert (Hs : s = sub) by (apply IH; [lia|assumption]).
      subst sub. simpl in Hlen. lia.
Qed.

Lemma substring_length_le (a n : nat) (s : string) :
  String.length (substring a n s) <= n.
Proof.
  revert a n. induction s as [|c s IH]; intros a n.
  - destruct a, n; simpl; lia.
  - destruct a as [|a]; simpl.
    + destruct n as [|n]; simpl; [lia|]. specialize (IH 0 n). lia.
    + apply IH.
Qed.

Lemma substring_length_avail (a n : nat) (s : string) :
  String.length (substring a n s) <= String.length s - a.
Proof.
  revert a n. induction s as [|c s IH]; intros a n.
  - destruct a, n; simpl; lia.
  - destruct a as [|a]; simpl.
    + destruct n as [|n]; simpl; [lia|]. specialize (IH 0 n). lia.
    + apply IH.
Qed.

Lemma substring_cut (a n : nat) (s : string) :
  a + n = String.length s ->
  s = substring 0 a s ^^ substring a n s.
Proof.
  revert a n. induction s as [|c s IH]; intros a n H.
  - destruct a, n; simpl in *; try reflexivity; lia.
  - destruct a as [|a]; simpl in *.
    + destruct n as [|n]; [lia|]. f_equal.
      specialize (IH 0 n). simpl in IH.
      rewrite (IH ltac:(lia)) at 1. now destruct s.
    + f_equal. apply IH. lia.
Qed.

Lemma last_chars_append (stem t : string) :
  Py.last_chars (String.length t) (stem ^^ t) = t.
Proof.
  unfold Py.last_chars. rewrite append_length.
  replace (String.length stem + String.length t - String.length t)
    with (String.length stem) by lia.
  induction stem as [|c stem IH]; simpl; [|exact IH].
  induction t as [|d t IHt]; simpl; [reflexivity|]. now rewrite IHt.
Qed.

(** The check accepts exactly the paths that end in [.xlsx]. *)
Lemma bad_suffix_spec (file_path : string) :
  bad_suffix file_path = false <-> ends_in_xlsx file_path.
Proof.
  unfold bad_suffix, ends_in_xlsx. rewrite negb_false_iff. split.
  - intros H. apply contains_short in H.
    + assert (Hlen : String.length (Py.last_chars 5 file_path) = 5)
        by now rewrite H.
      unfold Py.last_chars in *.
      pose proof (substring_length_avail
                    (String.length file_path - 5) 5 file_path) as Hav.
      exists (substring 0 (String.length file_path - 5) file_path).
      rewrite <- H. apply substring_cut. lia.
    + apply substring_length_le.
  - intros [stem ->].
    change 5 with (String.length ".xlsx"). now rewrite last_chars_append.
Qed.

Lemma bad_sheet_name_spec (sheet_name : Py.scalar) :
  bad_sheet_name sheet_name = false <-> nonempty_str sheet_name.
Proof.
  unfold nonempty_str. split.
  - destruct sheet_name as [| |s]; simpl; try discriminate.
    intros H. exists s. split; [reflexivity|].
    intros ->. discriminate.
  - intros [s [-> Hs]]. simpl. destruct s; [congruence|reflexivity].
Qed.

Lemma bad_suffix_rejects (file_path : string) :
  bad_suffix file_path = true -> ~ ends_in_xlsx file_path.
Proof. intros H He. apply bad_suffix_spec in He. congruence. Qed.

(** C7: when the file path does not end in [.xlsx] (the last five
    characters, compared as they are) or the sheet name is not a non-empty
    string, [to_excel] raises [ValueError] having performed no effect at
    all: the workbook is never opened and nothing is written. *)
Theorem to_excel_rejects_before_workbook (self : Sheet) (xlsx : library)
  (file_path : string) (sheet_name : Py.scalar) (spaces_replacement : string)
  (label_row_format label_column_format : style)
  (variables_sheet_name : option string)
  (variables_sheet_header : Dict.t string) :
  ~ ends_in_xlsx file_path \/ ~ nonempty_str sheet_name ->
  exists msg,
    to_excel self xlsx file_path sheet_name spaces_replacement
      label_row_format label_column_format variables_sheet_name
      variables_sheet_header
    = ([], Raise (ValueError msg)).
Proof.
  intros H. unfold to_excel.
  destruct (bad_suffix file_path) eqn:Hs; [eexists; reflexivity|].
  destruct (bad_sheet_name sheet_name) eqn:Hn; [eexists; reflexivity|].
  apply bad_suffix_spec in Hs. apply bad_sheet_name_spec in Hn. tauto.
Qed.

Lemma to_excel_rejects_before_workbook_witness :
  exists msg,
    to_excel subset_7_none_9_10 xlsx_accepts "results.XLSX"
      (Py.SStr "Results") " " [] [] None []
    = ([], Raise (ValueError msg)).
Proof.
  apply (to_excel_rejects_before_workbook subset_7_none_9_10 xlsx_accepts
           "results.XLSX" (Py.SStr "Results") " " [] [] None []).
  left. apply bad_suffix_rejects. reflexivity.
Defined.

(** ** Loops over a range *)

(** A loop whose turns cannot fail and perform effects that do not depend
    on the state: it ends, its trace is that of its turns and an
    invariant carries through. *)
Lemma for_in_seq_total {S} (I : nat -> S -> Prop) (T : nat -> list event)
  (body : nat -> S -> M S) (n a : nat) (s0 : S) :
  I a s0 ->
  (forall i s, a <= i < a + n -> I i s ->
     exists s', body i s = (T i, Ok s') /\ I (Datatypes.S i) s') ->
  exists s', for_in (seq a n) body s0 = (flat_map T (seq a n), Ok s') /\
             I (a + n) s'.
Proof.
  revert a s0. induction n as [|n IH]; intros a s0 H0 Hstep; simpl.
  - exists s0. rewrite Nat.add_0_r. now split.
  - destruct (Hstep a s0 ltac:(lia) H0) as [s1 [Hb H1]].
    destruct (IH (Datatypes.S a) s1 H1) as [s' [Hrun Hs']].
    { intros i s Hi. apply Hstep. lia. }
    exists s'. split.
    + unfold bind. rewrite Hb. simpl. now rewrite Hrun.
    + now replace (a + Datatypes.S n) with (Datatypes.S a + n) by lia.
Qed.

(** ** Arrays *)

Lemma list_setitem_spec {A} (l : list A) (i : nat) (x : A) :
  i < List.length l ->
  exists l', list_setitem l i x = Some l' /\
    List.length l' = List.length l /\
    nth_error l' i = Some x /\
    (forall j, j <> i -> nth_error l' j = nth_error l j) /\
    (forall P : A -> Prop, P x -> Forall P l -> Forall P l').
Proof.
  revert i. induction l as [|y l IH]; intros i Hi; simpl in Hi; [lia|].
  destruct i as [|i]; simpl.
  - exists (x :: l). repeat split; auto.
    + intros [|j] Hj; [congruence|reflexivity].
    + intros P Hx Hl. inversion Hl; subst. now constructor.
  - destruct (IH i ltac:(lia)) as [l' [-> [Hlen [Hi' [Hj' HP]]]]].
    exists (y :: l'). repeat split; simpl; auto.
    + intros [|j] Hj; [reflexivity|]. apply Hj'. congruence.
    + intros P Hx Hl. inversion Hl; subst. constructor; auto.
Qed.

Lemma np_setitem_spec (shp : nat * nat) (a : ndarray) (r c : nat)
  (x : npfloat) :
  has_shape shp a -> r < fst shp -> c < snd shp ->
  exists a', np_setitem a r c x = Some a' /\
    has_shape shp a' /\
    np_getitem a' r c = Some x /\
    (forall r' c', r' <> r \/ c' <> c ->
       np_getitem a' r' c' = np_getitem a r' c').
Proof.
  intros [Hshp [Hlen Hrows]] Hr Hc. unfold np_setitem, np_getitem.
  destruct (nth_error (np_data a) r) as [row|] eqn:Hrow.
  2:{ apply nth_error_None in Hrow. lia. }
  assert (Hrl : List.length row = snd shp).
  { apply nth_error_In in Hrow. rewrite Forall_forall in Hrows. auto. }
  destruct (list_setitem_spec row c x ltac:(lia))
    as [row' [-> [Hl1 [Hc1 [Hj1 _]]]]].
  destruct (list_setitem_spec (np_data a) r row' ltac:(lia))
    as [data [-> [Hl2 [Hc2 [Hj2 HP]]]]].
  eexists. split; [reflexivity|]. unfold has_shape. cbn [np_data np_shape].
  split; [|split].
  - split; [assumption|]. split; [congruence|].
    apply HP; [congruence|assumption].
  - now rewrite Hc2.
  - intros r' c' Hne. destruct (Nat.eq_dec r' r) as [->|Hrr].
    + rewrite Hc2, Hrow. apply Hj1. destruct Hne; congruence.
    + now rewrite Hj2.
Qed.

Lemma np_zeros_shape (shp : nat * nat) : has_shape shp (np_zeros shp).
Proof.
  unfold has_shape, np_zeros. cbn [np_shape np_data].
  split; [reflexivity|]. split.
  - apply repeat_length.
  - apply Forall_forall. intros row Hin. apply repeat_spec in Hin.
    subst row. apply repeat_length.
Qed.

(** ** The conversion of an integer to a float64 *)

(** An integer whose magnitude is below [2 ** 53] is stored as it is. *)
Lemma float_of_int_exact (z : Z) :
  (Z.abs z < 2 ^ 53)%Z -> float_of_int z = Some z.
Proof.
  intros Hz. unfold float_of_int.
  set (a := Z.abs z) in *.
  assert (Ha : (0 <= a)%Z) by apply Z.abs_nonneg.
  assert (Hbits : ((if (a =? 0)%Z then 0 else Z.log2 a + 1) <= 53)%Z).
  { destruct (Z.eqb_spec a 0); [lia|].
    assert (Z.log2 a < 53)%Z by (apply Z.log2_lt_pow2; lia). lia. }
  rewrite Z.max_l by lia. cbn [Z.ltb Z.compare andb].
  rewrite Z.shiftr_0_r, Z.shiftl_0_r.
  assert (Hsmall : (a < 2 ^ 1024)%Z).
  { apply Z.lt_trans with (2 ^ 53)%Z; [assumption|].
    apply Z.pow_lt_mono_r; lia. }
  replace (2 ^ 1024 <=? a)%Z with false
    by (symmetry; apply Z.leb_gt; exact Hsmall).
  f_equal. subst a. rewrite Z.mul_comm. apply Z.abs_sgn.
Qed.

(** ** Loops that can stop *)

Lemma for_in_map {X Y S} (g : X -> Y) (l : list X) (body : Y -> S -> M S)
  (s : S) :
  for_in (map g l) body s = for_in l (fun x => body (g x)) s.
Proof.
  revert s. induction l as [|x l IH]; intros s; simpl; [reflexivity|].
  unfold bind. destruct (snd (body (g x) s)); [now rewrite IH|reflexivity].
Qed.

(** Two nested loops are one loop over the pairs. *)
Lemma for_in_flat_map {X Y S} (f : X -> list Y) (l : list X)
  (body : Y -> S -> M S) (s : S) :
  for_in (flat_map f l) body s
  = for_in l (fun x s' => for_in (f x) body s') s.
Proof.
  revert s. induction l as [|x l IH]; intros s; [reflexivity|].
  cbn [flat_map for_in]. rewrite for_in_app.
  unfold bind. destruct (for_in (f x) body s) as [tr [s'|e]];
    cbn [fst snd]; [now rewrite IH|reflexivity].
Qed.

Lemma upto_none {A} (p : A -> bool) (l : list A) :
  existsb p l = false -> upto p l = l.
Proof.
  induction l as [|x l IH]; [reflexivity|]. cbn.
  destruct (p x); [discriminate|]. intros H. now rewrite IH.
Qed.

Lemma upto_prefix {A} (p : A -> bool) (l : list A) :
  exists rest, l = upto p l ++ rest.
Proof.
  induction l as [|x l [rest IH]]; [now exists []|]. cbn.
  destruct (p x).
  - now exists l.
  - exists rest. cbn. now rewrite <- IH.
Qed.

(** A loop whose turn raises on the items with a property and carries an
    invariant through the others: it stops at the first such item, having
    performed the effects of the turns up to that one. *)
Lemma for_in_upto_run {X S} (bad : X -> bool) (T : X -> list event)
  (e : exn) (I : list X -> S -> Prop) (body : X -> S -> M S) (l : list X) :
  (forall pre x s, In x l -> I pre s ->
     if bad x then body x s = (T x, Raise e)
     else exists s', body x s = (T x, Ok s') /\ I (pre ++ [x]) s') ->
  forall done s0, I done s0 ->
  if existsb bad l
  then for_in l body s0 = (flat_map T (upto bad l), Raise e)
  else exists s', for_in l body s0 = (flat_map T l, Ok s') /\
                  I (done ++ l) s'.
Proof.
  induction l as [|x l IH]; intros Hstep done s0 H0.
  - cbn. exists s0. rewrite app_nil_r. now split.
  - cbn [existsb upto for_in flat_map].
    pose proof (Hstep done x s0 ltac:(now left) H0) as Hx.
    destruct (bad x) eqn:Hbad.
    + cbn [orb]. rewrite Hx. cbn. now rewrite app_nil_r.
    + cbn [orb]. destruct Hx as [s1 [Hx H1]].
      specialize (IH (fun pre y s Hy => Hstep pre y s (or_intror Hy))
                    (done ++ [x]) s1 H1).
      rewrite Hx. unfold bind. cbn [fst snd].
      destruct (existsb bad l).
      * rewrite IH. reflexivity.
      * destruct IH as [s' [Hrun Hs']]. exists s'. rewrite Hrun.
        split; [reflexivity|]. now rewrite <- app_assoc in Hs'.
Qed.

Lemma existsb_flat_map {A B} (p : B -> bool) (f : A -> list B) (l : list A) :
  existsb p (flat_map f l) = existsb (fun x => existsb p (f x)) l.
Proof.
  induction l as [|x l IH]; simpl; [reflexivity|].
  now rewrite existsb_app, IH.
Qed.

Lemma existsb_map {A B} (p : B -> bool) (g : A -> B) (l : list A) :
  existsb p (map g l) = existsb (fun x => p (g x)) l.
Proof. induction l as [|x l IH]; simpl; [reflexivity|]. now rewrite IH. Qed.

Lemma flat_map_flat_map {A B C} (f : A -> list B) (g : B -> list C)
  (l : list A) :
  flat_map g (flat_map f l) = flat_map (fun x => flat_map g (f x)) l.
Proof.
  induction l as [|x l IH]; simpl; [reflexivity|].
  now rewrite flat_map_app, IH.
Qed.

Lemma flat_map_map {A B C} (g : B -> list C) (h : A -> B) (l : list A) :
  flat_map g (map h l) = flat_map (fun x => g (h x)) l.
Proof. induction l as [|x l IH]; simpl; [reflexivity|]. now rewrite IH. Qed.

(** ** The numeric matrix encoder *)

Lemma get_cell_at_run (self : Sheet) (row col : nat) :
  get_cell_at self row col = ([GetCell row col], Ok (_get_cell_at self row col)).
Proof. reflexivity. Qed.

Lemma positions_spec (self : Sheet) (pos : nat * nat) :
  In pos (positions self) <->
  fst pos < fst (shape self) /\ snd pos < snd (shape self).
Proof.
  unfold positions. rewrite in_flat_map. split.
  - intros [r [Hr Hin]]. apply in_map_iff in Hin as [c [<- Hc]].
    apply in_seq in Hr, Hc. cbn. lia.
  - intros [Hr Hc]. exists (fst pos). split; [apply in_seq; lia|].
    apply in_map_iff. exists (snd pos). split; [now destruct pos|].
    apply in_seq. lia.
Qed.

Lemma all_reads_positions (self : Sheet) :
  all_reads self = flat_map read_at (positions self).
Proof.
  unfold all_reads, row_reads, positions. rewrite flat_map_flat_map.
  apply flat_map_ext. intros r. now rewrite flat_map_map.
Qed.

Lemma has_other_object_positions (self : Sheet) :
  has_other_object self = existsb (other_object_at self) (positions self).
Proof.
  unfold has_other_object, positions. rewrite existsb_flat_map.
  induction (seq 0 (fst (shape self))) as [|r l IH]; cbn; [reflexivity|].
  now rewrite IH, existsb_map.
Qed.

(** The two loops of [to_numpy] as one loop over the positions. *)
Lemma to_numpy_loops (self : Sheet) (st : ndarray * bool) :
  for_in (range (fst (shape self))) (fun row_idx st =>
    for_in (range (snd (shape self))) (to_numpy_visit self row_idx) st) st
  = for_in (positions self)
      (fun pos => to_numpy_visit self (fst pos) (snd pos)) st.
Proof.
  unfold positions. rewrite for_in_flat_map. unfold range.
  revert st. induction (seq 0 (fst (shape self))) as [|r l IH]; intros st;
    [reflexivity|].
  cbn [for_in]. rewrite for_in_map. cbn [fst snd].
  unfold bind.
  destruct (for_in (seq 0 (snd (shape self)))
              (fun x : nat => to_numpy_visit self r x) st)
    as [tr [st'|e]]; cbn [fst snd]; [now rewrite IH|reflexivity].
Qed.

(** One turn of the loop: the cell is read; a number out of range stops
    the loop, anything else is stored. *)
Lemma to_numpy_cell (self : Sheet) (done : list (nat * nat))
  (pos : nat * nat) (st : ndarray * bool) :
  In pos (positions self) -> numpy_inv self done st ->
  if overflows_at self pos
  then to_numpy_visit self (fst pos) (snd pos) st
       = (read_at pos, Raise OverflowError)
  else exists st',
    to_numpy_visit self (fst pos) (snd pos) st = (read_at pos, Ok st') /\
    numpy_inv self (done ++ [pos]) st'.
Proof.
  intros Hpos [Hs [Hg Hf]]. apply positions_spec in Hpos as [Hr Hc].
  destruct st as [a flag]. cbn [fst snd] in Hs, Hg, Hf.
  unfold to_numpy_visit, overflows_at, overflows, read_at.
  rewrite get_cell_at_run, bind_run. cbv zeta.
  set (v := value (_get_cell_at self (fst pos) (snd pos))).
  assert (Hstore : forall x flag',
            float_entry v = Some x ->
            flag' = existsb (other_object_at self) (done ++ [pos]) ->
            exists st',
              (results <- orelse (np_setitem a (fst pos) (snd pos) x)
                            IndexError ;;
               ret (results, flag'))%py = ([], Ok st') /\
              numpy_inv self (done ++ [pos]) st').
  { intros x flag' Hx Hflag.
    destruct (np_setitem_spec _ a (fst pos) (snd pos) x Hs Hr Hc)
      as [a' [Hset [Hs' [Hget Hother]]]].
    rewrite Hset. eexists. split; [reflexivity|].
    split; [exact Hs'|]. cbn [fst snd]. split; [|exact Hflag].
    intros pos' Hin. apply in_app_or in Hin as [Hin|[<-|[]]].
    - destruct (Nat.eq_dec (fst pos') (fst pos)) as [Hr'|Hr'];
        [destruct (Nat.eq_dec (snd pos') (snd pos)) as [Hc'|Hc']|].
      + rewrite Hr', Hc', Hget. now fold v.
      + rewrite Hother by now right. now apply Hg.
      + rewrite Hother by now left. now apply Hg.
    - rewrite Hget. now fold v. }
  assert (Hflag : forall b, is_other_object v = b ->
            existsb (other_object_at self) (done ++ [pos]) = flag || b).
  { intros b Hb. rewrite existsb_app. cbn. unfold other_object_at.
    fold v. now rewrite Hb, orb_false_r, Hf. }
  destruct v as [|z|s] eqn:Hv; cbn [Py.is_none Py.is_number negb float_entry].
  - destruct (Hstore NpNaN flag eq_refl) as [st' [Hrun Hinv]].
    { rewrite (Hflag false eq_refl). now rewrite orb_false_r. }
    exists st'. rewrite Hrun. now split.
  - unfold np_float. destruct (float_of_int z) as [f|] eqn:Hfl.
    + cbn [orelse]. rewrite !bind_ret_l.
      destruct (Hstore (NpNum f) flag) as [st' [Hrun Hinv]].
      { cbn. now rewrite Hfl. }
      { rewrite (Hflag false eq_refl). now rewrite orb_false_r. }
      exists st'. rewrite Hrun. now split.
    + reflexivity.
  - destruct (Hstore NpNaN true eq_refl) as [st' [Hrun Hinv]].
    { rewrite (Hflag true eq_refl). now rewrite orb_true_r. }
    exists st'. rewrite Hrun. now split.
Qed.

(** The run of [to_numpy]: the subset warning if any, then one read per
    cell in row-major order; the first number out of the range of a
    float64 stops the call with [OverflowError], otherwise the coercion
    warning follows if the flag is set and the array is returned. *)
Lemma to_numpy_run (self : Sheet) :
  if has_overflow self
  then to_numpy self
       = (subset_trace self ++ reads_until_overflow self,
          Raise OverflowError)
  else exists a : ndarray,
    to_numpy self
    = (subset_trace self ++ all_reads self
         ++ (if has_other_object self then [Warning coercion_warning]
             else []), Ok a) /\
    has_shape (shape self) a /\
    forall r c, r < fst (shape self) -> c < snd (shape self) ->
      np_getitem a r c = float_entry (value (_get_cell_at self r c)).
Proof.
  unfold to_numpy, has_overflow, reads_until_overflow, subset_trace.
  rewrite log_export_subset_warning_run, bind_run. cbv zeta.
  rewrite to_numpy_loops.
  pose proof (for_in_upto_run (overflows_at self) read_at OverflowError
                (numpy_inv self)
                (fun pos => to_numpy_visit self (fst pos) (snd pos))
                (positions self)
                (fun pre pos st => to_numpy_cell self pre pos st)
                [] (np_zeros (shape self), false)) as Hrun.
  destruct (existsb (overflows_at self) (positions self)).
  - rewrite Hrun.
    + reflexivity.
    + split; [apply np_zeros_shape|]. split; [intros pos []|reflexivity].
  - destruct Hrun as [[a flag] [Hrun [Hs [Hg Hf]]]].
    { split; [apply np_zeros_shape|]. split; [intros pos []|reflexivity]. }
    cbn [fst snd app] in Hs, Hg, Hf.
    exists a. rewrite Hrun, bind_run. cbn [fst snd].
    rewrite has_other_object_positions, all_reads_positions, <- Hf.
    split; [|split; [exact Hs|]].
    + unfold warning_logger. destruct flag; cbn; now rewrite ?app_nil_r.
    + intros r c Hr Hc. apply (Hg (r, c)). apply positions_spec. now split.
Qed.

Lemma count_events_app (p : event -> bool) (l1 l2 : list event) :
  count_events p (l1 ++ l2) = count_events p l1 + count_events p l2.
Proof. unfold count_events. now rewrite filter_app, length_app. Qed.

Lemma count_events_none (p : event -> bool) (l : list event) :
  Forall (fun e => p e = false) l -> count_events p l = 0.
Proof.
  unfold count_events. induction 1 as [|e l He _ IH]; simpl; [reflexivity|].
  now rewrite He.
Qed.

Lemma all_reads_spec (self : Sheet) (e : event) :
  In e (all_reads self) <->
  exists r c, r < fst (shape self) /\ c < snd (shape self) /\ e = GetCell r c.
Proof.
  unfold all_reads, row_reads. rewrite in_flat_map. split.
  - intros [r [Hr Hin]]. apply in_flat_map in Hin as [c [Hc [He|[]]]].
    apply in_seq in Hr, Hc. exists r, c. repeat split; [lia|lia|congruence].
  - intros [r [c [Hr [Hc ->]]]]. exists r. split; [apply in_seq; lia|].
    apply in_flat_map. exists c. split; [apply in_seq; lia|now left].
Qed.

Lemma reads_send_no_coercion_warning (self : Sheet) (reads rest : list event) :
  all_reads self = reads ++ rest ->
  count_events is_coercion_warning (subset_trace self ++ reads) = 0.
Proof.
  intros Hpre. apply count_events_none. apply Forall_app. split.
  - unfold subset_trace. destruct (export_subset self); repeat constructor.
  - apply Forall_forall. intros e He.
    assert (Hin : In e (all_reads self))
      by (rewrite Hpre; apply in_or_app; now left).
    apply all_reads_spec in Hin as [r [c [_ [_ ->]]]]. reflexivity.
Qed.

Lemma reads_until_overflow_prefix (self : Sheet) :
  exists rest, all_reads self = reads_until_overflow self ++ rest.
Proof.
  unfold reads_until_overflow. rewrite all_reads_positions.
  destruct (upto_prefix (overflows_at self) (positions self)) as [rest Hrest].
  exists (flat_map read_at rest). rewrite <- flat_map_app, <- Hrest.
  reflexivity.
Qed.

(** C1, as the code has it: [to_numpy] stores NaN for [None] and for every
    value that is not a number, and the float64 of a number. When every
    number of the exported shape is within the range of a float64 the call
    returns, and it sends the coercion warning once when some cell holds a
    value that is neither a number nor [None], and not at all otherwise; a
    [None] alone triggers no warning. When some number is out of that
    range the call raises [OverflowError] and sends no coercion warning,
    whatever it replaced before. For the 2x2 grid [[7, None], [9, 10]] the
    call returns [[7, NaN], [9, 10]] and logs nothing; for the row
    ['abc', 10 ** 400, 1] it raises at the second cell. *)
Theorem to_numpy_nan_and_coercion_warning :
  (forall self : Sheet,
     if has_overflow self
     then snd (to_numpy self) = Raise OverflowError /\
          count_events is_coercion_warning (fst (to_numpy self)) = 0
     else exists a,
       snd (to_numpy self) = Ok a /\
       (forall r c, r < fst (shape self) -> c < snd (shape self) ->
          np_getitem a r c = float_entry (value (_get_cell_at self r c)) /\
          (Py.is_number (value (_get_cell_at self r c)) = false ->
           np_getitem a r c = Some NpNaN)) /\
       count_events is_coercion_warning (fst (to_numpy self))
       = (if has_other_object self then 1 else 0)) /\
  to_numpy sheet_7_none_9_10
  = ([GetCell 0 0; GetCell 0 1; GetCell 1 0; GetCell 1 1],
     Ok {| np_shape := (2, 2);
           np_data := [[NpNum 7; NpNaN]; [NpNum 9; NpNum 10]] |}) /\
  to_numpy sheet_text_then_overflow
  = ([GetCell 0 0; GetCell 0 1], Raise OverflowError).
Proof.
  split; [|split; vm_compute; reflexivity].
  intros self. pose proof (to_numpy_run self) as Hrun.
  destruct (has_overflow self).
  - rewrite Hrun. cbn [fst snd]. split; [reflexivity|].
    destruct (reads_until_overflow_prefix self) as [rest Hrest].
    now apply reads_send_no_coercion_warning with rest.
  - destruct Hrun as [a [Hrun [_ Hget]]]. exists a. rewrite Hrun.
    cbn [fst snd]. split; [reflexivity|]. split.
    + intros r c Hr Hc. split; [now apply Hget|].
      rewrite (Hget r c Hr Hc).
      destruct (value (_get_cell_at self r c)); [reflexivity|discriminate|reflexivity].
    + rewrite app_assoc, count_events_app.
      rewrite (reads_send_no_coercion_warning self (all_reads self) [])
        by now rewrite app_nil_r.
      now destruct (has_other_object self).
Qed.

(** C1 as stated fails on its own example: the grid [[7, None], [9, 10]]
    yields [[7, NaN], [9, 10]] but no coercion notice fires. *)
Lemma to_numpy_none_sends_no_coercion_warning :
  snd (to_numpy sheet_7_none_9_10)
  = Ok {| np_shape := (2, 2);
          np_data := [[NpNum 7; NpNaN]; [NpNum 9; NpNum 10]] |} /\
  count_events is_coercion_warning (fst (to_numpy sheet_7_none_9_10)) = 0.
Proof. split; reflexivity. Qed.

(** C8, as the code has it: when every number of the exported shape is
    within the range of a float64, [to_numpy] returns a two-dimensional
    array of the shape of the sheet, also when a dimension is zero; every
    cell of the shape is read and its position holds NaN when the cell
    holds no number, and otherwise the float64 the number converts to,
    which is the number itself when its magnitude is below [2 ** 53]. *)
Theorem to_numpy_shape_and_entries (self : Sheet) :
  has_overflow self = false ->
  exists a,
    snd (to_numpy self) = Ok a /\
    has_shape (shape self) a /\
    (forall r c, r < fst (shape self) -> c < snd (shape self) ->
       In (GetCell r c) (fst (to_numpy self)) /\
       match value (_get_cell_at self r c) with
       | Py.SNum z =>
           exists f, float_of_int z = Some f /\
             np_getitem a r c = Some (NpNum f) /\
             ((Z.abs z < 2 ^ 53)%Z -> f = z)
       | _ => np_getitem a r c = Some NpNaN
       end).
Proof.
  intros Hfit. pose proof (to_numpy_run self) as Hrun.
  rewrite Hfit in Hrun. destruct Hrun as [a [Hrun [Hs Hget]]].
  exists a. rewrite Hrun. cbn [fst snd].
  split; [reflexivity|]. split; [exact Hs|].
  intros r c Hr Hc. split.
  - apply in_or_app. right. apply in_or_app. left.
    apply all_reads_spec. eauto.
  - specialize (Hget r c Hr Hc).
    assert (Hpos : In (r, c) (positions self))
      by (apply positions_spec; now split).
    assert (Hok : overflows (value (_get_cell_at self r c)) = false).
    { unfold has_overflow in Hfit.
      destruct (overflows (value (_get_cell_at self r c))) eqn:Hov;
        [|reflexivity].
      assert (existsb (overflows_at self) (positions self) = true)
        by (apply existsb_exists; exists (r, c); now split).
      congruence. }
    unfold overflows in Hok.
    destruct (value (_get_cell_at self r c)) as [|z|s]; cbn in Hget, Hok;
      [exact Hget| |exact Hget].
    destruct (float_of_int z) as [f|] eqn:Hf; [|discriminate].
    exists f. split; [reflexivity|]. split; [exact Hget|].
    intros Hz. rewrite (float_of_int_exact z Hz) in Hf. congruence.
Qed.

Lemma to_numpy_shape_and_entries_witness :
  has_overflow sheet_7_none_9_10 = false /\
  exists a,
    snd (to_numpy sheet_7_none_9_10) = Ok a /\
    has_shape (shape sheet_7_none_9_10) a /\
    (forall r c, r < fst (shape sheet_7_none_9_10) ->
       c < snd (shape sheet_7_none_9_10) ->
       In (GetCell r c) (fst (to_numpy sheet_7_none_9_10)) /\
       match value (_get_cell_at sheet_7_none_9_10 r c) with
       | Py.SNum z =>
           exists f, float_of_int z = Some f /\
             np_getitem a r c = Some (NpNum f) /\
             ((Z.abs z < 2 ^ 53)%Z -> f = z)
       | _ => np_getitem a r c = Some NpNaN
       end).
Proof.
  split; [reflexivity|].
  apply (to_numpy_shape_and_entries sheet_7_none_9_10). reflexivity.
Defined.

(** C8 as stated fails: a cell that holds ten to the power 400 makes the
    call raise [OverflowError] instead of returning an array, and a cell
    that holds two to the power 53 plus one is stored as two to the power
    53, not as the number of the cell. *)
Lemma to_numpy_raises_or_rounds :
  to_numpy sheet_ten_to_400 = ([GetCell 0 0], Raise OverflowError) /\
  value (_get_cell_at sheet_2_53_plus_1 0 0) = Py.SNum (2 ^ 53 + 1) /\
  snd (to_numpy sheet_2_53_plus_1)
  = Ok {| np_shape := (1, 1); np_data := [[NpNum (2 ^ 53)]] |}.
Proof. repeat split; vm_compute; reflexivity. Qed.

(** ** The hypertext encoder *)

(** C2 fails on the code: with export offset (1, 0) the exported row is
    the one labelled r1, its label is read at index 0 + 1, but its tooltip
    is read from the rows help text at index 0 + 0, the column component of
    the offset, so r1 carries the help text of r0; [to_dictionary] pairs
    the same row with its own help text. *)
Theorem to_html_table_row_tooltip_uses_column_offset :
  snd (to_html_table sheet_skipping_first_row " " "Sheet" "" None)
  = Ok ("<table><tr><th>Sheet</th><th>" ^^ anchor_open "" ^^ "c0</a></th></tr>"
        ^^ "<tr><td>" ^^ anchor_open (title_format "help r0")
        ^^ "r1</a></td><td>" ^^ anchor_open "" ^^ "5</a></td></tr></table>") /\
  html_row_title_attr sheet_skipping_first_row 0
  = ret (title_format "help r0") /\
  x_helptext (axis_plan sheet_skipping_first_row true " ") = Some ["help r1"] /\
  x (axis_plan sheet_skipping_first_row true " ") = ["r1"].
Proof. repeat split; reflexivity. Qed.

(** ** The workbook encoder *)

Lemma for_each_ok {X} (l : list X) (body : X -> M unit) :
  snd (for_each l body) = Ok tt ->
  (forall x, In x l -> snd (body x) = Ok tt) /\
  fst (for_each l body) = flat_map (fun x => fst (body x)) l.
Proof.
  unfold for_each. induction l as [|x l IH]; simpl; intros H.
  - split; [intros x []|reflexivity].
  - apply bind_ok_inv in H as [[] [Hx [Hl Htr]]].
    destruct (IH Hl) as [Hall Hfl]. split.
    + intros x' [<-|Hin]; auto.
    + rewrite Htr. now rewrite Hfl.
Qed.

Lemma entry_written_quiet {A} (row col : nat) (m : M A) :
  emits_only (fun e => writes_data_at row col e = false) m ->
  entry_written (fst m) row col = false.
Proof.
  unfold emits_only, entry_written. induction 1 as [|e tr He _ IH]; simpl.
  - reflexivity.
  - now rewrite He.
Qed.

(** What one turn of the data loop does when it does not raise. *)
Lemma excel_cell_ok (self : Sheet) (xlsx : library) (r c row col : nat) :
  snd (excel_cell self xlsx r c) = Ok tt ->
  In (GetCell r c) (fst (excel_cell self xlsx r c)) /\
  entry_written (fst (excel_cell self xlsx r c)) row col
  = negb (Py.is_none (value (_get_cell_at self r c)))
    && (Nat.eqb (r + label_shift self) row
        && Nat.eqb (c + label_shift self) col).
Proof.
  unfold excel_cell, label_shift, entry_written.
  rewrite get_cell_at_run. unfold bind at 1 2 3. simpl fst. simpl snd.
  cbv iota beta. set (cell := _get_cell_at self r c).
  destruct (Py.is_none (value cell)); simpl negb; cbv iota.
  - intros _. split; [now left|reflexivity].
  - intros H. split; [now left|].
    destruct (Nat.ltb 0 (List.length (excel_format cell)));
      destruct (cell_type cell);
      try destruct (Dict.get (parse cell) "excel");
      repeat (progress (xlsx_cases; unfold bind in H |- *;
                        simpl in H |- *));
      rewrite ?orb_false_r; reflexivity || discriminate.
Qed.

Lemma excel_variables_no_data (self : Sheet) (xlsx : library) vsn vsh fmt
  (row col : nat) :
  emits_only (fun e => writes_data_at row col e = false)
    (excel_variables self xlsx vsn vsh fmt).
Proof. unfold excel_variables. repeat (emits_only_step || reflexivity). Qed.

Lemma excel_labels_no_data (self : Sheet) (xlsx : library) sr lrf lcf
  (r c : nat) :
  emits_only
    (fun e => writes_data_at (r + label_shift self) (c + label_shift self) e
              = false)
    (excel_labels self xlsx sr lrf lcf).
Proof.
  unfold excel_labels, label_shift.
  destruct (excel_append_labels (cell_indices self));
    [|apply emits_only_ret].
  repeat emits_only_step; simpl.
  - replace (c + 1) with (S c) by lia.
    replace (r + 1) with (S r) by lia. reflexivity.
  - replace (c + 1) with (S c) by lia.
    now rewrite andb_false_r.
Qed.

(** The data loop, when it does not raise: the entry at a shifted data
    position is written exactly when the cell there holds a value. *)
Lemma excel_data_ok (self : Sheet) (xlsx : library) (r c : nat) :
  let loop :=
    for_each (range (fst (shape self))) (fun row_idx =>
      for_each (range (snd (shape self))) (fun col_idx =>
        excel_cell self xlsx row_idx col_idx)) in
  snd loop = Ok tt ->
  r < fst (shape self) -> c < snd (shape self) ->
  In (GetCell r c) (fst loop) /\
  entry_written (fst loop) (r + label_shift self) (c + label_shift self)
  = negb (Py.is_none (value (_get_cell_at self r c))).
Proof.
  intros loop Hok Hr Hc. subst loop.
  destruct (for_each_ok _ _ Hok) as [Hrows Htr]. rewrite Htr. clear Htr.
  assert (Hrow : forall r', r' < fst (shape self) ->
            (forall c', c' < snd (shape self) ->
               snd (excel_cell self xlsx r' c') = Ok tt) /\
            fst (for_each (range (snd (shape self)))
                   (fun col_idx => excel_cell self xlsx r' col_idx))
            = flat_map (fun c' => fst (excel_cell self xlsx r' c'))
                (range (snd (shape self)))).
  { intros r' Hr'.
    destruct (for_each_ok _ _ (Hrows r' ltac:(apply in_seq; lia)))
      as [Hcells Htr].
    split; [|exact Htr]. intros c' Hc'. apply Hcells. apply in_seq. lia. }
  split.
  - apply in_flat_map. exists r. split; [apply in_seq; lia|].
    destruct (Hrow r Hr) as [Hcells ->].
    apply in_flat_map. exists c. split; [apply in_seq; lia|].
    apply (excel_cell_ok self xlsx r c 0 0). now apply Hcells.
  - unfold entry_written. rewrite existsb_flat_map.
    destruct (Py.is_none (value (_get_cell_at self r c))) eqn:Hv; simpl.
    + apply not_true_is_false. intros H.
      apply existsb_exists in H as [r' [Hr' H]]. apply in_seq in Hr'.
      destruct (Hrow r' ltac:(lia)) as [Hcells Htr]. rewrite Htr in H.
      rewrite existsb_flat_map in H.
      apply existsb_exists in H as [c' [Hc' H]]. apply in_seq in Hc'.
      destruct (excel_cell_ok self xlsx r' c' (r + label_shift self)
                  (c + label_shift self) (Hcells c' ltac:(lia))) as [_ He].
      unfold entry_written in He. rewrite He in H.
      apply andb_true_iff in H as [Hn H].
      apply andb_true_iff in H as [H1 H2].
      apply Nat.eqb_eq in H1, H2.
      assert (r' = r) by lia. assert (c' = c) by lia. subst r' c'.
      rewrite Hv in Hn. discriminate.
    + apply existsb_exists. exists r. split; [apply in_seq; lia|].
      destruct (Hrow r Hr) as [Hcells ->]. rewrite existsb_flat_map.
      apply existsb_exists. exists c. split; [apply in_seq; lia|].
      destruct (excel_cell_ok self xlsx r c (r + label_shift self)
                  (c + label_shift self) (Hcells c Hc)) as [_ He].
      unfold entry_written in He. rewrite He, Hv, !Nat.eqb_refl.
      reflexivity.
Qed.

Lemma entry_written_app (tr1 tr2 : list event) (row col : nat) :
  entry_written (tr1 ++ tr2) row col
  = entry_written tr1 row col || entry_written tr2 row col.
Proof. apply existsb_app. Qed.

(** A [to_excel] call that returns has read every cell of the exported
    shape and has written an entry, at the position of the cell moved by
    the label shift, for exactly the cells whose value is not [None]. *)
Lemma to_excel_cells_ok (self : Sheet) (xlsx : library) fp sn sr lrf lcf
  vsn vsh :
  snd (to_excel self xlsx fp sn sr lrf lcf vsn vsh) = Ok tt ->
  forall r c, r < fst (shape self) -> c < snd (shape self) ->
    In (GetCell r c) (fst (to_excel self xlsx fp sn sr lrf lcf vsn vsh)) /\
    entry_written (fst (to_excel self xlsx fp sn sr lrf lcf vsn vsh))
      (r + label_shift self) (c + label_shift self)
    = negb (Py.is_none (value (_get_cell_at self r c))).
Proof.
  intros Hok r c Hr Hc. unfold to_excel in *.
  destruct (bad_suffix fp); [discriminate|].
  destruct (bad_sheet_name sn); [discriminate|].
  repeat match goal with
         | H : snd (bind _ _) = Ok _ |- _ =>
             let Htr := fresh "Htr" in
             apply bind_ok_inv in H as [[] [? [H Htr]]];
             rewrite Htr; clear Htr
         end.
  repeat match goal with
         | H : snd (xlsx_call _ _) = Ok _ |- _ =>
             rewrite (xlsx_call_ok _ _ _ H); clear H
         end.
  match goal with
  | H : snd (for_each _ _) = Ok tt |- _ =>
      destruct (excel_data_ok self xlsx r c H Hr Hc) as [Hin Hw]
  end.
  split.
  - do 6 (apply in_or_app; right). apply in_or_app. now left.
  - rewrite !entry_written_app, Hw.
    rewrite (entry_written_quiet _ _ _
               (excel_variables_no_data self xlsx vsn vsh lcf _ _)).
    rewrite (entry_written_quiet _ _ _
               (excel_labels_no_data self xlsx sr lrf lcf r c)).
    rewrite log_export_subset_warning_run.
    destruct (export_subset self); simpl; now rewrite orb_false_r.
Qed.

(** C3 as stated fails: on the grid [[7, None], [9, 10]], with a workbook
    writer that carries out every call, the call returns and the workbook
    gets entries for three cells; the cell at row 0, column 1, which holds
    [None], gets none. *)
Lemma to_excel_skips_none_cell :
  snd to_excel_7_none_9_10 = Ok tt /\
  value (_get_cell_at sheet_7_none_9_10 0 1) = Py.SNone /\
  entry_written (fst to_excel_7_none_9_10) 0 1 = false /\
  entry_written (fst to_excel_7_none_9_10) 0 0 = true.
Proof. repeat split; reflexivity. Qed.

(** ** Dictionaries *)

Lemma dict_get_set {V} (d : Dict.t V) (k k' : string) (v : V) :
  Dict.get (Dict.set d k v) k'
  = if String.eqb k' k then Some v else Dict.get d k'.
Proof.
  induction d as [|[k0 v0] d IH]; simpl.
  - reflexivity.
  - destruct (String.eqb_spec k k0) as [->|Hne]; simpl.
    + destruct (String.eqb k' k0); reflexivity.
    + rewrite IH. destruct (String.eqb_spec k' k0) as [->|Hne'].
      * destruct (String.eqb_spec k0 k); [congruence|reflexivity].
      * reflexivity.
Qed.

Lemma dict_keys_set {V} (d : Dict.t V) (k k' : string) (v : V) :
  In k' (Dict.keys (Dict.set d k v)) <-> k' = k \/ In k' (Dict.keys d).
Proof.
  unfold Dict.keys. induction d as [|[k0 v0] d IH]; simpl.
  - intuition.
  - destruct (String.eqb_spec k k0) as [->|Hne]; simpl.
    + intuition.
    + rewrite IH. intuition.
Qed.

Lemma dict_set_nodup {V} (d : Dict.t V) (k : string) (v : V) :
  NoDup (Dict.keys d) -> NoDup (Dict.keys (Dict.set d k v)).
Proof.
  induction d as [|[k0 v0] d IH]; simpl; intros Hnd.
  - constructor; [intros []|constructor].
  - inversion Hnd as [|? ? Hnotin Hnd']; subst.
    destruct (String.eqb_spec k k0) as [->|Hne]; simpl.
    + now constructor.
    + constructor; [|now apply IH].
      intros Hin. apply dict_keys_set in Hin as [Heq|Hin]; congruence.
Qed.

Lemma entries_for_absent {V} (d : Dict.t V) (k : string) :
  ~ In k (Dict.keys d) -> entries_for d k = [].
Proof.
  induction d as [|[k0 v0] d IH]; simpl; [reflexivity|].
  intros Hnotin. destruct (String.eqb_spec k0 k) as [->|Hne].
  - tauto.
  - apply IH. tauto.
Qed.

(** A dictionary holds one entry per key it has, the one [get] returns. *)
Lemma entries_for_get {V} (d : Dict.t V) (k : string) :
  NoDup (Dict.keys d) ->
  entries_for d k
  = match Dict.get d k with Some v => [(k, v)] | None => [] end.
Proof.
  induction d as [|[k0 v0] d IH]; simpl; intros Hnd; [reflexivity|].
  inversion Hnd as [|? ? Hnotin Hnd']; subst.
  destruct (String.eqb_spec k k0) as [->|Hne].
  - rewrite String.eqb_refl. f_equal. now apply entries_for_absent.
  - destruct (String.eqb_spec k0 k); [congruence|]. now apply IH.
Qed.

Lemma dict_remove_set {V} (d : Dict.t V) (k : string) (v : V) :
  dict_remove (Dict.set d k v) k = dict_remove d k.
Proof.
  induction d as [|[k0 v0] d IH]; simpl.
  - now rewrite String.eqb_refl.
  - destruct (String.eqb_spec k k0) as [->|Hne]; simpl.
    + now rewrite String.eqb_refl.
    + now rewrite IH.
Qed.

(** ** The highest index with a property *)

Lemma last_index_some (p : nat -> bool) (n i : nat) :
  last_index p n = Some i ->
  i < n /\ p i = true /\ forall j, i < j < n -> p j = false.
Proof.
  induction n as [|n IH]; simpl; [discriminate|].
  destruct (p n) eqn:Hp.
  - intros [= <-]. repeat split; [lia|assumption|]. intros j Hj. lia.
  - intros H. destruct (IH H) as [Hi [Hpi Hj]]. repeat split; [lia|assumption|].
    intros j Hlt. destruct (Nat.eq_dec j n) as [->|]; [assumption|].
    apply Hj. lia.
Qed.

Lemma last_index_none (p : nat -> bool) (n : nat) :
  last_index p n = None -> forall j, j < n -> p j = false.
Proof.
  induction n as [|n IH]; simpl; [intros _ j Hj; lia|].
  destruct (p n) eqn:Hp; [discriminate|].
  intros H j Hj. destruct (Nat.eq_dec j n) as [->|]; [assumption|].
  apply IH; [assumption|lia].
Qed.

Lemma last_index_ext (p q : nat -> bool) (n : nat) :
  (forall i, i < n -> p i = q i) -> last_index p n = last_index q n.
Proof.
  induction n as [|n IH]; simpl; intros H; [reflexivity|].
  rewrite (H n) by lia. rewrite IH; [reflexivity|].
  intros i Hi. apply H. lia.
Qed.

(** ** Loops that fill a dictionary *)

(** A loop whose turn [i] either leaves the dictionary alone or stores a
    value under the key of the turn: the dictionary it returns has one
    entry per key, the value stored by the last turn with that key. *)
Lemma dict_loop_spec {V} (body : nat -> Dict.t V -> M (Dict.t V))
  (key_of : nat -> option string) (R : nat -> V -> Prop) (n : nat) :
  (forall i acc acc', i < n -> snd (body i acc) = Ok acc' ->
     match key_of i with
     | Some k => exists v, R i v /\ acc' = Dict.set acc k v
     | None => acc' = acc
     end) ->
  forall d, snd (for_in (range n) body Dict.empty) = Ok d ->
    NoDup (Dict.keys d) /\
    forall l,
      match last_index (fun i => key_is (key_of i) l) n with
      | Some i => exists v, Dict.get d l = Some v /\ R i v
      | None => Dict.get d l = None
      end.
Proof.
  unfold range. induction n as [|n IH]; intros Hbody d Hrun.
  - simpl in Hrun. injection Hrun as <-. split; [constructor|].
    intros l. reflexivity.
  - rewrite seq_S, for_in_app in Hrun. simpl in Hrun.
    apply bind_ok_inv in Hrun as [d0 [Hd0 [Hlast _]]].
    apply bind_ok_inv in Hlast as [d1 [Hd1 [Hret _]]].
    injection Hret as <-.
    destruct (IH (fun i acc acc' Hi => Hbody i acc acc' (Nat.lt_lt_succ_r _ _ Hi))
                d0 Hd0) as [Hnd Hget].
    specialize (Hbody n d0 d1 (Nat.lt_succ_diag_r n) Hd1).
    destruct (key_of n) as [k|] eqn:Hk.
    + destruct Hbody as [v [Hv ->]]. split; [now apply dict_set_nodup|].
      intros l. simpl. rewrite Hk. simpl. rewrite dict_get_set.
      rewrite (String.eqb_sym l k).
      destruct (String.eqb k l); [eauto|apply Hget].
    + subst d1. split; [assumption|]. intros l. simpl. rewrite Hk. simpl.
      apply Hget.
Qed.

(** ** The dictionary encoder *)

Lemma orelse_ok {A} (o : option A) (e : exn) (a : A) :
  snd (orelse o e) = Ok a -> o = Some a.
Proof. destruct o; simpl; congruence. Qed.

Lemma get_cell_at_by_row (self : Sheet) (by_row : bool) (idx_x idx_y : nat) :
  snd (if by_row then get_cell_at self idx_x idx_y
       else get_cell_at self idx_y idx_x)
  = Ok (cell_at self by_row idx_x idx_y).
Proof. now destruct by_row. Qed.

(** What a turn of the inner loop does to the dictionary it fills. *)
Lemma to_dictionary_cell_ok (self : Sheet) (plan : AxisPlan) (by_row : bool)
  (ls lu : list string) (skip : bool) (nr : Py.obj) (idx_x idx_y : nat)
  (inner inner' : Dict.t Py.obj) :
  snd (to_dictionary_cell self plan by_row ls lu skip nr idx_x idx_y inner)
  = Ok inner' ->
  match inner_key self plan by_row skip idx_x idx_y with
  | Some k =>
      exists rec,
        record_built ls lu nr (y_helptext plan) idx_y
          (cell_at self by_row idx_x idx_y) rec /\
        inner' = Dict.set inner k rec
  | None => inner' = inner
  end.
Proof.
  unfold to_dictionary_cell, inner_key, skipped. intros H.
  apply bind_ok_inv in H as [cell [Hcell [H _]]].
  rewrite get_cell_at_by_row in Hcell. injection Hcell as <-.
  set (cell := cell_at self by_row idx_x idx_y) in *.
  destruct (Py.is_none (value cell) && skip).
  - simpl in H. congruence.
  - apply bind_ok_inv in H as [base [Hbase [H _]]].
    apply bind_ok_inv in H as [label [Hlabel [H _]]].
    apply orelse_ok in Hlabel. rewrite Hlabel.
    unfold record_built. fold (exported_value nr cell) in Hbase.
    destruct (y_helptext plan) as [help|].
    + apply bind_ok_inv in H as [h [Hh [H _]]]. apply orelse_ok in Hh.
      injection H as <-. eexists. split; [|reflexivity].
      exists base. split; [assumption|]. eauto.
    + injection H as <-. eexists. split; [|reflexivity].
      exists base. now split.
Qed.

(** The dictionary of the inner loop: one entry per label, built from the
    last cell of the line with that label that is not skipped. *)
Lemma to_dictionary_inner_spec (self : Sheet) (plan : AxisPlan)
  (by_row : bool) (ls lu : list string) (skip : bool) (nr : Py.obj)
  (idx_x : nat) (inner : Dict.t Py.obj) :
  snd (for_in (range (y_range plan))
         (to_dictionary_cell self plan by_row ls lu skip nr idx_x) Dict.empty)
  = Ok inner ->
  NoDup (Dict.keys inner) /\
  forall l,
    match last_index
            (fun j => key_is (inner_key self plan by_row skip idx_x j) l)
            (y_range plan) with
    | Some j =>
        exists rec, Dict.get inner l = Some rec /\
          record_built ls lu nr (y_helptext plan) j
            (cell_at self by_row idx_x j) rec
    | None => Dict.get inner l = None
    end.
Proof.
  apply (dict_loop_spec
           (to_dictionary_cell self plan by_row ls lu skip nr idx_x)
           (inner_key self plan by_row skip idx_x)
           (fun j rec => record_built ls lu nr (y_helptext plan) j
                           (cell_at self by_row idx_x j) rec)).
  intros j acc acc' _ H. apply to_dictionary_cell_ok in H.
  destruct (inner_key self plan by_row skip idx_x j); [|assumption].
  destruct H as [rec [H1 H2]]. eauto.
Qed.

(** What a turn of the outer loop does to the dictionary it fills. *)
Lemma to_dictionary_line_ok (self : Sheet) (plan : AxisPlan) (by_row : bool)
  (ls lu : list string) (skip : bool) (nr : Py.obj) (idx_x : nat)
  (outer outer' : Dict.t Py.obj) :
  snd (to_dictionary_line self plan by_row ls lu skip nr idx_x outer)
  = Ok outer' ->
  match nth_error (x plan) idx_x with
  | Some k =>
      exists line,
        line_built self plan by_row ls lu skip nr idx_x line /\
        outer' = Dict.set outer k line
  | None => outer' = outer
  end.
Proof.
  unfold to_dictionary_line, line_built. intros H.
  apply bind_ok_inv in H as [inner [Hinner [H _]]].
  apply bind_ok_inv in H as [label [Hlabel [H _]]].
  apply orelse_ok in Hlabel. rewrite Hlabel.
  destruct (x_helptext plan) as [help|].
  - apply bind_ok_inv in H as [h [Hh [H _]]]. apply orelse_ok in Hh.
    injection H as <-. eexists. split; [|reflexivity].
    exists inner. split; [assumption|]. simpl. eauto.
  - injection H as <-. eexists. split; [|reflexivity].
    exists inner. now split.
Qed.

(** The dictionary of the outer loop: one entry per label, the line built
    at the last index with that label. *)
Lemma to_dictionary_outer_spec (self : Sheet) (plan : AxisPlan)
  (by_row : bool) (ls lu : list string) (skip : bool) (nr : Py.obj)
  (outer : Dict.t Py.obj) :
  snd (for_in (range (x_range plan))
         (to_dictionary_line self plan by_row ls lu skip nr) Dict.empty)
  = Ok outer ->
  NoDup (Dict.keys outer) /\
  forall l,
    match last_index (fun i => label_at (x plan) i l) (x_range plan) with
    | Some i =>
        exists line, Dict.get outer l = Some line /\
          line_built self plan by_row ls lu skip nr i line
    | None => Dict.get outer l = None
    end.
Proof.
  intros H.
  destruct (dict_loop_spec
              (to_dictionary_line self plan by_row ls lu skip nr)
              (fun i => nth_error (x plan) i)
              (fun i line => line_built self plan by_row ls lu skip nr i line)
              (x_range plan)) with (d := outer) as [Hnd Hget].
  - intros i acc acc' _ Hi. apply to_dictionary_line_ok in Hi.
    destruct (nth_error (x plan) i); [|assumption].
    destruct Hi as [line [H1 H2]]. eauto.
  - assumption.
  - split; [assumption|]. intros l. specialize (Hget l).
    unfold label_at. unfold key_is in Hget. exact Hget.
Qed.

(** A call of [to_dictionary] that returns: the dictionary of the outer
    loop stands under the key of the outer axis. *)
Lemma to_dictionary_ok (self : Sheet) (ls : option (list string))
  (by_row : bool) (lp : option (list string)) (sr : string) (skip : bool)
  (nr values : Py.obj) :
  snd (to_dictionary self ls by_row lp sr skip nr) = Ok values ->
  let plan := axis_plan self by_row sr in
  let languages := languages_exported self ls in
  exists outer,
    snd (for_in (range (x_range plan))
           (to_dictionary_line self plan by_row languages
              (languages_used_for languages lp) skip nr) Dict.empty)
    = Ok outer /\
    obj_get values (x_start_key plan) = Some (Py.ODict outer).
Proof.
  intros H plan languages. unfold to_dictionary in H.
  apply bind_ok_inv in H as [[] [_ [H _]]].
  fold (languages_exported self ls) in H. fold languages in H.
  destruct (match lp with
            | Some p => negb (Nat.eqb (List.length p) (List.length languages))
            | None => false
            end); [discriminate|].
  fold (languages_used_for languages lp) in H. fold plan in H.
  apply bind_ok_inv in H as [outer [Houter [H _]]].
  exists outer. split; [assumption|].
  injection H as <-. unfold obj_get. rewrite !dict_get_set.
  subst plan. destruct by_row; reflexivity.
Qed.

Lemma inner_key_label (self : Sheet) (plan : AxisPlan) (by_row skip : bool)
  (idx_x j : nat) (l : string) :
  key_is (inner_key self plan by_row skip idx_x j) l
  = label_at (y plan) j l && negb (skipped skip (cell_at self by_row idx_x j)).
Proof.
  unfold inner_key, label_at.
  destruct (skipped skip (cell_at self by_row idx_x j)); simpl.
  - now rewrite andb_false_r.
  - now rewrite andb_true_r.
Qed.

Lemma axis_plan_y_start_key (self : Sheet) (by_row : bool) (sr : string) :
  String.eqb (y_start_key (axis_plan self by_row sr)) "help_text" = false.
Proof. now destruct by_row. Qed.

Lemma line_built_inner (self : Sheet) (by_row : bool) (sr : string)
  (ls lu : list string) (skip : bool) (nr : Py.obj) (i : nat)
  (line : Py.obj) :
  let plan := axis_plan self by_row sr in
  line_built self plan by_row ls lu skip nr i line ->
  exists inner,
    snd (for_in (range (y_range plan))
           (to_dictionary_cell self plan by_row ls lu skip nr i) Dict.empty)
    = Ok inner /\
    obj_get line (y_start_key plan) = Some (Py.ODict inner).
Proof.
  intros plan [inner [Hinner Hline]]. exists inner. split; [assumption|].
  cbv zeta in Hline. destruct (x_helptext plan).
  - destruct Hline as [t [_ ->]]. unfold obj_get. rewrite dict_get_set.
    subst plan. rewrite axis_plan_y_start_key. simpl.
    now rewrite String.eqb_refl.
  - subst line. simpl. now rewrite String.eqb_refl.
Qed.

(** The dictionary [to_dictionary] returns, entry by entry. *)
Lemma to_dictionary_entries (self : Sheet) (ls : option (list string))
  (by_row : bool) (lp : option (list string)) (sr : string) (skip : bool)
  (nr values : Py.obj) :
  snd (to_dictionary self ls by_row lp sr skip nr) = Ok values ->
  let plan := axis_plan self by_row sr in
  let languages := languages_exported self ls in
  let used := languages_used_for languages lp in
  exists outer,
    obj_get values (x_start_key plan) = Some (Py.ODict outer) /\
    NoDup (Dict.keys outer) /\
    forall l,
      match last_index (fun i => label_at (x plan) i l) (x_range plan) with
      | Some i =>
          exists line inner,
            Dict.get outer l = Some line /\
            obj_get line (y_start_key plan) = Some (Py.ODict inner) /\
            NoDup (Dict.keys inner) /\
            forall l',
              match last_index
                      (fun j => label_at (y plan) j l'
                                && negb (skipped skip (cell_at self by_row i j)))
                      (y_range plan) with
              | Some j =>
                  exists rec,
                    Dict.get inner l' = Some rec /\
                    record_built languages used nr (y_helptext plan) j
                      (cell_at self by_row i j) rec
              | None => Dict.get inner l' = None
              end
      | None => Dict.get outer l = None
      end.
Proof.
  intros H plan languages used.
  destruct (to_dictionary_ok _ _ _ _ _ _ _ _ H) as [outer [Houter Hget]].
  fold plan languages used in Houter, Hget.
  exists outer. split; [assumption|].
  destruct (to_dictionary_outer_spec _ _ _ _ _ _ _ _ Houter) as [Hnd Hl].
  split; [assumption|]. intros l. specialize (Hl l).
  destruct (last_index (fun i => label_at (x plan) i l) (x_range plan))
    as [i|]; [|assumption].
  destruct Hl as [line [Hline Hbuilt]].
  destruct (line_built_inner _ _ _ _ _ _ _ _ _ Hbuilt)
    as [inner [Hinner Hobj]].
  fold plan in Hinner, Hobj.
  destruct (to_dictionary_inner_spec _ _ _ _ _ _ _ _ _ Hinner) as [Hnd' Hl'].
  exists line, inner. repeat split; try assumption.
  intros l'. specialize (Hl' l').
  rewrite (last_index_ext _
             (fun j => key_is (inner_key self plan by_row skip i j) l')).
  - exact Hl'.
  - intros j _. symmetry. apply inner_key_label.
Qed.

(** C9, as the code has it: the dictionary is keyed by the exported labels,
    so labels that are equal share one entry. On the outer axis the entry
    of a label is the line built at the highest index with that label. On
    the inner axis the entry of a label is the record of the highest index
    with that label whose cell is not skipped ([skip_nan_cell] skips the
    cells without a value); when none is left the label has no entry.
    What the other duplicates held is not in the output. *)
Theorem to_dictionary_one_entry_per_label (self : Sheet)
  (languages : option (list string)) (by_row : bool)
  (languages_pseudonyms : option (list string)) (spaces_replacement : string)
  (skip_nan_cell : bool) (nan_replacement values : Py.obj) :
  snd (to_dictionary self languages by_row languages_pseudonyms
         spaces_replacement skip_nan_cell nan_replacement) = Ok values ->
  let plan := axis_plan self by_row spaces_replacement in
  let exported := languages_exported self languages in
  let used := languages_used_for exported languages_pseudonyms in
  exists outer,
    obj_get values (x_start_key plan) = Some (Py.ODict outer) /\
    forall l,
      match last_index (fun i => label_at (x plan) i l) (x_range plan) with
      | Some i =>
          exists line inner,
            entries_for outer l = [(l, line)] /\
            obj_get line (y_start_key plan) = Some (Py.ODict inner) /\
            forall l',
              match last_index
                      (fun j => label_at (y plan) j l'
                                && negb (skipped skip_nan_cell
                                           (cell_at self by_row i j)))
                      (y_range plan) with
              | Some j =>
                  exists rec,
                    entries_for inner l' = [(l', rec)] /\
                    record_built exported used nan_replacement
                      (y_helptext plan) j (cell_at self by_row i j) rec
              | None => entries_for inner l' = []
              end
      | None => entries_for outer l = []
      end.
Proof.
  intros H plan exported used.
  destruct (to_dictionary_entries _ _ _ _ _ _ _ _ H)
    as [outer [Hget [Hnd Hl]]].
  fold plan exported used in Hget, Hl.
  exists outer. split; [assumption|]. intros l. specialize (Hl l).
  rewrite (entries_for_get outer l Hnd).
  destruct (last_index (fun i => label_at (x plan) i l) (x_range plan))
    as [i|]; [|now rewrite Hl].
  destruct Hl as [line [inner [Hline [Hobj [Hnd' Hl']]]]].
  exists line, inner. rewrite Hline. repeat split; try assumption.
  intros l'. specialize (Hl' l'). rewrite (entries_for_get inner l' Hnd').
  destruct (last_index _ (y_range plan)) as [j|]; [|now rewrite Hl'].
  destruct Hl' as [rec [Hrec Hbuilt]]. exists rec. rewrite Hrec. now split.
Qed.

Lemma to_dictionary_one_entry_per_label_witness :
  let self := sheet_duplicate_columns in
  let plan := axis_plan self true " " in
  let exported := languages_exported self None in
  let used := languages_used_for exported None in
  exists outer,
    obj_get (returned dictionary_duplicate_columns) (x_start_key plan)
    = Some (Py.ODict outer) /\
    forall l,
      match last_index (fun i => label_at (x plan) i l) (x_range plan) with
      | Some i =>
          exists line inner,
            entries_for outer l = [(l, line)] /\
            obj_get line (y_start_key plan) = Some (Py.ODict inner) /\
            forall l',
              match last_index
                      (fun j => label_at (y plan) j l'
                                && negb (skipped true (cell_at self true i j)))
                      (y_range plan) with
              | Some j =>
                  exists rec,
                    entries_for inner l' = [(l', rec)] /\
                    record_built exported used Py.ONone
                      (y_helptext plan) j (cell_at self true i j) rec
              | None => entries_for inner l' = []
              end
      | None => entries_for outer l = []
      end.
Proof.
  apply (to_dictionary_one_entry_per_label sheet_duplicate_columns None true
           None " " true Py.ONone (returned dictionary_duplicate_columns)).
  reflexivity.
Defined.

(** C9 as stated fails: the two columns share the label c and cells
    without a value are skipped; the one entry for c holds the record of
    column 0, value 5, while the highest-index duplicate is column 1,
    whose cell is empty. *)
Lemma to_dictionary_keeps_earlier_duplicate :
  label_at (columns_labels (cell_indices sheet_duplicate_columns)) 0 "c"
  = true /\
  label_at (columns_labels (cell_indices sheet_duplicate_columns)) 1 "c"
  = true /\
  value (_get_cell_at sheet_duplicate_columns 0 0) = Py.SNum 5 /\
  value (_get_cell_at sheet_duplicate_columns 0 1) = Py.SNone /\
  record_at (returned dictionary_duplicate_columns) "rows" "r0" "columns" "c"
  = Some (Py.ODict [("excel", Py.OStr "5"); ("native", Py.OStr "5");
                    ("value", Py.ONum 5); ("description", Py.ONone)]).
Proof. repeat split; reflexivity. Qed.

(** ** Lookups by two labels *)

Lemma last_index_intro (q : nat -> bool) (n i : nat) :
  i < n -> q i = true -> (forall j, i < j < n -> q j = false) ->
  last_index q n = Some i.
Proof.
  induction n as [|n IH]; intros Hi Hq Hafter; [lia|]. simpl.
  destruct (Nat.eq_dec i n) as [->|Hne].
  - now rewrite Hq.
  - rewrite (Hafter n) by lia. apply IH; [lia|assumption|].
    intros j Hj. apply Hafter. lia.
Qed.

Lemma last_index_none_intro (q : nat -> bool) (n : nat) :
  (forall j, j < n -> q j = false) -> last_index q n = None.
Proof.
  induction n as [|n IH]; intros H; [reflexivity|]. simpl.
  rewrite (H n) by lia. apply IH. intros j Hj. apply H. lia.
Qed.

Lemma last_index_and_unique (p g : nat -> bool) (n i : nat) :
  at_most_one p n -> last_index p n = Some i ->
  last_index (fun k => p k && g k) n = if g i then Some i else None.
Proof.
  intros Hu H. apply last_index_some in H as [Hi [Hp Hafter]].
  destruct (g i) eqn:Hg.
  - apply last_index_intro; [assumption|now rewrite Hp, Hg|].
    intros j Hj. now rewrite (Hafter j Hj).
  - apply last_index_none_intro. intros j Hj.
    destruct (p j) eqn:Hpj; [|reflexivity].
    assert (j = i) by now apply Hu. subst j. now rewrite Hg.
Qed.

Lemma last_index_and_none (p g : nat -> bool) (n : nat) :
  last_index p n = None -> last_index (fun k => p k && g k) n = None.
Proof.
  intros H. apply last_index_none_intro. intros j Hj.
  now rewrite (last_index_none p n H j Hj).
Qed.

(** Rows first or columns first, the lookup ends at the same cell when no
    cell is skipped, or when no label comes twice. *)
Lemma select_cell_transpose (pr pc : nat -> bool) (ok : nat -> nat -> bool)
  (n m : nat) :
  (forall i j, ok i j = true) \/ (at_most_one pr n /\ at_most_one pc m) ->
  select_cell pc (fun j i => pr i && ok i j) m n
  = option_map swap_pair (select_cell pr (fun i j => pc j && ok i j) n m).
Proof.
  unfold select_cell. intros [Hok|[Hr Hc]].
  - destruct (last_index pc m) as [j|] eqn:Hj;
      destruct (last_index pr n) as [i|] eqn:Hi; simpl.
    + rewrite (last_index_ext (fun i0 => pr i0 && ok i0 j) pr n), Hi
        by (intros k _; now rewrite Hok, andb_true_r).
      rewrite (last_index_ext (fun j0 => pc j0 && ok i j0) pc m), Hj
        by (intros k _; now rewrite Hok, andb_true_r).
      reflexivity.
    + rewrite (last_index_ext (fun i0 => pr i0 && ok i0 j) pr n), Hi
        by (intros k _; now rewrite Hok, andb_true_r).
      reflexivity.
    + rewrite (last_index_ext (fun j0 => pc j0 && ok i j0) pc m), Hj
        by (intros k _; now rewrite Hok, andb_true_r).
      reflexivity.
    + reflexivity.
  - destruct (last_index pc m) as [j|] eqn:Hj;
      destruct (last_index pr n) as [i|] eqn:Hi; simpl.
    + rewrite (last_index_and_unique pr (fun i0 => ok i0 j) n i Hr Hi).
      rewrite (last_index_and_unique pc (fun j0 => ok i j0) m j Hc Hj).
      now destruct (ok i j).
    + now rewrite (last_index_and_none pr (fun i0 => ok i0 j) n Hi).
    + now rewrite (last_index_and_none pc (fun j0 => ok i j0) m Hj).
    + reflexivity.
Qed.

Lemma label_at_eq (labels : list string) (i : nat) (l : string) :
  label_at labels i l = true <-> nth_error labels i = Some l.
Proof.
  unfold label_at. destruct (nth_error labels i) as [l'|].
  - rewrite String.eqb_eq. split; congruence.
  - split; discriminate.
Qed.

Lemma distinct_labels_at_most_one (labels : list string) (n : nat)
  (l : string) :
  distinct_labels labels n -> at_most_one (fun i => label_at labels i l) n.
Proof.
  unfold distinct_labels, at_most_one. intros Hnd i j Hi Hj Hli Hlj.
  apply label_at_eq in Hli, Hlj.
  apply Nat.ltb_lt in Hi, Hj.
  assert (Hfi : nth_error (firstn n labels) i = Some l)
    by now rewrite nth_error_firstn, Hi.
  assert (Hfj : nth_error (firstn n labels) j = Some l)
    by now rewrite nth_error_firstn, Hj.
  rewrite NoDup_nth_error in Hnd. apply Hnd; [|congruence].
  apply nth_error_Some. congruence.
Qed.

(** The record found under two labels is that of the cell the lookup ends
    at. *)
Lemma record_at_spec (self : Sheet) (ls : option (list string))
  (by_row : bool) (lp : option (list string)) (sr : string) (skip : bool)
  (nr values : Py.obj) :
  snd (to_dictionary self ls by_row lp sr skip nr) = Ok values ->
  let plan := axis_plan self by_row sr in
  let languages := languages_exported self ls in
  let used := languages_used_for languages lp in
  forall lx ly,
    match select_cell (fun i => label_at (x plan) i lx)
            (fun i j => label_at (y plan) j ly
                        && negb (skipped skip (cell_at self by_row i j)))
            (x_range plan) (y_range plan) with
    | Some (i, j) =>
        exists rec,
          record_at values (x_start_key plan) lx (y_start_key plan) ly
          = Some rec /\
          record_built languages used nr (y_helptext plan) j
            (cell_at self by_row i j) rec
    | None =>
        record_at values (x_start_key plan) lx (y_start_key plan) ly = None
    end.
Proof.
  intros H plan languages used lx ly.
  destruct (to_dictionary_entries _ _ _ _ _ _ _ _ H)
    as [outer [Hget [_ Hl]]].
  fold plan languages used in Hget, Hl.
  unfold record_at, select_cell. rewrite Hget. cbn [obj_get].
  specialize (Hl lx).
  destruct (last_index (fun i => label_at (x plan) i lx) (x_range plan))
    as [i|]; [|now rewrite Hl].
  destruct Hl as [line [inner [Hline [Hobj [_ Hl']]]]].
  rewrite Hline, Hobj. cbn [obj_get]. specialize (Hl' ly).
  destruct (last_index _ (y_range plan)) as [j|]; assumption.
Qed.

Lemma record_built_strip (ls lu : list string) (nr : Py.obj)
  (h h' : option (list string)) (idx idx' : nat) (cell : Cell)
  (rec rec' : Py.obj) :
  record_built ls lu nr h idx cell rec ->
  record_built ls lu nr h' idx' cell rec' ->
  strip_help rec = strip_help rec' /\
  (h = None -> h' = None -> rec = rec').
Proof.
  intros [base [Hbase Hrec]] [base' [Hbase' Hrec']].
  assert (base' = base) by congruence. subst base'.
  assert (Hs : strip_help rec = Py.ODict (dict_remove base "help_text")).
  { destruct h; [destruct Hrec as [t [_ ->]]|subst rec]; simpl;
      now rewrite ?dict_remove_set. }
  assert (Hs' : strip_help rec' = Py.ODict (dict_remove base "help_text")).
  { destruct h'; [destruct Hrec' as [t [_ ->]]|subst rec']; simpl;
      now rewrite ?dict_remove_set. }
  split; [congruence|]. intros -> ->. congruence.
Qed.

Lemma select_cell_some (px : nat -> bool) (py : nat -> nat -> bool)
  (nx ny i j : nat) :
  select_cell px py nx ny = Some (i, j) ->
  i < nx /\ j < ny /\ px i = true /\ py i j = true.
Proof.
  unfold select_cell.
  destruct (last_index px nx) as [i'|] eqn:Hi; [|discriminate].
  destruct (last_index (py i') ny) as [j'|] eqn:Hj; [|discriminate].
  intros [= <- <-].
  apply last_index_some in Hi as [Hi [Hpx _]].
  apply last_index_some in Hj as [Hj [Hpy _]]. auto.
Qed.

(** The [help_text] of a record is the help text of the inner axis at
    the index of the inner label. *)
Lemma record_help_text (self : Sheet) (ls : option (list string))
  (by_row : bool) (lp : option (list string)) (sr : string) (skip : bool)
  (nr values : Py.obj) (lx ly : string) (rec : Py.obj) (h : list string) :
  snd (to_dictionary self ls by_row lp sr skip nr) = Ok values ->
  let plan := axis_plan self by_row sr in
  record_at values (x_start_key plan) lx (y_start_key plan) ly = Some rec ->
  y_helptext plan = Some h ->
  exists j t,
    j < y_range plan /\
    nth_error (y plan) j = Some ly /\ nth_error h j = Some t /\
    obj_get rec "help_text" = Some (Py.OStr t).
Proof.
  intros H plan Hrec Hh.
  pose proof (record_at_spec _ _ _ _ _ _ _ _ H lx ly) as S.
  cbv zeta in S. fold plan in S.
  destruct (select_cell _ _ (x_range plan) (y_range plan)) as [[i j]|] eqn:Hsel;
    [|congruence].
  destruct S as [rec' [Hrec' [base [_ Hbuilt]]]].
  assert (rec' = rec) by congruence. subst rec'.
  rewrite Hh in Hbuilt. destruct Hbuilt as [t [Ht ->]].
  apply select_cell_some in Hsel as (_ & Hj & _ & Hpy).
  apply andb_true_iff in Hpy as [Hlabel _]. apply label_at_eq in Hlabel.
  exists j, t. repeat split; try assumption.
  cbn [obj_get]. rewrite dict_get_set. reflexivity.
Qed.

(** C4, as the code has it: when cells without a value are not skipped, or
    when the exported labels of each axis are pairwise distinct, the
    dictionary by rows and the dictionary by columns pair the same row and
    column labels with the record of the same cell; the two records agree
    on every field but [help_text] and are equal when neither axis has
    help texts. The [help_text] of a record is the help text of the inner
    axis at the index of the inner label: of the column by rows, of the
    row by columns. *)
Theorem to_dictionary_transpose (self : Sheet)
  (languages : option (list string))
  (languages_pseudonyms : option (list string)) (spaces_replacement : string)
  (skip_nan_cell : bool) (nan_replacement by_rows by_columns : Py.obj) :
  snd (to_dictionary self languages true languages_pseudonyms
         spaces_replacement skip_nan_cell nan_replacement) = Ok by_rows ->
  snd (to_dictionary self languages false languages_pseudonyms
         spaces_replacement skip_nan_cell nan_replacement) = Ok by_columns ->
  skip_nan_cell = false \/
  (distinct_labels (exported_row_labels self spaces_replacement)
     (fst (shape self)) /\
   distinct_labels (exported_column_labels self spaces_replacement)
     (snd (shape self))) ->
  forall row_label column_label,
    option_map strip_help
      (record_at by_rows "rows" row_label "columns" column_label)
    = option_map strip_help
        (record_at by_columns "columns" column_label "rows" row_label) /\
    (rows_help_text (cell_indices self) = None ->
     columns_help_text (cell_indices self) = None ->
     record_at by_rows "rows" row_label "columns" column_label
     = record_at by_columns "columns" column_label "rows" row_label) /\
    (forall rec h,
       record_at by_rows "rows" row_label "columns" column_label
       = Some rec ->
       exported_columns_help self = Some h ->
       exists j t,
         j < snd (shape self) /\
         nth_error (exported_column_labels self spaces_replacement) j
         = Some column_label /\
         nth_error h j = Some t /\
         obj_get rec "help_text" = Some (Py.OStr t)) /\
    (forall rec h,
       record_at by_columns "columns" column_label "rows" row_label
       = Some rec ->
       exported_rows_help self = Some h ->
       exists i t,
         i < fst (shape self) /\
         nth_error (exported_row_labels self spaces_replacement) i
         = Some row_label /\
         nth_error h i = Some t /\
         obj_get rec "help_text" = Some (Py.OStr t)).
Proof.
  intros Hrows Hcols Hcond rl cl.
  assert (Hhelp :
    (forall rec h,
       record_at by_rows "rows" rl "columns" cl = Some rec ->
       exported_columns_help self = Some h ->
       exists j t,
         j < snd (shape self) /\
         nth_error (exported_column_labels self spaces_replacement) j
         = Some cl /\
         nth_error h j = Some t /\
         obj_get rec "help_text" = Some (Py.OStr t)) /\
    (forall rec h,
       record_at by_columns "columns" cl "rows" rl = Some rec ->
       exported_rows_help self = Some h ->
       exists i t,
         i < fst (shape self) /\
         nth_error (exported_row_labels self spaces_replacement) i
         = Some rl /\
         nth_error h i = Some t /\
         obj_get rec "help_text" = Some (Py.OStr t))).
  { split; intros rec h Hrec Hh.
    - exact (record_help_text _ _ _ _ _ _ _ _ rl cl rec h Hrows Hrec Hh).
    - exact (record_help_text _ _ _ _ _ _ _ _ cl rl rec h Hcols Hrec Hh). }
  destruct Hhelp as [Hhelp_rows Hhelp_columns].
  set (pr := fun i => label_at (exported_row_labels self spaces_replacement)
                        i rl).
  set (pc := fun j => label_at (exported_column_labels self spaces_replacement)
                        j cl).
  set (ok := fun i j => negb (skipped skip_nan_cell (_get_cell_at self i j))).
  pose proof (record_at_spec _ _ _ _ _ _ _ _ Hrows rl cl) as Sr.
  pose proof (record_at_spec _ _ _ _ _ _ _ _ Hcols cl rl) as Sc.
  cbv zeta in Sr, Sc.
  change (select_cell _ _ _ _)
    with (select_cell pr (fun i j => pc j && ok i j)
            (fst (shape self)) (snd (shape self))) in Sr.
  change (select_cell _ _ _ _)
    with (select_cell pc (fun j i => pr i && ok i j)
            (snd (shape self)) (fst (shape self))) in Sc.
  rewrite select_cell_transpose in Sc.
  2:{ destruct Hcond as [->|[Hr Hc]].
      - left. intros i j. unfold ok, skipped. now rewrite andb_false_r.
      - right. split; now apply distinct_labels_at_most_one. }
  destruct (select_cell pr (fun i j => pc j && ok i j)
              (fst (shape self)) (snd (shape self))) as [[i j]|];
    simpl in Sr, Sc.
  - destruct Sr as [rec [Hr Hb]]. destruct Sc as [rec' [Hr' Hb']].
    rewrite Hr, Hr' in *. simpl.
    destruct (record_built_strip _ _ _ _ _ _ _ _ _ _ Hb Hb') as [Hs He].
    split; [now rewrite Hs|]. split; [|split; assumption].
    intros Hnr Hnc. f_equal. apply He.
    + unfold exported_help_text. now rewrite Hnc.
    + unfold exported_help_text. now rewrite Hnr.
  - rewrite Sr, Sc in *. repeat split; try assumption; reflexivity.
Qed.


Lemma to_dictionary_transpose_witness :
  (option_map strip_help
     (record_at (returned (dictionary_of sheet_7_none_9_10 true false))
        "rows" "r1" "columns" "c0")
   = option_map strip_help
       (record_at (returned (dictionary_of sheet_7_none_9_10 false false))
          "columns" "c0" "rows" "r1") /\
   record_at (returned (dictionary_of sheet_7_none_9_10 true false))
     "rows" "r1" "columns" "c0"
   = record_at (returned (dictionary_of sheet_7_none_9_10 false false))
       "columns" "c0" "rows" "r1") /\
  (option_map strip_help
     (record_at (returned (dictionary_of sheet_with_help_texts true false))
        "rows" "r1" "columns" "c1")
   = option_map strip_help
       (record_at (returned (dictionary_of sheet_with_help_texts false false))
          "columns" "c1" "rows" "r1") /\
   (exists rec j t,
      record_at (returned (dictionary_of sheet_with_help_texts true false))
        "rows" "r1" "columns" "c1" = Some rec /\
      nth_error (exported_column_labels sheet_with_help_texts " ") j
      = Some "c1" /\
      nth_error ["help c0"; "help c1"] j = Some t /\
      obj_get rec "help_text" = Some (Py.OStr t)) /\
   (exists rec i t,
      record_at (returned (dictionary_of sheet_with_help_texts false false))
        "columns" "c1" "rows" "r1" = Some rec /\
      nth_error (exported_row_labels sheet_with_help_texts " ") i
      = Some "r1" /\
      nth_error ["help r1"] i = Some t /\
      obj_get rec "help_text" = Some (Py.OStr t))).
Proof.
  pose proof (to_dictionary_transpose sheet_7_none_9_10 None None " " false
                Py.ONone
                (returned (dictionary_of sheet_7_none_9_10 true false))
                (returned (dictionary_of sheet_7_none_9_10 false false))
                eq_refl eq_refl (or_introl eq_refl) "r1" "c0")
    as [Hstrip [Hsame _]].
  pose proof (to_dictionary_transpose sheet_with_help_texts None None " "
                false Py.ONone
                (returned (dictionary_of sheet_with_help_texts true false))
                (returned (dictionary_of sheet_with_help_texts false false))
                eq_refl eq_refl (or_introl eq_refl) "r1" "c1")
    as [Hstrip' [_ [Hcolumns Hrows]]].
  split; [split; [exact Hstrip|exact (Hsame eq_refl eq_refl)]|].
  split; [exact Hstrip'|]. split.
  - destruct (Hcolumns _ ["help c0"; "help c1"] eq_refl eq_refl)
      as [j [t (_ & Hj & Ht & Hrec)]].
    eexists. exists j, t. split; [reflexivity|]. auto.
  - destruct (Hrows _ ["help r1"] eq_refl eq_refl)
      as [i [t (_ & Hi & Ht & Hrec)]].
    eexists. exists i, t. split; [reflexivity|]. auto.
Defined.

(** C4 as stated fails. With a help text on the row, the record of the
    one cell has no [help_text] by rows and carries the help text of the
    row by columns. With two rows that share a label and cells without a
    value skipped, the dictionary by rows has no record for the pair of
    labels while the dictionary by columns has one. *)
Lemma to_dictionary_transpose_changes_records :
  record_at (returned (dictionary_of sheet_with_row_help true false))
    "rows" "r0" "columns" "c0"
  = Some (Py.ODict [("excel", Py.OStr "5"); ("native", Py.OStr "5");
                    ("value", Py.ONum 5); ("description", Py.ONone)]) /\
  record_at (returned (dictionary_of sheet_with_row_help false false))
    "columns" "c0" "rows" "r0"
  = Some (Py.ODict [("excel", Py.OStr "5"); ("native", Py.OStr "5");
                    ("value", Py.ONum 5); ("description", Py.ONone);
                    ("help_text", Py.OStr "help r0")]) /\
  record_at (returned (dictionary_of sheet_duplicate_rows true true))
    "rows" "r" "columns" "c0"
  = None /\
  record_at (returned (dictionary_of sheet_duplicate_rows false true))
    "columns" "c0" "rows" "r"
  = Some (Py.ODict [("excel", Py.OStr "5"); ("native", Py.OStr "5");
                    ("value", Py.ONum 5); ("description", Py.ONone)]).
Proof. repeat split; reflexivity. Qed.

(** * Further properties of the encoders *)

(** ** Loops that build a sequence or a text *)

Lemma append_assoc (a b c : string) : (a ^^ b) ^^ c = a ^^ b ^^ c.
Proof. induction a as [|x a IH]; simpl; [reflexivity|]. now rewrite IH. Qed.

(** A loop that appends one item per turn. *)
Lemma for_in_collect {A} (T : nat -> list event) (g : nat -> A)
  (body : nat -> list A -> M (list A)) (n a : nat) (acc : list A) :
  (forall i l, a <= i < a + n -> body i l = (T i, Ok (l ++ [g i]))) ->
  for_in (seq a n) body acc
  = (flat_map T (seq a n), Ok (acc ++ map g (seq a n))).
Proof.
  revert a acc. induction n as [|n IH]; intros a acc Hbody; simpl.
  - now rewrite app_nil_r.
  - unfold bind. rewrite (Hbody a acc) by lia. simpl.
    rewrite (IH (S a)) by (intros i l Hi; apply Hbody; lia).
    simpl. now rewrite <- app_assoc.
Qed.

(** A loop that appends a text per turn and a separator after every turn
    but the last of the range [0, last]: it joins the texts. *)
Lemma for_in_join (T : nat -> list event) (f : nat -> string) (sep : string)
  (body : nat -> string -> M string) (last : Z) (n a : nat) (pre : string) :
  Z.of_nat (a + n) = (last + 1)%Z ->
  (forall i export, a <= i < a + n ->
     body i export
     = (T i, Ok (if (Z.of_nat i <? last)%Z
                 then (export ^^ f i) ^^ sep else export ^^ f i))) ->
  for_in (seq a n) body pre
  = (flat_map T (seq a n),
     Ok (pre ^^ String.concat sep (map f (seq a n)))).
Proof.
  revert a pre. induction n as [|n IH]; intros a pre Hlast Hbody.
  - simpl. now rewrite append_empty_r.
  - cbn [seq for_in flat_map map]. unfold bind.
    rewrite (Hbody a pre) by lia. cbn [fst snd].
    rewrite (IH (S a)) by (try (intros i e Hi; apply Hbody); lia).
    cbn [fst snd]. f_equal. f_equal.
    destruct n as [|n].
    + replace (Z.of_nat a <? last)%Z with false
        by (symmetry; apply Z.ltb_ge; lia).
      simpl. now rewrite append_empty_r.
    + replace (Z.of_nat a <? last)%Z with true
        by (symmetry; apply Z.ltb_lt; lia).
      cbn [seq map String.concat]. now rewrite !append_assoc.
Qed.

(** ** The flat-sequence encoders *)

Lemma to_2d_list_run (self : Sheet) :
  to_2d_list self = (subset_trace self ++ all_reads self, Ok (values_table self)).
Proof.
  unfold to_2d_list, subset_trace. rewrite log_export_subset_warning_run.
  unfold bind at 1. cbn [fst snd]. unfold range.
  rewrite (for_in_collect (row_reads self) (values_row self)).
  - reflexivity.
  - intros r l _.
    rewrite (for_in_collect (fun c => [GetCell r c])
               (fun c => value (_get_cell_at self r c))).
    + unfold bind. cbn [fst snd app]. now rewrite app_nil_r.
    + intros c row _. reflexivity.
Qed.

Lemma to_string_of_values_run (self : Sheet) :
  to_string_of_values self
  = (subset_trace self ++ all_reads self,
     Ok (render_table (values_table self))).
Proof.
  unfold to_string_of_values, subset_trace.
  rewrite log_export_subset_warning_run.
  unfold bind at 1. cbn [fst snd]. unfold range.
  rewrite (for_in_join (row_reads self)
             (fun r => render_row (values_row self r))
             ("," ^^ Py.newline) _ (Z.of_nat (fst (shape self)) - 1)).
  - unfold bind. cbn [fst snd]. rewrite app_nil_r. unfold render_table,
      values_table. now rewrite append_assoc, map_map.
  - lia.
  - intros r export _.
    rewrite (for_in_join (fun c => [GetCell r c])
               (fun c => Py.str (value (_get_cell_at self r c)))
               ", " _ (Z.of_nat (snd (shape self)) - 1)).
    + unfold bind. cbn [fst snd]. rewrite app_nil_r.
      unfold render_row, values_row. rewrite map_map.
      now rewrite !append_assoc.
    + lia.
    + intros c e _. reflexivity.
Qed.

(** X1: [to_2d_list] never raises; it logs the subset warning if the export
    is a subset, reads every cell of the exported shape once in row-major
    order and returns their values row by row, [None] included. *)
Theorem to_2d_list_returns_values (self : Sheet) :
  fst (to_2d_list self) = subset_trace self ++ all_reads self /\
  snd (to_2d_list self) = Ok (values_table self) /\
  List.length (values_table self) = fst (shape self) /\
  Forall (fun row => List.length row = snd (shape self)) (values_table self).
Proof.
  rewrite to_2d_list_run. split; [reflexivity|]. split; [reflexivity|].
  unfold values_table, values_row. split.
  - now rewrite length_map, length_seq.
  - apply Forall_forall. intros row Hin. apply in_map_iff in Hin as [r [<- _]].
    now rewrite length_map, length_seq.
Qed.

(** X2: [to_string_of_values] performs the effects of [to_2d_list] and
    returns the text of what [to_2d_list] returns: the rows between
    brackets, values separated by a comma and a space, rows by a comma and
    a line feed, [None] spelt None. *)
Theorem to_string_of_values_renders_2d_list (self : Sheet) :
  to_string_of_values self = mmap render_table (to_2d_list self).
Proof. now rewrite to_string_of_values_run, to_2d_list_run. Qed.

(** ** Labels by index and by slice *)

Lemma py_index_nat {A} (l : list A) (a b : nat) :
  Py.index l (Z.of_nat a + Z.of_nat b) = nth_error l (a + b).
Proof.
  unfold Py.index.
  replace (Z.of_nat a + Z.of_nat b <? 0)%Z with false
    by (symmetry; apply Z.ltb_ge; lia).
  f_equal. lia.
Qed.

(** The label an encoder reads at [i] plus the offset is the [i]-th
    exported label. *)
Lemma exported_labels_nth (sr : string) (labels : list string)
  (offset i : nat) :
  nth_error (exported_labels sr labels offset) i
  = option_map (Py.replace_space sr) (nth_error labels (i + offset)).
Proof.
  unfold exported_labels, Py.slice_from.
  rewrite nth_error_map, nth_error_skipn. f_equal. f_equal. lia.
Qed.

Lemma nth_error_covered {A} (l : list A) (i : nat) :
  i < List.length l -> exists x, nth_error l i = Some x.
Proof.
  intros H. destruct (nth_error l i) eqn:E; [eauto|].
  apply nth_error_None in E. lia.
Qed.

Lemma map_seq_firstn {A} (f : nat -> A) (l : list A) (n : nat) :
  (forall i, i < n -> nth_error l i = Some (f i)) ->
  map f (seq 0 n) = firstn n l.
Proof.
  intros H. apply nth_error_ext. intros i.
  rewrite nth_error_map, nth_error_firstn.
  destruct (Nat.ltb_spec i n) as [Hi|Hi].
  - rewrite nth_error_seq. apply Nat.ltb_lt in Hi as Hi'. rewrite Hi'.
    simpl. symmetry. now apply H.
  - rewrite nth_error_seq. apply Nat.ltb_ge in Hi. now rewrite Hi.
Qed.

Lemma combine_map_seq {A B} (f : nat -> A) (g : nat -> B) (l : list nat) :
  combine (map f l) (map g l) = map (fun i => (f i, g i)) l.
Proof. induction l as [|i l IH]; simpl; [reflexivity|]. now rewrite IH. Qed.

Lemma flat_map_nil {A B} (l : list A) :
  flat_map (fun _ : A => @nil B) l = [].
Proof. induction l; simpl; auto. Qed.

Lemma py_range_after (k : nat) (n : nat) :
  Py.range (- Z.of_nat k) (Z.of_nat n)
  = map (fun i => (- Z.of_nat k + Z.of_nat i)%Z) (seq 0 k)
    ++ map Z.of_nat (seq 0 n).
Proof.
  unfold Py.range.
  replace (Z.to_nat (Z.of_nat n - - Z.of_nat k)) with (k + n) by lia.
  rewrite seq_app, map_app. f_equal. simpl.
  apply nth_error_ext. intros i. rewrite !nth_error_map, !nth_error_seq.
  destruct (i <? n)%nat; simpl; [f_equal; lia|reflexivity].
Qed.

Lemma py_range_minus_1 (n : nat) :
  Py.range (-1) (Z.of_nat n) = (-1)%Z :: map Z.of_nat (seq 0 n).
Proof. exact (py_range_after 1 n). Qed.

Lemma py_range_minus_2 (n : nat) :
  Py.range (-2) (Z.of_nat n) = (-2)%Z :: (-1)%Z :: map Z.of_nat (seq 0 n).
Proof. exact (py_range_after 2 n). Qed.



(** ** The delimited-text encoder *)

Lemma py_index_covered (labels : list string) (offset n i : nat) :
  n + offset <= List.length labels -> i < n ->
  Py.index labels (Z.of_nat i + Z.of_nat offset)
  = Some (nth (i + offset) labels "").
Proof.
  intros Hn Hi. rewrite py_index_nat. apply nth_error_nth'. lia.
Qed.

Lemma exported_labels_firstn (sr : string) (labels : list string)
  (offset n : nat) :
  n + offset <= List.length labels ->
  map (fun i => Py.replace_space sr (nth (i + offset) labels ""))
    (seq 0 n)
  = firstn n (exported_labels sr labels offset).
Proof.
  intros Hn. apply map_seq_firstn. intros i Hi.
  rewrite exported_labels_nth, (nth_error_nth' labels "") by lia.
  reflexivity.
Qed.

Lemma to_csv_run (self : Sheet) (sr corner sep lt na : string) :
  labels_cover_shape self ->
  to_csv self sr corner sep lt na
  = (subset_trace self ++ all_reads self,
     Ok (String.concat lt (csv_lines self sr corner sep na))).
Proof.
  intros [Hr Hc]. unfold to_csv, subset_trace.
  rewrite log_export_subset_warning_run, bind_run.
  rewrite py_range_minus_1. cbn [for_in]. unfold range.
  change (-1 =? -1)%Z with true. cbv iota.
  rewrite (for_in_join (fun _ => [])
             (fun c => Py.replace_space sr
                         (nth (c + snd (export_offset self))
                            (columns_labels (cell_indices self)) ""))
             sep _ (Z.of_nat (snd (shape self)) - 1) (snd (shape self)) 0).
  2: lia.
  2:{ intros c export Hc'. rewrite (py_index_covered _ _ _ _ Hc) by lia.
      reflexivity. }
  rewrite exported_labels_firstn by assumption.
  rewrite flat_map_nil, bind_run_ret, bind_run, for_in_map.
  rewrite (for_in_join (row_reads self)
             (fun r => csv_line sep na
                         (Py.replace_space sr
                            (nth (r + fst (export_offset self))
                               (rows_labels (cell_indices self)) ""),
                          values_row self r))
             lt _ (Z.of_nat (fst (shape self)) - 1) (fst (shape self)) 0).
  2: lia.
  2:{ intros r export Hr'.
      replace (Z.of_nat r =? -1)%Z with false
        by (symmetry; apply Z.eqb_neq; lia).
      rewrite (py_index_covered _ _ _ _ Hr) by lia.
      cbn [orelse]. unfold ret at 1. rewrite bind_run. cbn [app].
      rewrite Nat2Z.id.
      rewrite (for_in_join (fun c => [GetCell r c])
                 (fun c => value_text na (value (_get_cell_at self r c)))
                 sep _ (Z.of_nat (snd (shape self)) - 1)
                 (snd (shape self)) 0).
      - cbn [fst snd]. rewrite bind_run_ret.
        unfold csv_line, values_row, row_reads. cbn [fst snd].
        rewrite map_map. now rewrite !append_assoc.
      - lia.
      - intros c e _. reflexivity. }
  cbn [fst snd app]. f_equal. f_equal.
  unfold csv_lines, csv_header, values_table, exported_row_labels,
    exported_column_labels.
  rewrite <- (exported_labels_firstn sr _ _ _ Hr).
  rewrite combine_map_seq, map_map. cbn [String.append].
  destruct (fst (shape self)) as [|n].
  - simpl. now rewrite append_empty_r, append_assoc.
  - replace (-1 <? Z.of_nat (S n) - 1)%Z with true
      by (symmetry; apply Z.ltb_lt; lia).
    cbn [seq map String.concat]. now rewrite !append_assoc.
Qed.

Lemma exported_labels_length (sr : string) (labels : list string)
  (offset : nat) :
  List.length (exported_labels sr labels offset)
  = List.length labels - offset.
Proof.
  unfold exported_labels, Py.slice_from. now rewrite length_map, length_skipn.
Qed.

(** X3: when the label lists reach as far as the exported shape, [to_csv]
    returns; it reads every cell once in row-major order and its text is
    the lines joined by the line terminator: one header line, the corner
    text and the exported column labels, then one line per row, the
    exported row label and the values with [na_rep] for [None], the fields
    of a line joined by the separator. There are one more lines than
    rows. *)
Theorem to_csv_joins_lines (self : Sheet)
  (spaces_replacement top_right_corner_text sep line_terminator
     na_rep : string) :
  labels_cover_shape self ->
  let lines := csv_lines self spaces_replacement top_right_corner_text sep
                 na_rep in
  to_csv self spaces_replacement top_right_corner_text sep line_terminator
    na_rep
  = (subset_trace self ++ all_reads self,
     Ok (String.concat line_terminator lines)) /\
  List.length lines = fst (shape self) + 1.
Proof.
  intros Hcover lines. split; [now apply to_csv_run|].
  subst lines. unfold csv_lines. destruct Hcover as [Hr _].
  cbn [List.length]. rewrite length_map, length_combine, length_firstn.
  unfold exported_row_labels, values_table.
  rewrite exported_labels_length, length_map, length_seq. lia.
Qed.

Lemma to_csv_joins_lines_witness :
  let lines := csv_lines sheet_7_none_9_10 "_" "Sheet" "," "" in
  to_csv sheet_7_none_9_10 "_" "Sheet" "," Py.newline ""
  = (subset_trace sheet_7_none_9_10 ++ all_reads sheet_7_none_9_10,
     Ok (String.concat Py.newline lines)) /\
  List.length lines = fst (shape sheet_7_none_9_10) + 1.
Proof.
  apply (to_csv_joins_lines sheet_7_none_9_10 "_" "Sheet" "," Py.newline "").
  unfold labels_cover_shape. simpl. lia.
Defined.

(** ** Labels that fall short *)

(** A loop whose turns perform no effect and one of which raises. *)
Lemma for_in_raises_quietly {S} (body : nat -> S -> M S) (e : exn)
  (n a : nat) (s0 : S) :
  (forall i s, a <= i < a + n ->
     (exists s', body i s = ([], Ok s')) \/ body i s = ([], Raise e)) ->
  (exists k, a <= k < a + n /\ forall s, body k s = ([], Raise e)) ->
  for_in (seq a n) body s0 = ([], Raise e).
Proof.
  revert a s0. induction n as [|n IH]; intros a s0 Hall [k [Hk Hfail]].
  - lia.
  - cbn [seq for_in]. destruct (Nat.eq_dec k a) as [->|Hne].
    + now rewrite Hfail.
    + destruct (Hall a s0 ltac:(lia)) as [[s' ->]| ->]; [|reflexivity].
      rewrite bind_run. cbn [app].
      rewrite (IH (Datatypes.S a) s'); [reflexivity| |].
      * intros i s Hi. apply Hall. lia.
      * exists k. split; [lia|assumption].
Qed.

Lemma py_index_short {A} (l : list A) (a b : nat) :
  List.length l <= a + b -> Py.index l (Z.of_nat a + Z.of_nat b) = None.
Proof. intros H. rewrite py_index_nat. now apply nth_error_None. Qed.

Lemma label_or_index_error {A} (l : list A) (z : Z) :
  (exists x, orelse (Py.index l z) IndexError = ([], Ok x)) \/
  orelse (Py.index l z) IndexError = ([], Raise IndexError).
Proof.
  destruct (Py.index l z); [left; eexists; reflexivity|right; reflexivity].
Qed.

Lemma short_labels_fail_at (labels : list string) (offset n : nat) :
  0 < n -> List.length labels < n + offset ->
  exists k, 0 <= k < 0 + n /\ List.length labels <= k + offset.
Proof. intros Hn Hlen. exists (List.length labels - offset). lia. Qed.

(** X4: when the sheet has columns and the column labels do not reach as
    far as the exported shape, the three text encoders that write a header
    raise [IndexError] while writing it: the subset warning apart, nothing
    has happened and no cell has been read. *)
Theorem text_encoders_raise_on_short_column_labels (self : Sheet)
  (spaces_replacement top_right_corner_text sep line_terminator
     na_rep : string) (language_for_description : option string) :
  0 < snd (shape self) ->
  List.length (columns_labels (cell_indices self))
    < snd (shape self) + snd (export_offset self) ->
  to_csv self spaces_replacement top_right_corner_text sep line_terminator
    na_rep = (subset_trace self, Raise IndexError) /\
  to_markdown self spaces_replacement top_right_corner_text na_rep
  = (subset_trace self, Raise IndexError) /\
  to_html_table self spaces_replacement top_right_corner_text na_rep
    language_for_description = (subset_trace self, Raise IndexError).
Proof.
  intros Hcols Hshort.
  destruct (short_labels_fail_at _ _ _ Hcols Hshort) as [k [Hk Hlen]].
  unfold to_csv, to_markdown, to_html_table, subset_trace.
  rewrite !log_export_subset_warning_run, !bind_run.
  rewrite py_range_minus_1, py_range_minus_2. cbn [for_in]. unfold range.
  change (-1 =? -1)%Z with true. change (-2 =? -2)%Z with true. cbv iota.
  repeat split.
  - rewrite (for_in_raises_quietly _ IndexError).
    + cbn. now rewrite app_nil_r.
    + intros i s _.
      destruct (label_or_index_error (columns_labels (cell_indices self))
                  (Z.of_nat i + Z.of_nat (snd (export_offset self))))
        as [[l ->]| ->]; [left|right; reflexivity].
      eexists. reflexivity.
    + exists k. split; [assumption|]. intros s.
      now rewrite py_index_short.
  - rewrite (for_in_raises_quietly _ IndexError).
    + cbn. now rewrite app_nil_r.
    + intros i s _.
      destruct (label_or_index_error (columns_labels (cell_indices self))
                  (Z.of_nat i + Z.of_nat (snd (export_offset self))))
        as [[l ->]| ->]; [left|right; reflexivity].
      eexists. reflexivity.
    + exists k. split; [assumption|]. intros s.
      now rewrite py_index_short.
  - rewrite (for_in_raises_quietly _ IndexError).
    + cbn. now rewrite app_nil_r.
    + intros i s _.
      destruct (label_or_index_error (columns_labels (cell_indices self))
                  (Z.of_nat i + Z.of_nat (snd (export_offset self))))
        as [[l ->]| ->]; [|right; reflexivity].
      rewrite bind_run. unfold html_column_title_attr.
      destruct (columns_help_text (cell_indices self)) as [help|];
        [|left; eexists; reflexivity].
      destruct (label_or_index_error help
                  (Z.of_nat i + Z.of_nat (snd (export_offset self))))
        as [[h ->]| ->]; [left; eexists; reflexivity|right; reflexivity].
    + exists k. split; [assumption|]. intros s.
      now rewrite py_index_short.
Qed.

Lemma text_encoders_raise_on_short_column_labels_witness :
  to_csv sheet_short_column_labels " " "Sheet" "," Py.newline ""
  = (subset_trace sheet_short_column_labels, Raise IndexError) /\
  to_markdown sheet_short_column_labels " " "Sheet" ""
  = (subset_trace sheet_short_column_labels, Raise IndexError) /\
  to_html_table sheet_short_column_labels " " "Sheet" "" None
  = (subset_trace sheet_short_column_labels, Raise IndexError).
Proof.
  apply (text_encoders_raise_on_short_column_labels
           sheet_short_column_labels " " "Sheet" "," Py.newline "" None);
    simpl; lia.
Defined.

(** ** The markup encoder *)

(** A loop that appends a text per turn, a separator after every turn but
    the last and a closing text after the last. *)
Lemma for_in_join_end (T : nat -> list event) (f : nat -> string)
  (sep close : string) (body : nat -> string -> M string) (last : Z)
  (n a : nat) (pre : string) :
  Z.of_nat (a + n) = (last + 1)%Z ->
  (forall i export, a <= i < a + n ->
     body i export
     = (T i, Ok (if (Z.of_nat i <? last)%Z
                 then (export ^^ f i) ^^ sep else (export ^^ f i) ^^ close))) ->
  for_in (seq a n) body pre
  = (flat_map T (seq a n),
     Ok (pre ^^ String.concat sep (map f (seq a n))
           ^^ (if Nat.eqb n 0 then "" else close))).
Proof.
  revert a pre. induction n as [|n IH]; intros a pre Hlast Hbody.
  - simpl. now rewrite append_empty_r.
  - cbn [seq for_in flat_map map]. unfold bind.
    rewrite (Hbody a pre) by lia. cbn [fst snd].
    rewrite (IH (S a)) by (try (intros i e Hi; apply Hbody); lia).
    cbn [fst snd Nat.eqb]. f_equal. f_equal.
    destruct n as [|n].
    + replace (Z.of_nat a <? last)%Z with false
        by (symmetry; apply Z.ltb_ge; lia).
      simpl. now rewrite append_empty_r, !append_assoc.
    + replace (Z.of_nat a <? last)%Z with true
        by (symmetry; apply Z.ltb_lt; lia).
      cbn [seq map String.concat Nat.eqb]. now rewrite !append_assoc.
Qed.

(** A loop that appends a text per turn. *)
Lemma for_in_append (T : nat -> list event) (f : nat -> string)
  (body : nat -> string -> M string) (n a : nat) (pre : string) :
  (forall i export, a <= i < a + n -> body i export = (T i, Ok (export ^^ f i))) ->
  for_in (seq a n) body pre
  = (flat_map T (seq a n), Ok (pre ^^ String.concat "" (map f (seq a n)))).
Proof.
  revert a pre. induction n as [|n IH]; intros a pre Hbody.
  - simpl. now rewrite append_empty_r.
  - cbn [seq for_in flat_map map]. rewrite (Hbody a pre) by lia.
    rewrite bind_run.
    rewrite (IH (S a)) by (intros i e Hi; apply Hbody; lia).
    cbn [fst snd]. f_equal. f_equal.
    destruct n as [|n]; simpl.
    + now rewrite append_empty_r.
    + now rewrite !append_assoc.
Qed.

Lemma map_const_seq {A} (x : A) (a n : nat) :
  map (fun _ => x) (seq a n) = repeat x n.
Proof.
  revert a. induction n as [|n IH]; intros a; simpl; [reflexivity|].
  now rewrite IH.
Qed.

Lemma last_turn (i n : nat) {A} (x y z : A) :
  i < n ->
  (if (Z.of_nat i <? Z.of_nat n - 1)%Z then x
   else if (Z.of_nat i =? Z.of_nat n - 1)%Z then y else z)
  = (if (Z.of_nat i <? Z.of_nat n - 1)%Z then x else y).
Proof.
  intros Hi. destruct (Z.ltb_spec (Z.of_nat i) (Z.of_nat n - 1));
    [reflexivity|].
  replace (Z.of_nat i =? Z.of_nat n - 1)%Z with true
    by (symmetry; apply Z.eqb_eq; lia).
  reflexivity.
Qed.

Lemma to_markdown_run (self : Sheet)
  (spaces_replacement top_right_corner_text na_rep : string) :
  labels_cover_shape self ->
  to_markdown self spaces_replacement top_right_corner_text na_rep
  = (subset_trace self ++ all_reads self,
     Ok (md_table self spaces_replacement top_right_corner_text na_rep)).
Proof.
  revert spaces_replacement top_right_corner_text na_rep.
  intros sr corner na [Hr Hc]. unfold to_markdown, subset_trace.
  rewrite log_export_subset_warning_run, bind_run.
  rewrite py_range_minus_2. cbn [for_in]. unfold range.
  change (-2 =? -2)%Z with true. change (-1 =? -2)%Z with false.
  change (-1 =? -1)%Z with true. cbv iota.
  rewrite (for_in_join_end (fun _ => [])
             (fun c => "*" ^^ Py.replace_space sr
                         (nth (c + snd (export_offset self))
                            (columns_labels (cell_indices self)) "") ^^ "*")
             " | " (" |" ^^ Py.newline) _
             (Z.of_nat (snd (shape self)) - 1) (snd (shape self)) 0).
  2: lia.
  2:{ intros c export Hc'. rewrite (py_index_covered _ _ _ _ Hc) by lia.
      cbn [orelse]. unfold ret at 1. rewrite bind_run. cbn [app].
      rewrite last_turn by lia. reflexivity. }
  rewrite flat_map_nil, bind_run. cbn [app].
  rewrite (for_in_join_end (fun _ => []) (fun _ => "----|")
             "" Py.newline _
             (Z.of_nat (snd (shape self)) - 1) (snd (shape self)) 0).
  2: lia.
  2:{ intros c export Hc'. unfold ret. f_equal. f_equal.
      destruct (Z.ltb_spec (Z.of_nat c) (Z.of_nat (snd (shape self)) - 1)).
      - replace (Z.of_nat c =? Z.of_nat (snd (shape self)) - 1)%Z with false
          by (symmetry; apply Z.eqb_neq; lia).
        now rewrite append_empty_r.
      - replace (Z.of_nat c =? Z.of_nat (snd (shape self)) - 1)%Z with true
          by (symmetry; apply Z.eqb_eq; lia).
        reflexivity. }
  rewrite flat_map_nil, bind_run, for_in_map. cbn [app].
  rewrite (for_in_append (row_reads self)
             (fun r => md_line self na
                         (Py.replace_space sr
                            (nth (r + fst (export_offset self))
                               (rows_labels (cell_indices self)) ""),
                          values_row self r))).
  2:{ intros r export Hr'.
      replace (Z.of_nat r =? -2)%Z with false
        by (symmetry; apply Z.eqb_neq; lia).
      replace (Z.of_nat r =? -1)%Z with false
        by (symmetry; apply Z.eqb_neq; lia).
      rewrite (py_index_covered _ _ _ _ Hr) by lia.
      cbn [orelse]. unfold ret at 1. rewrite bind_run. cbn [app].
      rewrite Nat2Z.id.
      rewrite (for_in_join_end (fun c => [GetCell r c])
                 (fun c => value_text na (value (_get_cell_at self r c)))
                 " | " (" |" ^^ Py.newline) _
                 (Z.of_nat (snd (shape self)) - 1) (snd (shape self)) 0).
      - unfold md_line, md_line_end, values_row, row_reads. cbn [fst snd].
        rewrite map_map. now rewrite !append_assoc.
      - lia.
      - intros c e Hc'. rewrite get_cell_at_run, bind_run. cbn [app].
        rewrite last_turn by lia. reflexivity. }
  cbn [fst snd]. f_equal. f_equal.
  unfold md_table, md_header, md_separator, md_line_end, values_table,
    exported_row_labels, exported_column_labels.
  rewrite <- (exported_labels_firstn sr _ _ _ Hr).
  rewrite <- (exported_labels_firstn sr _ _ _ Hc).
  rewrite combine_map_seq, !map_map, map_const_seq.
  rewrite !append_assoc. reflexivity.
Qed.

(** X5: when the label lists reach as far as the exported shape,
    [to_markdown] returns; it reads every cell once in row-major order and
    its text is the header line (corner text, starred column labels), the
    separator line and one line per row (starred row label, values with
    [na_rep] for [None]), cells separated by a bar. Every line is closed by
    a bar and a line feed when the sheet has columns; on a sheet without
    columns no line is closed and the lines run into one another. *)
Theorem to_markdown_table (self : Sheet)
  (spaces_replacement top_right_corner_text na_rep : string) :
  labels_cover_shape self ->
  to_markdown self spaces_replacement top_right_corner_text na_rep
  = (subset_trace self ++ all_reads self,
     Ok (md_table self spaces_replacement top_right_corner_text na_rep)).
Proof.
  exact (to_markdown_run self spaces_replacement top_right_corner_text
           na_rep).
Qed.

Lemma to_markdown_table_witness :
  to_markdown sheet_7_none_9_10 " " "Sheet" "-"
  = (subset_trace sheet_7_none_9_10 ++ all_reads sheet_7_none_9_10,
     Ok (md_table sheet_7_none_9_10 " " "Sheet" "-")).
Proof.
  apply (to_markdown_table sheet_7_none_9_10 " " "Sheet" "-").
  unfold labels_cover_shape. simpl. lia.
Defined.

(** ** The workbook encoder, effect by effect *)

Lemma closes_bind {A} (m : M A) (f : A -> M unit) :
  emits_only between_open_and_close m ->
  (forall a, closes_iff_returns (f a)) ->
  closes_iff_returns (bind m f).
Proof.
  unfold closes_iff_returns, emits_only. intros Hm Hf.
  rewrite fst_bind, snd_bind. destruct (snd m) as [a|e].
  - specialize (Hf a). destruct (snd (f a)).
    + destruct Hf as [mid [-> Hmid]]. exists (fst m ++ mid).
      split; [now rewrite app_assoc|]. apply Forall_app. now split.
    + apply Forall_app. now split.
  - now rewrite app_nil_r.
Qed.

Lemma flat_map_ext_inside {A B} (f g : A -> list B) (l : list A) :
  (forall x, In x l -> f x = g x) -> flat_map f l = flat_map g l.
Proof.
  induction l as [|x l IH]; intros H; simpl; [reflexivity|].
  rewrite (H x) by now left. rewrite IH; [reflexivity|].
  intros y Hy. apply H. now right.
Qed.

Lemma closes_call_close (xlsx : library) :
  closes_iff_returns (xlsx_call xlsx WorkbookClose).
Proof.
  unfold closes_iff_returns.
  destruct (xlsx_call_cases xlsx WorkbookClose) as [->|[err ->]]; cbn.
  - exists []. split; [reflexivity|constructor].
  - constructor.
Qed.

(** The effects of a call into the workbook writer that returned. *)
Ltac xlsx_returned :=
  repeat match goal with
         | H : snd (xlsx_call _ _) = Ok _ |- _ =>
             rewrite (xlsx_call_ok _ _ _ H) in *; clear H
         end.

Ltac between :=
  repeat first
    [ emits_only_step
    | progress unfold get_cell_at, warning_logger, excel_variables,
        excel_cell, excel_labels, log_export_subset_warning_if_needed
    | reflexivity ].

(** A call of [to_excel] that returns, effect by effect. *)
Lemma to_excel_ok_trace (self : Sheet) (xlsx : library)
  fp sn sr lrf lcf vsn vsh :
  snd (to_excel self xlsx fp sn sr lrf lcf vsn vsh) = Ok tt ->
  fst (to_excel self xlsx fp sn sr lrf lcf vsn vsh)
  = subset_trace self
    ++ [WorkbookOpen fp; AddWorksheet WsResults (Py.str sn);
        AddFormat lcf; AddFormat lrf]
    ++ fst (excel_variables self xlsx vsn vsh lcf)
    ++ excel_data_trace self xlsx
    ++ fst (excel_labels self xlsx sr lrf lcf)
    ++ [WorkbookClose] /\
  snd (excel_variables self xlsx vsn vsh lcf) = Ok tt /\
  (forall r c, r < fst (shape self) -> c < snd (shape self) ->
     snd (excel_cell self xlsx r c) = Ok tt) /\
  snd (excel_labels self xlsx sr lrf lcf) = Ok tt.
Proof.
  intros Hok. unfold to_excel in *.
  destruct (bad_suffix fp); [discriminate|].
  destruct (bad_sheet_name sn); [discriminate|].
  repeat match goal with
         | H : snd (bind _ _) = Ok _ |- _ =>
             let Htr := fresh "Htr" in
             apply bind_ok_inv in H as [[] [? [H Htr]]];
             rewrite Htr; clear Htr
         end.
  xlsx_returned.
  match goal with
  | H : snd (for_each _ _) = Ok tt |- _ =>
      destruct (for_each_ok _ _ H) as [Hrows Htr]
  end.
  split; [|split; [assumption|split; [|assumption]]].
  - rewrite log_export_subset_warning_run. cbn [fst emit app].
    unfold subset_trace.
    do 6 f_equal. rewrite Htr. unfold excel_data_trace, range.
    f_equal. apply flat_map_ext_inside. intros r Hr. apply in_seq in Hr.
    destruct (for_each_ok _ _ (Hrows r ltac:(apply in_seq; lia)))
      as [_ Hrow].
    unfold range in Hrow. exact Hrow.
  - intros r c Hr Hc.
    destruct (for_each_ok _ _ (Hrows r ltac:(apply in_seq; lia)))
      as [Hcells _].
    apply Hcells. apply in_seq. lia.
Qed.

(** X6: a call of [to_excel] that passes the sanity check opens the
    workbook once, as its first effect after the subset warning, and
    closes it exactly when it returns, as its last effect; a call that
    raises after the sanity check (a missing label, a formula cell
    without an excel text, a missing header key, a call that the workbook
    writer turns down) leaves the workbook unclosed. *)
Theorem to_excel_closes_iff_returns (self : Sheet) (xlsx : library)
  (file_path : string) (sheet_name : Py.scalar) (spaces_replacement : string)
  (label_row_format label_column_format : style)
  (variables_sheet_name : option string)
  (variables_sheet_header : Dict.t string) :
  bad_suffix file_path = false -> bad_sheet_name sheet_name = false ->
  let run := to_excel self xlsx file_path sheet_name spaces_replacement
               label_row_format label_column_format variables_sheet_name
               variables_sheet_header in
  exists rest,
    fst run = subset_trace self ++ WorkbookOpen file_path :: rest /\
    match snd run with
    | Ok _ =>
        exists mid, rest = mid ++ [WorkbookClose] /\
          Forall between_open_and_close mid
    | Raise _ => Forall between_open_and_close rest
    end.
Proof.
  intros H1 H2 run. subst run. unfold to_excel. rewrite H1, H2.
  rewrite log_export_subset_warning_run, bind_run.
  match goal with
  | |- context [bind (emit (WorkbookOpen file_path)) ?f] =>
      assert (Hrest : closes_iff_returns (f tt))
  end.
  { repeat (apply closes_bind; [between|intros]). apply closes_call_close. }
  eexists. split; [reflexivity|]. exact Hrest.
Qed.

Lemma to_excel_closes_iff_returns_witness :
  let run := to_excel sheet_short_appended_labels xlsx_checks_names
               "results.xlsx" (Py.SStr "Results") " " [] [] None [] in
  exists rest,
    fst run = subset_trace sheet_short_appended_labels
              ++ WorkbookOpen "results.xlsx" :: rest /\
    match snd run with
    | Ok _ =>
        exists mid, rest = mid ++ [WorkbookClose] /\
          Forall between_open_and_close mid
    | Raise _ => Forall between_open_and_close rest
    end.
Proof.
  apply (to_excel_closes_iff_returns sheet_short_appended_labels
           xlsx_checks_names "results.xlsx" (Py.SStr "Results") " " [] []
           None []);
    reflexivity.
Defined.

Lemma excel_labels_ok (self : Sheet) (xlsx : library) (sr : string)
  (lrf lcf : style) :
  excel_append_labels (cell_indices self) = true ->
  snd (excel_labels self xlsx sr lrf lcf) = Ok tt ->
  (forall c, c < snd (shape self) ->
     exists l, nth_error (exported_column_labels self sr) c = Some l /\
       In (Write WsResults 0 (c + 1) (Py.SStr l) (Some lcf))
         (fst (excel_labels self xlsx sr lrf lcf))) /\
  (forall r, r < fst (shape self) ->
     exists l, nth_error (exported_row_labels self sr) r = Some l /\
       In (Write WsResults (r + 1) 0 (Py.SStr l) (Some lrf))
         (fst (excel_labels self xlsx sr lrf lcf))).
Proof.
  intros Happ Hok. unfold excel_labels in *. rewrite Happ in *.
  apply bind_ok_inv in Hok as [[] [Hcols [Hrows Htr]]]. rewrite Htr.
  destruct (for_each_ok _ _ Hcols) as [Hc ->].
  destruct (for_each_ok _ _ Hrows) as [Hr ->].
  split.
  - intros c Hlt. specialize (Hc c ltac:(apply in_seq; lia)).
    apply bind_ok_inv in Hc as [l [Hl [Hcall Htc]]]. apply orelse_ok in Hl.
    exists (Py.replace_space sr l). split.
    + unfold exported_column_labels. now rewrite exported_labels_nth, Hl.
    + apply in_or_app. left. apply in_flat_map. exists c.
      split; [apply in_seq; lia|]. rewrite Htc, (xlsx_call_ok _ _ _ Hcall).
      apply in_or_app. right. now left.
  - intros r Hlt. specialize (Hr r ltac:(apply in_seq; lia)).
    apply bind_ok_inv in Hr as [l [Hl [Hcall Htc]]]. apply orelse_ok in Hl.
    exists (Py.replace_space sr l). split.
    + unfold exported_row_labels. now rewrite exported_labels_nth, Hl.
    + apply in_or_app. right. apply in_flat_map. exists r.
      split; [apply in_seq; lia|]. rewrite Htc, (xlsx_call_ok _ _ _ Hcall).
      apply in_or_app. right. now left.
Qed.

(** X7: when labels are appended on export, a call of [to_excel] that
    returns has written, in the label formats, the exported label of every
    column in row 0 of the results sheet, one column to the right, and the
    exported label of every row in column 0, one row down: the labels
    after the export offset, spaces replaced. *)
Theorem to_excel_writes_exported_labels (self : Sheet) (xlsx : library)
  (file_path : string) (sheet_name : Py.scalar) (spaces_replacement : string)
  (label_row_format label_column_format : style)
  (variables_sheet_name : option string)
  (variables_sheet_header : Dict.t string) :
  let run := to_excel self xlsx file_path sheet_name spaces_replacement
               label_row_format label_column_format variables_sheet_name
               variables_sheet_header in
  snd run = Ok tt ->
  excel_append_labels (cell_indices self) = true ->
  (forall c, c < snd (shape self) ->
     exists l,
       nth_error (exported_column_labels self spaces_replacement) c = Some l /\
       In (Write WsResults 0 (c + 1) (Py.SStr l) (Some label_column_format))
         (fst run)) /\
  (forall r, r < fst (shape self) ->
     exists l,
       nth_error (exported_row_labels self spaces_replacement) r = Some l /\
       In (Write WsResults (r + 1) 0 (Py.SStr l) (Some label_row_format))
         (fst run)).
Proof.
  intros run Hok Happ. subst run.
  destruct (to_excel_ok_trace _ _ _ _ _ _ _ _ _ Hok) as [-> [_ [_ Hlabels]]].
  destruct (excel_labels_ok _ _ _ _ _ Happ Hlabels) as [Hc Hr].
  split.
  - intros c Hlt. destruct (Hc c Hlt) as [l [Hl Hin]]. exists l.
    split; [assumption|]. do 3 (apply in_or_app; right).
    apply in_or_app. right. apply in_or_app. now left.
  - intros r Hlt. destruct (Hr r Hlt) as [l [Hl Hin]]. exists l.
    split; [assumption|]. do 3 (apply in_or_app; right).
    apply in_or_app. right. apply in_or_app. now left.
Qed.

Lemma to_excel_writes_exported_labels_witness :
  let self := sheet_with_variables in
  let run := to_excel self xlsx_checks_names "results.xlsx"
               (Py.SStr "Results") "_" [] [] None default_variables_header in
  (forall c, c < snd (shape self) ->
     exists l,
       nth_error (exported_column_labels self "_") c = Some l /\
       In (Write WsResults 0 (c + 1) (Py.SStr l) (Some [])) (fst run)) /\
  (forall r, r < fst (shape self) ->
     exists l,
       nth_error (exported_row_labels self "_") r = Some l /\
       In (Write WsResults (r + 1) 0 (Py.SStr l) (Some [])) (fst run)).
Proof.
  apply (to_excel_writes_exported_labels sheet_with_variables
           xlsx_checks_names "results.xlsx" (Py.SStr "Results") "_" [] []
           None default_variables_header);
    reflexivity.
Defined.

(** ** The variables of the workbook *)

Lemma variables_loop_ok (xlsx : library) (vs : string)
  (vars : list (string * VariableEntry)) (row last : nat) :
  snd (for_in vars
         (fun '(var_n, var_v) row_idx =>
            xlsx_call xlsx
              (Write WsVariables row_idx 0 (Py.SStr var_n) None) ;;
            xlsx_call xlsx
              (Write WsVariables row_idx 1 (var_value var_v) None) ;;
            xlsx_call xlsx
              (Write WsVariables row_idx 2
                 (match var_description var_v with
                  | Some d => Py.SStr d
                  | None => Py.SNone
                  end) None) ;;
            xlsx_call xlsx
              (DefineName var_n
                 ("=" ^^ vs ^^ "!$B$" ^^ nat_text (row_idx + 1))) ;;
            ret (row_idx + 1))%py row) = Ok last ->
  fst (for_in vars
         (fun '(var_n, var_v) row_idx =>
            xlsx_call xlsx
              (Write WsVariables row_idx 0 (Py.SStr var_n) None) ;;
            xlsx_call xlsx
              (Write WsVariables row_idx 1 (var_value var_v) None) ;;
            xlsx_call xlsx
              (Write WsVariables row_idx 2
                 (match var_description var_v with
                  | Some d => Py.SStr d
                  | None => Py.SNone
                  end) None) ;;
            xlsx_call xlsx
              (DefineName var_n
                 ("=" ^^ vs ^^ "!$B$" ^^ nat_text (row_idx + 1))) ;;
            ret (row_idx + 1))%py row)
  = variable_rows vs row vars.
Proof.
  revert row. induction vars as [|[n v] vars IH]; intros row Hok.
  - reflexivity.
  - cbn [for_in variable_rows] in *.
    apply bind_ok_inv in Hok as [row' [Hturn [Hrest ->]]].
    rewrite (IH _ Hrest).
    repeat match goal with
           | H : snd (bind _ _) = Ok _ |- _ =>
               let Htr := fresh "Htr" in
               apply bind_ok_inv in H as [[] [? [H Htr]]];
               rewrite Htr; clear Htr
           end.
    xlsx_returned. injection Hturn as <-. cbn [fst ret app].
    unfold variable_reference. reflexivity.
Qed.

Lemma variable_rows_nth (vs : string) (vars : list (string * VariableEntry))
  (row k : nat) (n : string) (v : VariableEntry) :
  nth_error vars k = Some (n, v) ->
  In (Write WsVariables (row + k) 0 (Py.SStr n) None)
    (variable_rows vs row vars) /\
  In (Write WsVariables (row + k) 1 (var_value v) None)
    (variable_rows vs row vars) /\
  In (DefineName n (variable_reference vs (row + k)))
    (variable_rows vs row vars).
Proof.
  revert row k. induction vars as [|[n0 v0] vars IH]; intros row k Hk.
  - destruct k; discriminate.
  - destruct k as [|k]; cbn [nth_error] in Hk.
    + injection Hk as -> ->. rewrite Nat.add_0_r. simpl. tauto.
    + destruct (IH (row + 1) k Hk) as [H1 [H2 H3]].
      replace (row + S k) with (row + 1 + k) by lia.
      cbn [variable_rows]. repeat split; apply in_or_app; right; assumption.
Qed.

Lemma excel_variables_sheet_ok (self : Sheet) (xlsx : library) (vs : string)
  (vsh : Dict.t string) (lcf : style) :
  empty (_get_variables self) = false ->
  snd (excel_variables self xlsx (Some vs) vsh lcf) = Ok tt ->
  exists hn hv hd,
    Dict.get vsh "name" = Some hn /\
    Dict.get vsh "value" = Some hv /\
    Dict.get vsh "description" = Some hd /\
    fst (excel_variables self xlsx (Some vs) vsh lcf)
    = [AddWorksheet WsVariables vs;
       Write WsVariables 0 0 (Py.SStr hn) (Some lcf);
       Write WsVariables 0 1 (Py.SStr hv) (Some lcf);
       Write WsVariables 0 2 (Py.SStr hd) (Some lcf)]
      ++ variable_rows vs 1 (variables_dict (_get_variables self)).
Proof.
  intros Hne Hok. unfold excel_variables in *. rewrite Hne in *.
  repeat match goal with
         | H : snd (bind _ _) = Ok _ |- _ =>
             let Htr := fresh "Htr" in
             apply bind_ok_inv in H as [? [? [H Htr]]];
             rewrite Htr; clear Htr
         end.
  repeat match goal with
         | H : snd (orelse _ _) = Ok _ |- _ => apply orelse_ok in H
         end.
  repeat match goal with
         | H : Dict.get vsh _ = Some _ |- _ => rewrite H in *
         end.
  repeat match goal with u : unit |- _ => destruct u end.
  xlsx_returned.
  match goal with
  | H : snd (for_in _ _ _) = Ok _ |- _ =>
      rewrite (variables_loop_ok _ _ _ _ _ H)
  end.
  do 3 eexists. repeat split. cbn. now rewrite app_nil_r.
Qed.

(** X8: when the variables get a sheet of their own, a call of [to_excel]
    that returns has added that sheet, written the three header texts of
    the configuration in its row 0 and, for the variable at position [k],
    its name, value and description in row [k + 1]; the name is defined as
    a reference to column B of that row counted from one, the cell that
    holds the value. *)
Theorem to_excel_variables_sheet (self : Sheet) (xlsx : library)
  (file_path : string) (sheet_name : Py.scalar) (spaces_replacement : string)
  (label_row_format label_column_format : style)
  (variables_sheet_name : string) (variables_sheet_header : Dict.t string) :
  let run := to_excel self xlsx file_path sheet_name spaces_replacement
               label_row_format label_column_format
               (Some variables_sheet_name) variables_sheet_header in
  snd run = Ok tt ->
  empty (_get_variables self) = false ->
  In (AddWorksheet WsVariables variables_sheet_name) (fst run) /\
  (exists hn hv hd,
     Dict.get variables_sheet_header "name" = Some hn /\
     Dict.get variables_sheet_header "value" = Some hv /\
     Dict.get variables_sheet_header "description" = Some hd /\
     In (Write WsVariables 0 0 (Py.SStr hn) (Some label_column_format))
       (fst run) /\
     In (Write WsVariables 0 1 (Py.SStr hv) (Some label_column_format))
       (fst run) /\
     In (Write WsVariables 0 2 (Py.SStr hd) (Some label_column_format))
       (fst run)) /\
  forall k name v,
    nth_error (variables_dict (_get_variables self)) k = Some (name, v) ->
    In (Write WsVariables (k + 1) 0 (Py.SStr name) None) (fst run) /\
    In (Write WsVariables (k + 1) 1 (var_value v) None) (fst run) /\
    In (DefineName name
          ("=" ^^ variables_sheet_name ^^ "!$B$" ^^ nat_text (k + 2)))
      (fst run).
Proof.
  intros run Hok Hne. subst run.
  destruct (to_excel_ok_trace _ _ _ _ _ _ _ _ _ Hok) as [-> [Hvars _]].
  destruct (excel_variables_sheet_ok _ _ _ _ _ Hne Hvars)
    as [hn [hv [hd [Hn [Hv [Hd ->]]]]]].
  assert (Hin : forall e,
            In e ([AddWorksheet WsVariables variables_sheet_name;
                   Write WsVariables 0 0 (Py.SStr hn)
                     (Some label_column_format);
                   Write WsVariables 0 1 (Py.SStr hv)
                     (Some label_column_format);
                   Write WsVariables 0 2 (Py.SStr hd)
                     (Some label_column_format)]
                  ++ variable_rows variables_sheet_name 1
                       (variables_dict (_get_variables self))) ->
            In e (subset_trace self
                  ++ [WorkbookOpen file_path;
                      AddWorksheet WsResults (Py.str sheet_name);
                      AddFormat label_column_format;
                      AddFormat label_row_format]
                  ++ ([AddWorksheet WsVariables variables_sheet_name;
                       Write WsVariables 0 0 (Py.SStr hn)
                         (Some label_column_format);
                       Write WsVariables 0 1 (Py.SStr hv)
                         (Some label_column_format);
                       Write WsVariables 0 2 (Py.SStr hd)
                         (Some label_column_format)]
                      ++ variable_rows variables_sheet_name 1
                           (variables_dict (_get_variables self)))
                  ++ excel_data_trace self xlsx
                  ++ fst (excel_labels self xlsx spaces_replacement
                            label_row_format label_column_format)
                  ++ [WorkbookClose])).
  { intros e He. apply in_or_app. right. apply in_or_app. right.
    apply in_or_app. now left. }
  split; [apply Hin; simpl; tauto|]. split.
  - exists hn, hv, hd. repeat split; try assumption; apply Hin; simpl; tauto.
  - intros k name v Hk.
    destruct (variable_rows_nth variables_sheet_name _ 1 k name v Hk)
      as [H1 [H2 H3]].
    replace (k + 1) with (1 + k) by lia.
    replace (k + 2) with (1 + k + 1) by lia.
    repeat split; apply Hin; apply in_or_app; right; assumption.
Qed.

Lemma to_excel_variables_sheet_witness :
  let self := sheet_with_variables in
  let run := to_excel self xlsx_checks_names "results.xlsx"
               (Py.SStr "Results") " " [] [] (Some "Variables")
               default_variables_header in
  In (AddWorksheet WsVariables "Variables") (fst run) /\
  (exists hn hv hd,
     Dict.get default_variables_header "name" = Some hn /\
     Dict.get default_variables_header "value" = Some hv /\
     Dict.get default_variables_header "description" = Some hd /\
     In (Write WsVariables 0 0 (Py.SStr hn) (Some [])) (fst run) /\
     In (Write WsVariables 0 1 (Py.SStr hv) (Some [])) (fst run) /\
     In (Write WsVariables 0 2 (Py.SStr hd) (Some [])) (fst run)) /\
  forall k name v,
    nth_error (variables_dict (_get_variables self)) k = Some (name, v) ->
    In (Write WsVariables (k + 1) 0 (Py.SStr name) None) (fst run) /\
    In (Write WsVariables (k + 1) 1 (var_value v) None) (fst run) /\
    In (DefineName name ("=" ^^ "Variables" ^^ "!$B$" ^^ nat_text (k + 2)))
      (fst run).
Proof.
  apply (to_excel_variables_sheet sheet_with_variables xlsx_checks_names
           "results.xlsx" (Py.SStr "Results") " " [] [] "Variables"
           default_variables_header);
    reflexivity.
Defined.

Lemma filter_none {A} (p : A -> bool) (l : list A) :
  Forall (fun x => p x = false) l -> filter p l = [].
Proof.
  induction 1 as [|x l Hx _ IH]; simpl; [reflexivity|]. now rewrite Hx.
Qed.

(** ** The run depends on the writer's answers to its own calls *)

Lemma follows_refl {A} (xlsx : library) (m : M A) : follows xlsx m m.
Proof. intros _. reflexivity. Qed.

Lemma follows_call (xlsx : library) (e : event) :
  writer_call e = true ->
  follows xlsx (xlsx_call xlsx e) (xlsx_call xlsx_accepts e).
Proof.
  intros He H. unfold xlsx_call at 2. cbn [xlsx_accepts].
  apply xlsx_call_accepted. apply H; [now left|exact He].
Qed.

Lemma follows_bind {A B} (xlsx : library) (m m' : M A) (f f' : A -> M B) :
  follows xlsx m m' -> (forall a, follows xlsx (f a) (f' a)) ->
  follows xlsx (bind m f) (bind m' f').
Proof.
  intros Hm Hf H. unfold follows, accepts in *.
  assert (Hm' : m = m').
  { apply Hm. intros e He. apply H. unfold bind.
    destruct (snd m'); cbn [fst]; [apply in_or_app; now left|exact He]. }
  subst m'. unfold bind in *. destruct (snd m) as [a|err]; [|reflexivity].
  rewrite (Hf a); [reflexivity|].
  intros e He. apply H. cbn [fst]. apply in_or_app. now right.
Qed.

Lemma follows_for_in {X S} (xlsx : library) (l : list X)
  (body body' : X -> S -> M S) (s : S) :
  (forall x s', follows xlsx (body x s') (body' x s')) ->
  follows xlsx (for_in l body s) (for_in l body' s).
Proof.
  intros Hbody. revert s. induction l as [|x l IH]; intros s;
    [apply follows_refl|].
  cbn [for_in]. apply follows_bind; [apply Hbody|exact IH].
Qed.

Lemma follows_for_each {X} (xlsx : library) (l : list X)
  (body body' : X -> M unit) :
  (forall x, follows xlsx (body x) (body' x)) ->
  follows xlsx (for_each l body) (for_each l body').
Proof.
  intros Hbody. unfold for_each. apply follows_for_in. intros x s.
  apply Hbody.
Qed.

Ltac follows_step :=
  first
    [ apply follows_call; reflexivity
    | apply follows_refl
    | apply follows_bind; [|intros ?]
    | apply follows_for_each; intros ?
    | apply follows_for_in; intros ? ? ].

Lemma excel_variables_follows (self : Sheet) (xlsx : library)
  (vsn : option string) (vsh : Dict.t string) (fmt : style) :
  follows xlsx (excel_variables self xlsx vsn vsh fmt)
    (excel_variables self xlsx_accepts vsn vsh fmt).
Proof.
  unfold excel_variables. destruct (empty (_get_variables self));
    [apply follows_refl|].
  destruct vsn as [name|].
  - repeat follows_step.
    match goal with x : (string * VariableEntry)%type |- _ => destruct x end.
    repeat follows_step.
  - apply follows_for_each. intros [n v]. now apply follows_call.
Qed.

Lemma excel_cell_follows (self : Sheet) (xlsx : library) (r c : nat) :
  follows xlsx (excel_cell self xlsx r c) (excel_cell self xlsx_accepts r c).
Proof.
  unfold excel_cell. apply follows_bind; [apply follows_refl|]. intros cell.
  destruct (negb (Py.is_none (value cell))); [|apply follows_refl].
  cbv zeta. apply follows_bind.
  - destruct (Nat.ltb 0 (List.length (excel_format cell)));
      repeat follows_step.
  - intros fmt. destruct (cell_type cell); repeat follows_step.
Qed.

Lemma excel_labels_follows (self : Sheet) (xlsx : library) (sr : string)
  (lrf lcf : style) :
  follows xlsx (excel_labels self xlsx sr lrf lcf)
    (excel_labels self xlsx_accepts sr lrf lcf).
Proof.
  unfold excel_labels. destruct (excel_append_labels (cell_indices self));
    repeat follows_step.
Qed.

(** A writer that carries out every call of the run in which no call is
    turned down gives that run. *)
Lemma to_excel_follows (self : Sheet) (xlsx : library) fp sn sr lrf lcf
  vsn vsh :
  follows xlsx (to_excel self xlsx fp sn sr lrf lcf vsn vsh)
    (to_excel self xlsx_accepts fp sn sr lrf lcf vsn vsh).
Proof.
  unfold to_excel. destruct (bad_suffix fp); [apply follows_refl|].
  destruct (bad_sheet_name sn); [apply follows_refl|].
  repeat first
    [ apply excel_variables_follows
    | apply excel_labels_follows
    | apply excel_cell_follows
    | follows_step ].
Qed.

Lemma spreadsheet_to_excel_follows (self : Spreadsheet.t) (xlsx : library)
  (fp : string) (sn : Py.scalar) :
  follows xlsx (Spreadsheet.to_excel self xlsx fp sn)
    (Spreadsheet.to_excel self xlsx_accepts fp sn).
Proof.
  unfold Spreadsheet.to_excel. destruct (bad_suffix fp); [apply follows_refl|].
  destruct (bad_sheet_name sn); [apply follows_refl|].
  apply follows_bind; [apply follows_refl|]. intros _.
  apply follows_bind; [now apply follows_call|]. intros _.
  apply follows_bind; [|intros _; now apply follows_call].
  apply follows_for_each. intros r. apply follows_for_each. intros c.
  unfold Spreadsheet.excel_cell.
  apply follows_bind; [apply follows_refl|]. intros cell.
  destruct (negb (Py.is_none (value cell))); [|apply follows_refl].
  destruct (cell_type cell); repeat follows_step.
Qed.

Lemma accepts_all_accepts : accepts_all xlsx_accepts.
Proof. intros e. reflexivity. Qed.

Lemma xlsx_call_accepts (xlsx : library) (e : event) :
  accepts_all xlsx -> xlsx_call xlsx e = emit e.
Proof. intros H. unfold xlsx_call. now rewrite H. Qed.

Lemma constants_loop_run (xlsx : library)
  (vars : list (string * VariableEntry)) :
  accepts xlsx (map define_constant vars) ->
  for_each vars
    (fun '(name, v) =>
       xlsx_call xlsx (DefineName name (Py.str (var_value v))))
  = (map define_constant vars, Ok tt).
Proof.
  unfold for_each.
  induction vars as [|[n v] vars IH]; intros Hacc; [reflexivity|].
  cbn [for_in map].
  rewrite (xlsx_call_accepted xlsx
             (DefineName n (Py.str (var_value v)))
             (Hacc _ (or_introl eq_refl) eq_refl)).
  rewrite bind_run. cbn [app fst snd].
  rewrite IH; [reflexivity|].
  intros e He. apply Hacc. now right.
Qed.

Lemma filter_constants (vars : list (string * VariableEntry)) :
  filter is_variables_effect (map define_constant vars)
  = map define_constant vars.
Proof. induction vars as [|x vars IH]; simpl; [reflexivity|]. now rewrite IH. Qed.

Ltac no_variables_effect :=
  repeat first
    [ emits_only_step
    | progress unfold get_cell_at, warning_logger, excel_cell, excel_labels
    | reflexivity ].

(** X9: when the workbook writer carries out the first calls of the run
    (the results worksheet, the two label formats and the names to
    define), a call of [to_excel] that passes the sanity check and is
    given no variables sheet registers every variable of a non-empty
    registry as a workbook-level name whose definition is the text of its
    value, in the order of the registry, and never touches a variables
    sheet; when the registry is empty it registers nothing, with or
    without a sheet name.  This holds whether or not the call later
    raises, be it for a missing label, for a formula cell without an excel
    text or because the writer turns down a later call. *)
Theorem to_excel_registers_constants (self : Sheet) (xlsx : library)
  (file_path : string) (sheet_name : Py.scalar) (spaces_replacement : string)
  (label_row_format label_column_format : style)
  (variables_sheet_name : option string)
  (variables_sheet_header : Dict.t string) :
  accepts xlsx
    ([AddWorksheet WsResults (Py.str sheet_name);
      AddFormat label_column_format; AddFormat label_row_format]
     ++ (if empty (_get_variables self) then []
         else map define_constant (variables_dict (_get_variables self)))) ->
  bad_suffix file_path = false -> bad_sheet_name sheet_name = false ->
  empty (_get_variables self) = true \/ variables_sheet_name = None ->
  filter is_variables_effect
    (fst (to_excel self xlsx file_path sheet_name spaces_replacement
            label_row_format label_column_format variables_sheet_name
            variables_sheet_header))
  = if empty (_get_variables self) then []
    else map define_constant (variables_dict (_get_variables self)).
Proof.
  intros Hacc H1 H2 Hcase. unfold to_excel. rewrite H1, H2.
  rewrite log_export_subset_warning_run, bind_run.
  rewrite (xlsx_call_accepted xlsx (AddWorksheet WsResults (Py.str sheet_name)))
    by (apply Hacc; cbn; auto).
  rewrite (xlsx_call_accepted xlsx (AddFormat label_column_format))
    by (apply Hacc; cbn; auto).
  rewrite (xlsx_call_accepted xlsx (AddFormat label_row_format))
    by (apply Hacc; cbn; auto).
  rewrite bind_emit_run.
  change (@pair (list event) (result unit) [?e] (Ok tt)) with (emit e).
  do 3 rewrite bind_emit_run.
  assert (Hvars : excel_variables self xlsx variables_sheet_name
                    variables_sheet_header label_column_format
                  = (if empty (_get_variables self) then []
                     else map define_constant
                            (variables_dict (_get_variables self)), Ok tt)).
  { unfold excel_variables. destruct (empty (_get_variables self));
      [reflexivity|].
    destruct Hcase as [Hc| ->]; [discriminate|].
    apply constants_loop_run. intros e He. apply Hacc.
    apply in_or_app. now right. }
  rewrite Hvars, bind_run. cbn [fst].
  rewrite filter_app. cbn [filter is_variables_effect]. rewrite filter_app.
  match goal with
  | |- context [filter _ (fst ?rest)] =>
      assert (Hrest : emits_only (fun e => is_variables_effect e = false) rest)
        by no_variables_effect
  end.
  rewrite (filter_none _ _ Hrest), app_nil_r.
  replace (filter is_variables_effect
             (if export_subset self then [Warning subset_warning] else []))
    with (@nil event) by now destruct (export_subset self).
  cbn [app].
  destruct (empty (_get_variables self)); [reflexivity|].
  apply filter_constants.
Qed.

Lemma to_excel_registers_constants_witness :
  let self := sheet_with_variables in
  accepts xlsx_checks_names
    ([AddWorksheet WsResults "Results"; AddFormat []; AddFormat []]
     ++ map define_constant (variables_dict (_get_variables self))) /\
  filter is_variables_effect
    (fst (to_excel self xlsx_checks_names "results.xlsx"
            (Py.SStr "Results") " " [] [] None default_variables_header))
  = map define_constant (variables_dict (_get_variables self)) /\
  variables_dict (_get_variables self) <> [].
Proof.
  assert (Hacc : accepts xlsx_checks_names
            ([AddWorksheet WsResults "Results"; AddFormat []; AddFormat []]
             ++ map define_constant
                  (variables_dict (_get_variables sheet_with_variables)))).
  { intros e He _. cbn in He.
    repeat (destruct He as [<-|He]; [reflexivity|]). destruct He. }
  split; [exact Hacc|]. split; [|discriminate].
  apply (to_excel_registers_constants sheet_with_variables xlsx_checks_names
           "results.xlsx" (Py.SStr "Results") " " [] [] None
           default_variables_header);
    [exact Hacc|reflexivity|reflexivity|right; reflexivity].
Defined.

(** ** The cells of the workbook *)

(** What a turn of the data loop writes when it does not raise. *)
Lemma excel_cell_entry (self : Sheet) (xlsx : library) (r c : nat) :
  snd (excel_cell self xlsx r c) = Ok tt ->
  let cell := _get_cell_at self r c in
  value cell <> Py.SNone ->
  match cell_type cell with
  | value_only =>
      In (Write WsResults (r + label_shift self) (c + label_shift self)
            (value cell) (cell_format_of cell))
        (fst (excel_cell self xlsx r c))
  | computational =>
      exists formula,
        Dict.get (parse cell) "excel" = Some formula /\
        In (WriteFormula WsResults (r + label_shift self)
              (c + label_shift self) formula (value cell)
              (cell_format_of cell))
          (fst (excel_cell self xlsx r c))
  end.
Proof.
  intros Hok cell Hval. revert Hok.
  unfold excel_cell, label_shift, cell_format_of.
  rewrite get_cell_at_run, bind_run. fold cell.
  destruct (value cell) eqn:Hv; [congruence| |]; cbn [Py.is_none negb];
    destruct (Nat.ltb 0 (List.length (excel_format cell)));
    destruct (cell_type cell);
    try destruct (Dict.get (parse cell) "excel") as [formula|];
    intros Hok;
    repeat (progress (xlsx_cases; unfold bind in Hok |- *;
                      cbn in Hok |- *));
    try discriminate;
    try (exists formula; split; [reflexivity|]); tauto.
Qed.

(** X10: a call of [to_excel] that returns has written every cell that
    holds a value at its position moved by the label shift: a value-only
    cell as the value itself, a formula cell as its text in the excel
    language together with the value; either with the format of the cell
    when it has one and with none otherwise. *)
Theorem to_excel_writes_values_and_formulas (self : Sheet) (xlsx : library)
  (file_path : string) (sheet_name : Py.scalar) (spaces_replacement : string)
  (label_row_format label_column_format : style)
  (variables_sheet_name : option string)
  (variables_sheet_header : Dict.t string) :
  let run := to_excel self xlsx file_path sheet_name spaces_replacement
               label_row_format label_column_format variables_sheet_name
               variables_sheet_header in
  snd run = Ok tt ->
  forall r c, r < fst (shape self) -> c < snd (shape self) ->
    let cell := _get_cell_at self r c in
    value cell <> Py.SNone ->
    match cell_type cell with
    | value_only =>
        In (Write WsResults (r + label_shift self) (c + label_shift self)
              (value cell) (cell_format_of cell)) (fst run)
    | computational =>
        exists formula,
          Dict.get (parse cell) "excel" = Some formula /\
          In (WriteFormula WsResults (r + label_shift self)
                (c + label_shift self) formula (value cell)
                (cell_format_of cell)) (fst run)
    end.
Proof.
  intros run Hok r c Hr Hc cell Hval. subst run.
  destruct (to_excel_ok_trace _ _ _ _ _ _ _ _ _ Hok) as [-> [_ [Hcells _]]].
  pose proof (excel_cell_entry self xlsx r c (Hcells r c Hr Hc) Hval) as He.
  assert (Hin : forall e, In e (fst (excel_cell self xlsx r c)) ->
            In e (subset_trace self
                  ++ [WorkbookOpen file_path;
                      AddWorksheet WsResults (Py.str sheet_name);
                      AddFormat label_column_format;
                      AddFormat label_row_format]
                  ++ fst (excel_variables self xlsx variables_sheet_name
                            variables_sheet_header label_column_format)
                  ++ excel_data_trace self xlsx
                  ++ fst (excel_labels self xlsx spaces_replacement
                            label_row_format label_column_format)
                  ++ [WorkbookClose])).
  { intros e Hin. do 3 (apply in_or_app; right). apply in_or_app. left.
    unfold excel_data_trace. apply in_flat_map. exists r.
    split; [apply in_seq; lia|]. apply in_flat_map. exists c.
    split; [apply in_seq; lia|assumption]. }
  fold cell in He. destruct (cell_type cell).
  - now apply Hin.
  - destruct He as [formula [Hf He]]. exists formula. split; [assumption|].
    now apply Hin.
Qed.

Lemma to_excel_writes_values_and_formulas_witness :
  let self := sheet_with_variables in
  let run := to_excel self xlsx_checks_names "results.xlsx"
               (Py.SStr "Results") " " [] [] None default_variables_header in
  exists formula,
    Dict.get (parse (_get_cell_at self 0 1)) "excel" = Some formula /\
    In (WriteFormula WsResults (0 + label_shift self) (1 + label_shift self)
          formula (value (_get_cell_at self 0 1))
          (cell_format_of (_get_cell_at self 0 1))) (fst run).
Proof.
  refine (to_excel_writes_values_and_formulas sheet_with_variables
            xlsx_checks_names "results.xlsx" (Py.SStr "Results") " " [] []
            None default_variables_header eq_refl 0 1 _ _ _).
  - simpl. lia.
  - simpl. lia.
  - discriminate.
Defined.

Lemma for_each_raises {X} (l : list X) (body : X -> M unit) (e : exn) :
  (forall x, In x l -> snd (body x) = Ok tt \/ snd (body x) = Raise e) ->
  (exists x, In x l /\ snd (body x) = Raise e) ->
  snd (for_each l body) = Raise e.
Proof.
  unfold for_each. induction l as [|x l IH]; intros Hall [y [Hy Hfail]].
  - destruct Hy.
  - cbn [for_in]. rewrite snd_bind.
    destruct (Hall x ltac:(now left)) as [Hx|Hx]; rewrite Hx;
      [|reflexivity].
    destruct Hy as [<-|Hy]; [congruence|].
    apply IH; [|eauto]. intros z Hz. apply Hall. now right.
Qed.

Lemma excel_cell_outcome (self : Sheet) (xlsx : library) (r c : nat) :
  accepts_all xlsx ->
  snd (excel_cell self xlsx r c)
  = if lacks_excel_formula (_get_cell_at self r c)
    then Raise (KeyError "excel") else Ok tt.
Proof.
  intros Hall. unfold excel_cell, lacks_excel_formula.
  rewrite get_cell_at_run, bind_run. cbn [snd].
  set (cell := _get_cell_at self r c).
  destruct (Py.is_none (value cell)); cbn [negb andb]; [reflexivity|].
  destruct (Nat.ltb 0 (List.length (excel_format cell)));
    destruct (cell_type cell);
    try destruct (Dict.get (parse cell) "excel");
    repeat (progress (rewrite ?(xlsx_call_accepts xlsx _ Hall);
                      unfold bind, emit;
                      cbn [fst snd ret orelse raise app]));
    reflexivity.
Qed.

Lemma to_excel_key_error_accepted (self : Sheet)
  (xlsx : library)
  (file_path : string) (sheet_name : Py.scalar) (spaces_replacement : string)
  (label_row_format label_column_format : style)
  (variables_sheet_name : option string)
  (variables_sheet_header : Dict.t string) (r c : nat) :
  accepts_all xlsx ->
  bad_suffix file_path = false -> bad_sheet_name sheet_name = false ->
  empty (_get_variables self) = true \/ variables_sheet_name = None ->
  r < fst (shape self) -> c < snd (shape self) ->
  lacks_excel_formula (_get_cell_at self r c) = true ->
  let run := to_excel self xlsx file_path sheet_name spaces_replacement
               label_row_format label_column_format variables_sheet_name
               variables_sheet_header in
  snd run = Raise (KeyError "excel") /\
  In (WorkbookOpen file_path) (fst run).
Proof.
  intros Hall H1 H2 Hcase Hr Hc Hlack run. subst run.
  unfold to_excel. rewrite H1, H2.
  rewrite log_export_subset_warning_run, bind_run.
  rewrite !(xlsx_call_accepts xlsx _ Hall).
  do 4 rewrite bind_emit_run.
  assert (Hvars : snd (excel_variables self xlsx variables_sheet_name
                         variables_sheet_header label_column_format)
                  = Ok tt).
  { unfold excel_variables. destruct (empty (_get_variables self));
      [reflexivity|].
    destruct Hcase as [Hc'| ->]; [discriminate|].
    now rewrite (constants_loop_run xlsx _ (fun e _ _ => Hall e)). }
  cbn [fst snd]. split.
  - rewrite snd_bind, Hvars, snd_bind.
    rewrite (for_each_raises _ _ (KeyError "excel")); [reflexivity| |].
    + intros x _.
      destruct (snd (for_each (range (snd (shape self)))
                       (fun col_idx => excel_cell self xlsx x col_idx)))
        as [[]|e] eqn:E; [now left|right].
      (* a line of the data loop raises nothing but this error *)
      assert (Hcells : forall l,
                snd (for_each l
                       (fun col_idx => excel_cell self xlsx x col_idx))
                = Raise e -> e = KeyError "excel").
      { unfold for_each. induction l as [|y l IH]; cbn [for_in];
          [discriminate|].
        rewrite snd_bind, (excel_cell_outcome self xlsx x y Hall).
        destruct (lacks_excel_formula (_get_cell_at self x y));
          [congruence|exact IH]. }
      now rewrite (Hcells _ E).
    + exists r. split; [apply in_seq; lia|].
      apply for_each_raises.
      * intros y _. rewrite (excel_cell_outcome self xlsx r y Hall).
        destruct (lacks_excel_formula (_get_cell_at self r y));
          [right|left]; reflexivity.
      * exists c. split; [apply in_seq; lia|].
        now rewrite (excel_cell_outcome self xlsx r c Hall), Hlack.
  - apply in_or_app. right. now left.
Qed.

(** X11: when no variable can fail (the registry is empty or the variables
    get no sheet), some cell of the exported shape is a formula cell that
    holds a value but has no text in the excel language, and the workbook
    writer carries out every call of the run (the calls made when none is
    turned down), a call of [to_excel] that passes the sanity check raises
    [KeyError] for the key excel, after the workbook has been opened. *)
Theorem to_excel_raises_on_missing_excel_formula (self : Sheet)
  (xlsx : library)
  (file_path : string) (sheet_name : Py.scalar) (spaces_replacement : string)
  (label_row_format label_column_format : style)
  (variables_sheet_name : option string)
  (variables_sheet_header : Dict.t string) (r c : nat) :
  accepts xlsx
    (fst (to_excel self xlsx_accepts file_path sheet_name spaces_replacement
            label_row_format label_column_format variables_sheet_name
            variables_sheet_header)) ->
  bad_suffix file_path = false -> bad_sheet_name sheet_name = false ->
  empty (_get_variables self) = true \/ variables_sheet_name = None ->
  r < fst (shape self) -> c < snd (shape self) ->
  lacks_excel_formula (_get_cell_at self r c) = true ->
  let run := to_excel self xlsx file_path sheet_name spaces_replacement
               label_row_format label_column_format variables_sheet_name
               variables_sheet_header in
  snd run = Raise (KeyError "excel") /\
  In (WorkbookOpen file_path) (fst run).
Proof.
  intros Hacc H1 H2 Hcase Hr Hc Hlack run. subst run.
  rewrite (to_excel_follows self xlsx _ _ _ _ _ _ _ Hacc).
  exact (to_excel_key_error_accepted self xlsx_accepts file_path sheet_name
           spaces_replacement label_row_format label_column_format
           variables_sheet_name variables_sheet_header r c
           accepts_all_accepts H1 H2 Hcase Hr Hc Hlack).
Qed.

Lemma to_excel_raises_on_missing_excel_formula_witness :
  let run := to_excel sheet_native_formula xlsx_checks_names "results.xlsx"
               (Py.SStr "Results") " " [] [] None [] in
  accepts xlsx_checks_names
    (fst (to_excel sheet_native_formula xlsx_accepts "results.xlsx"
            (Py.SStr "Results") " " [] [] None [])) /\
  In (AddWorksheet WsResults "Results")
    (fst (to_excel sheet_native_formula xlsx_accepts "results.xlsx"
            (Py.SStr "Results") " " [] [] None [])) /\
  snd run = Raise (KeyError "excel") /\
  In (WorkbookOpen "results.xlsx") (fst run).
Proof.
  assert (Hacc : accepts xlsx_checks_names
            (fst (to_excel sheet_native_formula xlsx_accepts "results.xlsx"
                    (Py.SStr "Results") " " [] [] None []))).
  { intros e He _. cbn in He.
    repeat (destruct He as [<-|He]; [reflexivity|]). destruct He. }
  split; [exact Hacc|]. split; [cbn; auto|].
  refine (to_excel_raises_on_missing_excel_formula sheet_native_formula
            xlsx_checks_names "results.xlsx" (Py.SStr "Results") " " [] []
            None [] 0 0 Hacc eq_refl eq_refl (or_introl eq_refl) _ _ eq_refl);
    simpl; lia.
Defined.

(** ** The dictionary, key by key *)

(** X12: whatever [by_row], the dictionary a call of [to_dictionary]
    returns lists under row-labels the exported row labels and under
    column-labels the exported column labels (all labels after the export
    offset, spaces replaced) and holds the variables of the sheet under
    variables. *)
Theorem to_dictionary_labels_and_variables (self : Sheet)
  (languages : option (list string)) (by_row : bool)
  (languages_pseudonyms : option (list string)) (spaces_replacement : string)
  (skip_nan_cell : bool) (nan_replacement values : Py.obj) :
  snd (to_dictionary self languages by_row languages_pseudonyms
         spaces_replacement skip_nan_cell nan_replacement) = Ok values ->
  obj_get values "row-labels"
  = Some (labels_obj (exported_row_labels self spaces_replacement)) /\
  obj_get values "column-labels"
  = Some (labels_obj (exported_column_labels self spaces_replacement)) /\
  obj_get values "variables" = Some (variables_obj (_get_variables self)).
Proof.
  intros H. unfold to_dictionary in H.
  apply bind_ok_inv in H as [[] [_ [H _]]].
  destruct (match languages_pseudonyms with
            | Some p => _
            | None => false
            end); [discriminate|].
  apply bind_ok_inv in H as [outer [_ [H _]]].
  injection H as <-. unfold obj_get. rewrite !dict_get_set.
  destruct by_row; repeat split; reflexivity.
Qed.

Lemma to_dictionary_labels_and_variables_witness :
  let values := returned (dictionary_of sheet_7_none_9_10 false false) in
  obj_get values "row-labels"
  = Some (labels_obj (exported_row_labels sheet_7_none_9_10 " ")) /\
  obj_get values "column-labels"
  = Some (labels_obj (exported_column_labels sheet_7_none_9_10 " ")) /\
  obj_get values "variables"
  = Some (variables_obj (_get_variables sheet_7_none_9_10)).
Proof.
  apply (to_dictionary_labels_and_variables sheet_7_none_9_10 None false
           None " " false Py.ONone
           (returned (dictionary_of sheet_7_none_9_10 false false))).
  reflexivity.
Defined.

(** Where a record of the dictionary comes from. *)
Lemma record_origin (self : Sheet) (ls : option (list string))
  (by_row : bool) (lp : option (list string)) (sr : string) (skip : bool)
  (nr values : Py.obj) (lx ly : string) (rec : Py.obj) :
  snd (to_dictionary self ls by_row lp sr skip nr) = Ok values ->
  let plan := axis_plan self by_row sr in
  let languages := languages_exported self ls in
  record_at values (x_start_key plan) lx (y_start_key plan) ly = Some rec ->
  exists i j,
    i < x_range plan /\ j < y_range plan /\
    nth_error (x plan) i = Some lx /\ nth_error (y plan) j = Some ly /\
    skipped skip (cell_at self by_row i j) = false /\
    record_built languages (languages_used_for languages lp) nr
      (y_helptext plan) j (cell_at self by_row i j) rec.
Proof.
  intros H plan languages Hrec.
  pose proof (record_at_spec _ _ _ _ _ _ _ _ H lx ly) as Hs.
  cbv zeta in Hs. fold plan languages in Hs. unfold select_cell in Hs.
  destruct (last_index (fun i => label_at (x plan) i lx) (x_range plan))
    as [i|] eqn:Hi; [|congruence].
  destruct (last_index _ (y_range plan)) as [j|] eqn:Hj; [|congruence].
  destruct Hs as [rec' [Hrec' Hb]].
  assert (rec' = rec) by congruence. subst rec'.
  apply last_index_some in Hi as [Hi [Hli _]].
  apply last_index_some in Hj as [Hj [Hlj _]].
  apply andb_true_iff in Hlj as [Hlj Hsk].
  apply label_at_eq in Hli, Hlj. apply negb_true_iff in Hsk.
  exists i, j. repeat split; assumption.
Qed.

Lemma cell_record_fields (ls lu : list string) (cell : Cell)
  (cell_value : Py.obj) (base : Dict.t Py.obj) :
  snd (cell_record ls lu cell cell_value) = Ok base ->
  Dict.get base "value" = Some cell_value /\
  Dict.get base "description" = Some (Py.of_option_str (description cell)).
Proof.
  unfold cell_record. intros H.
  apply bind_ok_inv in H as [p [_ [H _]]]. injection H as <-.
  rewrite !dict_get_set. split; reflexivity.
Qed.

(** X13: every record of the dictionary [to_dictionary] returns stands
    under the exported labels of a cell of the exported shape, and holds
    under value the value of that cell, or [nan_replacement] when the cell
    has none, and under description its description, whatever the
    languages are renamed to; with [skip_nan_cell] no record comes from a
    cell without a value. *)
Theorem to_dictionary_record_of_cell (self : Sheet)
  (languages : option (list string)) (by_row : bool)
  (languages_pseudonyms : option (list string)) (spaces_replacement : string)
  (skip_nan_cell : bool) (nan_replacement values : Py.obj)
  (outer_label inner_label : string) (rec : Py.obj) :
  snd (to_dictionary self languages by_row languages_pseudonyms
         spaces_replacement skip_nan_cell nan_replacement) = Ok values ->
  let plan := axis_plan self by_row spaces_replacement in
  record_at values (x_start_key plan) outer_label (y_start_key plan)
    inner_label = Some rec ->
  exists i j,
    i < x_range plan /\ j < y_range plan /\
    nth_error (x plan) i = Some outer_label /\
    nth_error (y plan) j = Some inner_label /\
    let cell := cell_at self by_row i j in
    (skip_nan_cell = true -> value cell <> Py.SNone) /\
    obj_get rec "value" = Some (exported_value nan_replacement cell) /\
    obj_get rec "description" = Some (Py.of_option_str (description cell)).
Proof.
  intros H plan Hrec.
  destruct (record_origin _ _ _ _ _ _ _ _ _ _ _ H Hrec)
    as [i [j [Hi [Hj [Hx [Hy [Hsk [base [Hbase Hb]]]]]]]]].
  fold plan in Hi, Hj, Hx, Hy, Hb.
  exists i, j. repeat split; try assumption.
  - intros -> Hnone. unfold skipped in Hsk. rewrite Hnone in Hsk.
    discriminate.
  - destruct (cell_record_fields _ _ _ _ _ Hbase) as [Hv _].
    destruct (y_helptext plan); [destruct Hb as [t [_ ->]]|subst rec];
      unfold obj_get; rewrite ?dict_get_set; exact Hv.
  - destruct (cell_record_fields _ _ _ _ _ Hbase) as [_ Hd].
    destruct (y_helptext plan); [destruct Hb as [t [_ ->]]|subst rec];
      unfold obj_get; rewrite ?dict_get_set; exact Hd.
Qed.

Lemma to_dictionary_record_of_cell_witness :
  let self := sheet_7_none_9_10 in
  let plan := axis_plan self false " " in
  exists i j,
    i < x_range plan /\ j < y_range plan /\
    nth_error (x plan) i = Some "c0" /\
    nth_error (y plan) j = Some "r1" /\
    let cell := cell_at self false i j in
    (true = true -> value cell <> Py.SNone) /\
    obj_get (Py.ODict [("excel", Py.OStr "9"); ("native", Py.OStr "9");
                       ("value", Py.ONum 9); ("description", Py.ONone)])
      "value" = Some (exported_value Py.ONone cell) /\
    obj_get (Py.ODict [("excel", Py.OStr "9"); ("native", Py.OStr "9");
                       ("value", Py.ONum 9); ("description", Py.ONone)])
      "description" = Some (Py.of_option_str (description cell)).
Proof.
  exact (to_dictionary_record_of_cell sheet_7_none_9_10 None false None " "
           true Py.ONone
           (returned (dictionary_of sheet_7_none_9_10 false true))
           "c0" "r1"
           (Py.ODict [("excel", Py.OStr "9"); ("native", Py.OStr "9");
                      ("value", Py.ONum 9); ("description", Py.ONone)])
           eq_refl eq_refl).
Defined.

(** ** [to_dictionary] on a well-formed sheet *)

(** A loop over a list whose turns perform no effect and do not raise. *)
Lemma for_in_quiet_total {X S} (l : list X) (body : X -> S -> M S) (s : S) :
  (forall x s0, In x l -> exists s', body x s0 = ([], Ok s')) ->
  exists s', for_in l body s = ([], Ok s').
Proof.
  revert s. induction l as [|x l IH]; intros s Hbody.
  - exists s. reflexivity.
  - destruct (Hbody x s ltac:(now left)) as [s1 Hs1].
    destruct (IH s1) as [s' Hs']; [intros y s0 Hy; apply Hbody; now right|].
    exists s'. cbn [for_in]. now rewrite Hs1, bind_run, Hs'.
Qed.

Lemma in_enumerate {A} (l : list A) (i : nat) (x : A) :
  In (i, x) (enumerate l) -> i < List.length l /\ In x l.
Proof.
  unfold enumerate. intros H. split.
  - apply in_combine_l in H. apply in_seq in H. lia.
  - now apply in_combine_r in H.
Qed.

Lemma cell_record_total (ls lu : list string) (cell : Cell)
  (cell_value : Py.obj) :
  List.length lu = List.length ls ->
  (forall lang, In lang ls -> Dict.get (parse cell) lang <> None) ->
  exists base, cell_record ls lu cell cell_value = ([], Ok base).
Proof.
  intros Hlen Hparse. unfold cell_record.
  destruct (for_in_quiet_total (enumerate ls)
              (fun '(i, language) pseudolang_and_val =>
                 text <- orelse (Dict.get (parse cell) language)
                           (KeyError language) ;;
                 name <- orelse (nth_error lu i) IndexError ;;
                 ret (Dict.set pseudolang_and_val name (Py.OStr text)))
              Dict.empty) as [p Hp].
  - intros [i lang] s0 Hin. apply in_enumerate in Hin as [Hi Hlang].
    destruct (Dict.get (parse cell) lang) as [text|] eqn:Ht;
      [|now apply Hparse in Hlang].
    destruct (nth_error_covered lu i ltac:(lia)) as [name Hname].
    rewrite Hname. eexists. reflexivity.
  - rewrite Hp, bind_run_ret. eauto.
Qed.

Lemma languages_used_length (ls : list string) (lp : option (list string)) :
  pseudonyms_match ls lp ->
  List.length (languages_used_for ls lp) = List.length ls.
Proof. destruct lp; simpl; auto. Qed.

Lemma axis_plan_covered (self : Sheet) (by_row : bool) (sr : string) :
  labels_cover_shape self -> help_covers_shape self ->
  let plan := axis_plan self by_row sr in
  x_range plan <= List.length (x plan) /\
  y_range plan <= List.length (y plan) /\
  (forall h, x_helptext plan = Some h -> x_range plan <= List.length h) /\
  (forall h, y_helptext plan = Some h -> y_range plan <= List.length h).
Proof.
  intros [Hr Hc] [Hhr Hhc] plan. subst plan.
  unfold axis_plan, exported_help_text.
  destruct by_row; cbn [x_range y_range x y x_helptext y_helptext];
    rewrite !exported_labels_length;
    (split; [lia|]); (split; [lia|]);
    split; intros h Hh;
    destruct (rows_help_text (cell_indices self));
    destruct (columns_help_text (cell_indices self));
    try discriminate; injection Hh as <-;
    unfold Py.slice_from; rewrite length_skipn; lia.
Qed.

Lemma cell_at_in_shape (self : Sheet) (by_row : bool) (sr : string)
  (i j : nat) :
  let plan := axis_plan self by_row sr in
  i < x_range plan -> j < y_range plan ->
  exists r c, r < fst (shape self) /\ c < snd (shape self) /\
    cell_at self by_row i j = _get_cell_at self r c /\
    (if by_row then get_cell_at self i j else get_cell_at self j i)
    = ([GetCell r c], Ok (_get_cell_at self r c)) /\
    GetCell r c = (if by_row then GetCell i j else GetCell j i).
Proof.
  destruct by_row; cbn; intros Hi Hj; [exists i, j|exists j, i];
    repeat split; assumption.
Qed.

(** A turn of the inner loop on a well-formed sheet. *)
Lemma to_dictionary_cell_total (self : Sheet) (by_row : bool) (sr : string)
  (ls : list string) (lp : option (list string)) (skip : bool)
  (nr : Py.obj) (i j : nat) (inner : Dict.t Py.obj) :
  labels_cover_shape self -> help_covers_shape self ->
  pseudonyms_match ls lp -> cells_speak self ls skip ->
  let plan := axis_plan self by_row sr in
  i < x_range plan -> j < y_range plan ->
  exists inner',
    to_dictionary_cell self plan by_row ls (languages_used_for ls lp) skip nr
      i j inner
    = ([if by_row then GetCell i j else GetCell j i], Ok inner').
Proof.
  intros Hl Hh Hp Hs plan Hi Hj.
  destruct (axis_plan_covered self by_row sr Hl Hh) as [_ [Hy [_ Hhy]]].
  destruct (cell_at_in_shape self by_row sr i j Hi Hj)
    as [r [c [Hr [Hc [Hcell [Hget Hev]]]]]].
  fold plan in Hy, Hhy. unfold to_dictionary_cell.
  rewrite Hget, bind_run, <- Hev.
  destruct (Py.is_none (value (_get_cell_at self r c)) && skip) eqn:Hsk.
  - eexists. reflexivity.
  - destruct (cell_record_total ls (languages_used_for ls lp)
                (_get_cell_at self r c)
                (if Py.is_none (value (_get_cell_at self r c)) then nr
                 else Py.of_scalar (value (_get_cell_at self r c))))
      as [base Hbase].
    + now apply languages_used_length.
    + intros lang Hlang. now apply (Hs r c lang).
    + rewrite Hbase, bind_run.
      assert (Hlt : j < List.length (y plan)) by (clearbody plan; lia).
      destruct (nth_error_covered (y plan) j Hlt) as [label Hlabel].
      rewrite Hlabel. cbn [orelse]. unfold ret at 1. rewrite bind_run.
      destruct (y_helptext plan) as [help|] eqn:Hhelp.
      * destruct (nth_error_covered help j) as [h Hht].
        { specialize (Hhy help eq_refl). clearbody plan. lia. }
        rewrite Hht. eexists. reflexivity.
      * eexists. reflexivity.
Qed.

(** A turn of the outer loop on a well-formed sheet. *)
Lemma to_dictionary_line_total (self : Sheet) (by_row : bool) (sr : string)
  (ls : list string) (lp : option (list string)) (skip : bool)
  (nr : Py.obj) (i : nat) (outer : Dict.t Py.obj) :
  labels_cover_shape self -> help_covers_shape self ->
  pseudonyms_match ls lp -> cells_speak self ls skip ->
  let plan := axis_plan self by_row sr in
  i < x_range plan ->
  exists outer',
    to_dictionary_line self plan by_row ls (languages_used_for ls lp) skip nr
      i outer
    = (flat_map (fun j => [if by_row then GetCell i j else GetCell j i])
         (seq 0 (y_range plan)), Ok outer').
Proof.
  intros Hl Hh Hp Hs plan Hi.
  destruct (axis_plan_covered self by_row sr Hl Hh) as [Hx [_ [Hhx _]]].
  fold plan in Hx, Hhx. unfold to_dictionary_line.
  destruct (for_in_seq_total (fun _ _ => True)
              (fun j => [if by_row then GetCell i j else GetCell j i])
              (to_dictionary_cell self plan by_row ls
                 (languages_used_for ls lp) skip nr i)
              (y_range plan) 0 Dict.empty I) as [inner [Hinner _]].
  { intros j s Hj _.
    assert (Hj' : j < y_range plan) by lia.
    destruct (to_dictionary_cell_total self by_row sr ls lp skip nr i j s
                Hl Hh Hp Hs Hi Hj') as [s' Hs'].
    exists s'. split; [exact Hs'|exact I]. }
  unfold range. rewrite Hinner, bind_run.
  assert (Hlt : i < List.length (x plan)) by (clearbody plan; lia).
  destruct (nth_error_covered (x plan) i Hlt) as [label Hlabel].
  rewrite Hlabel. cbn [orelse]. unfold ret at 1. rewrite bind_run.
  destruct (x_helptext plan) as [help|] eqn:Hhelp.
  - destruct (nth_error_covered help i) as [h Hht].
    { specialize (Hhx help eq_refl). clearbody plan. lia. }
    rewrite Hht. eexists. cbn. now rewrite app_nil_r.
  - eexists. cbn. now rewrite app_nil_r.
Qed.

(** X14: on a sheet whose labels and help texts reach as far as the
    exported shape and whose cells, those skipped apart, have a text in
    every exported language, a call of [to_dictionary] with as many
    pseudonyms as languages returns a dictionary; it reads every cell of
    the exported shape once, row by row when [by_row] is true and column
    by column when it is false. *)
Theorem to_dictionary_returns_on_well_formed_sheet (self : Sheet)
  (languages : option (list string)) (by_row : bool)
  (languages_pseudonyms : option (list string)) (spaces_replacement : string)
  (skip_nan_cell : bool) (nan_replacement : Py.obj) :
  labels_cover_shape self -> help_covers_shape self ->
  pseudonyms_match (languages_exported self languages) languages_pseudonyms ->
  cells_speak self (languages_exported self languages) skip_nan_cell ->
  exists values,
    to_dictionary self languages by_row languages_pseudonyms
      spaces_replacement skip_nan_cell nan_replacement
    = (subset_trace self
       ++ (if by_row then all_reads self else all_reads_by_column self),
       Ok (Py.ODict values)).
Proof.
  intros Hl Hh Hp Hs. unfold to_dictionary, subset_trace.
  rewrite log_export_subset_warning_run, bind_run.
  fold (languages_exported self languages).
  set (ls := languages_exported self languages) in *.
  replace (match languages_pseudonyms with
           | Some p => negb (Nat.eqb (List.length p) (List.length ls))
           | None => false
           end) with false.
  2:{ destruct languages_pseudonyms as [p|]; [|reflexivity].
      simpl in Hp. rewrite Hp, Nat.eqb_refl. reflexivity. }
  fold (languages_used_for ls languages_pseudonyms).
  set (plan := axis_plan self by_row spaces_replacement).
  destruct (for_in_seq_total (fun _ _ => True)
              (fun i => flat_map
                          (fun j => [if by_row then GetCell i j
                                     else GetCell j i])
                          (seq 0 (y_range plan)))
              (to_dictionary_line self plan by_row ls
                 (languages_used_for ls languages_pseudonyms)
                 skip_nan_cell nan_replacement)
              (x_range plan) 0 Dict.empty I) as [outer [Houter _]].
  { intros i s Hi _.
    assert (Hi' : i < x_range plan) by lia.
    destruct (to_dictionary_line_total self by_row spaces_replacement ls
                languages_pseudonyms skip_nan_cell nan_replacement i s
                Hl Hh Hp Hs Hi') as [s' Hs'].
    exists s'. split; [exact Hs'|exact I]. }
  unfold range. rewrite Houter, bind_run. cbn [fst snd ret].
  rewrite app_nil_r. eexists. f_equal. f_equal.
  subst plan. destruct by_row; reflexivity.
Qed.

Lemma to_dictionary_returns_on_well_formed_sheet_witness :
  exists values,
    to_dictionary sheet_7_none_9_10 None false None " " false Py.ONone
    = (subset_trace sheet_7_none_9_10
       ++ all_reads_by_column sheet_7_none_9_10, Ok (Py.ODict values)).
Proof.
  apply (to_dictionary_returns_on_well_formed_sheet sheet_7_none_9_10 None
           false None " " false Py.ONone).
  - unfold labels_cover_shape. simpl. lia.
  - unfold help_covers_shape. simpl. tauto.
  - exact I.
  - intros r c lang _ _ [<-|[<-|[]]] _; discriminate.
Defined.

(** ** Languages and their pseudonyms *)

Lemma combine_app_same_length {A B} (l1 l2 : list A) (m1 m2 : list B) :
  List.length l1 = List.length m1 ->
  combine (l1 ++ l2) (m1 ++ m2) = combine l1 m1 ++ combine l2 m2.
Proof.
  revert m1. induction l1 as [|a l1 IH]; intros [|b m1] H; simpl in *;
    try discriminate; [reflexivity|].
  f_equal. apply IH. congruence.
Qed.

Lemma enumerate_snoc {A} (l : list A) (x : A) :
  enumerate (l ++ [x]) = enumerate l ++ [(List.length l, x)].
Proof.
  unfold enumerate. rewrite length_app, seq_app. cbn [List.length seq].
  rewrite Nat.add_0_l.
  rewrite combine_app_same_length by now rewrite length_seq. reflexivity.
Qed.

Lemma nth_error_Some_lt {A} (l : list A) (k : nat) (x : A) :
  nth_error l k = Some x -> k < List.length l.
Proof. intros H. apply nth_error_Some. congruence. Qed.

(** The texts of a record: each name holds the text of the last language
    exported under it. *)
Lemma cell_record_loop (lu : list string) (cell : Cell) (ls : list string) :
  forall p,
    snd (for_in (enumerate ls)
           (fun '(i, language) pseudolang_and_val =>
              text <- orelse (Dict.get (parse cell) language)
                        (KeyError language) ;;
              name <- orelse (nth_error lu i) IndexError ;;
              ret (Dict.set pseudolang_and_val name (Py.OStr text)))
           Dict.empty) = Ok p ->
    forall k lang name,
      nth_error ls k = Some lang -> nth_error lu k = Some name ->
      (forall k', k < k' < List.length ls -> nth_error lu k' <> Some name) ->
      exists text,
        Dict.get (parse cell) lang = Some text /\
        Dict.get p name = Some (Py.OStr text).
Proof.
  induction ls as [|x ls IH] using rev_ind; intros p Hrun k lang name Hk Hn
    Hlater.
  - destruct k; discriminate.
  - rewrite enumerate_snoc, for_in_app in Hrun.
    apply bind_ok_inv in Hrun as [p0 [Hp0 [Hlast _]]].
    cbn [for_in] in Hlast.
    apply bind_ok_inv in Hlast as [p1 [Hbody [Hret _]]].
    injection Hret as <-.
    apply bind_ok_inv in Hbody as [tx [Htx [Hbody _]]].
    apply bind_ok_inv in Hbody as [nm [Hnm [Hbody _]]].
    apply orelse_ok in Htx, Hnm. injection Hbody as <-.
    rewrite dict_get_set. rewrite length_app in Hlater. cbn in Hlater.
    destruct (Nat.eq_dec k (List.length ls)) as [->|Hne].
    + rewrite nth_error_app2, Nat.sub_diag in Hk by lia.
      injection Hk as <-. assert (nm = name) by congruence. subst nm.
      rewrite String.eqb_refl. eauto.
    + assert (Hlt : k < List.length ls).
      { apply nth_error_Some_lt in Hk. rewrite length_app in Hk.
        cbn in Hk. lia. }
      rewrite nth_error_app1 in Hk by assumption.
      destruct (String.eqb_spec name nm) as [->|Hdiff].
      * exfalso. apply (Hlater (List.length ls)); [lia|assumption].
      * apply (IH p0 Hp0 k lang name Hk Hn).
        intros k' Hk'. apply Hlater. lia.
Qed.

(** X15: in every record of the dictionary [to_dictionary] returns, the
    name a language is exported under (its pseudonym, or the language
    itself without pseudonyms) holds the text of the cell in that
    language, provided no later language is exported under the same name
    and the name is not one of value, description and help_text, which the
    record fills afterwards. *)
Theorem to_dictionary_language_texts (self : Sheet)
  (languages : option (list string)) (by_row : bool)
  (languages_pseudonyms : option (list string)) (spaces_replacement : string)
  (skip_nan_cell : bool) (nan_replacement values : Py.obj)
  (outer_label inner_label : string) (rec : Py.obj)
  (k : nat) (lang name : string) :
  snd (to_dictionary self languages by_row languages_pseudonyms
         spaces_replacement skip_nan_cell nan_replacement) = Ok values ->
  let plan := axis_plan self by_row spaces_replacement in
  let exported := languages_exported self languages in
  let used := languages_used_for exported languages_pseudonyms in
  record_at values (x_start_key plan) outer_label (y_start_key plan)
    inner_label = Some rec ->
  nth_error exported k = Some lang -> nth_error used k = Some name ->
  (forall k', k < k' < List.length exported -> nth_error used k' <> Some name) ->
  name <> "value" -> name <> "description" -> name <> "help_text" ->
  exists i j text,
    i < x_range plan /\ j < y_range plan /\
    nth_error (x plan) i = Some outer_label /\
    nth_error (y plan) j = Some inner_label /\
    Dict.get (parse (cell_at self by_row i j)) lang = Some text /\
    obj_get rec name = Some (Py.OStr text).
Proof.
  intros H plan exported used Hrec Hk Hn Hlater Hv Hd Hh.
  destruct (record_origin _ _ _ _ _ _ _ _ _ _ _ H Hrec)
    as [i [j [Hi [Hj [Hx [Hy [_ [base [Hbase Hb]]]]]]]]].
  fold plan exported used in Hi, Hj, Hx, Hy, Hb, Hbase.
  unfold cell_record in Hbase.
  apply bind_ok_inv in Hbase as [p [Hp [Hbase _]]]. injection Hbase as <-.
  destruct (cell_record_loop used _ exported p Hp k lang name Hk Hn Hlater)
    as [text [Ht Hg]].
  exists i, j, text. repeat split; try assumption.
  assert (Hbase : Dict.get
                    (Dict.set
                       (Dict.set p "value"
                          (exported_value nan_replacement
                             (cell_at self by_row i j)))
                       "description"
                       (Py.of_option_str
                          (description (cell_at self by_row i j)))) name
                  = Some (Py.OStr text)).
  { rewrite !dict_get_set.
    destruct (String.eqb_spec name "description"); [congruence|].
    destruct (String.eqb_spec name "value"); [congruence|assumption]. }
  destruct (y_helptext plan); [destruct Hb as [t [_ ->]]|subst rec];
    cbn [obj_get]; [|exact Hbase].
  rewrite dict_get_set.
  destruct (String.eqb_spec name "help_text"); [congruence|exact Hbase].
Qed.

Lemma to_dictionary_language_texts_witness :
  let self := sheet_7_none_9_10 in
  let plan := axis_plan self false " " in
  exists i j text,
    i < x_range plan /\ j < y_range plan /\
    nth_error (x plan) i = Some "c0" /\
    nth_error (y plan) j = Some "r1" /\
    Dict.get (parse (cell_at self false i j)) "excel" = Some text /\
    obj_get (Py.ODict [("formula", Py.OStr "9"); ("python", Py.OStr "9");
                       ("value", Py.ONum 9); ("description", Py.ONone)])
      "formula" = Some (Py.OStr text).
Proof.
  refine (to_dictionary_language_texts sheet_7_none_9_10 None false
            (Some ["formula"; "python"]) " " false Py.ONone
            (returned (to_dictionary sheet_7_none_9_10 None false
                         (Some ["formula"; "python"]) " " false Py.ONone))
            "c0" "r1"
            (Py.ODict [("formula", Py.OStr "9"); ("python", Py.OStr "9");
                       ("value", Py.ONum 9); ("description", Py.ONone)])
            0 "excel" "formula" eq_refl eq_refl eq_refl eq_refl _ _ _ _).
  - intros k' Hk'. simpl in Hk'. assert (k' = 1) by lia. subst k'.
    discriminate.
  - discriminate.
  - discriminate.
  - discriminate.
Defined.

(** ** The numeric matrix encoder, effect by effect *)

(** X16: [to_numpy] reads the cells of the exported shape in row-major
    order, after the subset warning if there is one. When every number is
    within the range of a float64 it returns after it has read every cell
    exactly once, and the coercion warning, sent when a cell holds a value
    that is neither [None] nor a number, is its last effect, after the
    whole sheet has been read. When some number is out of that range the call raises
    [OverflowError] right after it has read the first such cell: the
    reads are a prefix of the full traversal, later cells are never read
    and no coercion warning is sent. *)
Theorem to_numpy_effects (self : Sheet) :
  if has_overflow self
  then to_numpy self
       = (subset_trace self ++ reads_until_overflow self,
          Raise OverflowError) /\
       exists unread,
         all_reads self = reads_until_overflow self ++ unread
  else exists a,
         to_numpy self
         = (subset_trace self ++ all_reads self
            ++ (if has_other_object self then [Warning coercion_warning]
                else []), Ok a).
Proof.
  pose proof (to_numpy_run self) as Hrun.
  destruct (has_overflow self).
  - split; [exact Hrun|apply reads_until_overflow_prefix].
  - destruct Hrun as [a [Hrun _]]. now exists a.
Qed.

(** ** The hypertext encoder *)

Lemma html_label_title_run (help : option (list string)) (i offset : nat) :
  match help with
  | Some help_text =>
      h <- orelse (Py.index help_text (Z.of_nat i + Z.of_nat offset))
             IndexError ;;
      ret (title_format h)
  | None => ret ""
  end
  = orelse (html_label_title help (i + offset)) IndexError.
Proof.
  unfold html_label_title. destruct help as [h|]; [|reflexivity].
  rewrite py_index_nat. now destruct (nth_error h (i + offset)).
Qed.

Lemma html_cell_title_run (ld : option string) (cell : Cell) :
  exists e, html_cell_title_attr ld cell = orelse (html_cell_title ld cell) e.
Proof.
  unfold html_cell_title_attr, html_cell_title.
  destruct (description cell); [exists IndexError; reflexivity|].
  destruct ld as [lang|]; [|exists IndexError; reflexivity].
  destruct (cell_type cell); [exists IndexError; reflexivity|].
  exists (KeyError lang).
  now destruct (Dict.get (constructing_words cell) lang).
Qed.

Lemma orelse_some (o : option string) (e : exn) :
  o <> None -> orelse o e = ret (or_empty o).
Proof. destruct o; [reflexivity|congruence]. Qed.

Lemma exported_labels_nth_default (sr : string) (labels : list string)
  (offset n i : nat) :
  n + offset <= List.length labels -> i < n ->
  nth i (exported_labels sr labels offset) ""
  = Py.replace_space sr (nth (i + offset) labels "").
Proof.
  intros Hn Hi. apply nth_error_nth.
  rewrite exported_labels_nth, (nth_error_nth' labels "") by lia.
  reflexivity.
Qed.

Lemma to_html_table_run (self : Sheet)
  (spaces_replacement top_right_corner_text na_rep : string)
  (language_for_description : option string) :
  labels_cover_shape self ->
  tooltips_available self language_for_description ->
  to_html_table self spaces_replacement top_right_corner_text na_rep
    language_for_description
  = (subset_trace self ++ all_reads self,
     Ok (html_table self spaces_replacement top_right_corner_text na_rep
           language_for_description)).
Proof.
  revert spaces_replacement top_right_corner_text na_rep
    language_for_description.
  intros sr corner na ld [Hr Hc] [Htc [Htr Htd]].
  unfold to_html_table, subset_trace.
  rewrite log_export_subset_warning_run, bind_run.
  rewrite py_range_minus_1. cbn [for_in]. unfold range.
  change (-1 =? -1)%Z with true. cbv iota.
  rewrite (for_in_append (fun _ => [])
             (fun c => html_th
                         (or_empty (html_label_title
                                      (columns_help_text (cell_indices self))
                                      (c + snd (export_offset self))))
                         (nth c (exported_column_labels self sr) ""))).
  2:{ intros c export Hc'. rewrite (py_index_covered _ _ _ _ Hc) by lia.
      cbn [orelse]. rewrite bind_ret_l.
      unfold html_column_title_attr. rewrite html_label_title_run.
      rewrite orelse_some by (apply Htc; lia). rewrite bind_ret_l.
      unfold html_th, exported_column_labels, ret.
      rewrite (exported_labels_nth_default sr _ _ _ _ Hc) by lia.
      rewrite ?append_assoc; reflexivity. }
  rewrite flat_map_nil, bind_run_ret, bind_run, for_in_map. cbn [app].
  rewrite (for_in_append (row_reads self) (html_data_row self sr na ld)).
  2:{ intros r export Hr'.
      replace (Z.of_nat r =? -1)%Z with false
        by (symmetry; apply Z.eqb_neq; lia).
      unfold html_row_title_attr. rewrite html_label_title_run.
      rewrite orelse_some by (apply Htr; lia). rewrite bind_ret_l.
      rewrite (py_index_covered _ _ _ _ Hr) by lia.
      cbn [orelse]. rewrite bind_ret_l.
      rewrite Nat2Z.id.
      rewrite (for_in_append (fun c => [GetCell r c])
                 (fun c => html_td
                             (or_empty (html_cell_title ld
                                          (_get_cell_at self r c)))
                             (value_text na
                                (value (_get_cell_at self r c))))).
      - rewrite bind_run_ret.
        unfold html_data_row, html_td, row_reads, exported_row_labels.
        rewrite (exported_labels_nth_default sr _ _ _ _ Hr) by lia.
        rewrite ?append_assoc; reflexivity.
      - intros c e Hc'. rewrite get_cell_at_run, bind_run. cbn [app].
        destruct (html_cell_title_run ld (_get_cell_at self r c))
          as [err ->].
        rewrite orelse_some by (apply Htd; lia). rewrite bind_ret_l.
        unfold html_td, ret. cbn [fst snd app].
        rewrite ?append_assoc; reflexivity. }
  cbn [fst snd]. rewrite bind_run_ret. f_equal. f_equal.
  unfold html_table, html_header_row. rewrite ?append_assoc; reflexivity.
Qed.

Lemma html_table_own_help (self : Sheet) (sr corner na : string)
  (ld : option string) :
  row_tooltips_at_labels self ->
  html_table self sr corner na ld
  = html_table_with_own_help self sr corner na ld.
Proof.
  intros Hrows. unfold html_table, html_table_with_own_help.
  do 2 f_equal. f_equal. f_equal. apply map_ext. intros r.
  unfold html_data_row, html_row_with_own_help.
  destruct Hrows as [Hnone|Hoff]; [now rewrite Hnone|now rewrite Hoff].
Qed.

(** X17: when the label lists reach as far as the exported shape, every
    tooltip the encoder looks for is there, and the rows have no help text
    or the two components of the export offset agree, [to_html_table]
    returns; it reads every cell once in row-major order and its text is a
    table of one header row (corner text, exported column labels) and one
    row per exported row (exported row label, values with [na_rep] for
    [None]), every label and value in an anchor. The tooltip of a label is
    the help text of its own row or column, at the index of the label in
    the sheet; that of a data cell is its description, else its phrase in
    the fallback language when it is a formula cell. *)
Theorem to_html_table_text (self : Sheet)
  (spaces_replacement top_right_corner_text na_rep : string)
  (language_for_description : option string) :
  labels_cover_shape self ->
  tooltips_available self language_for_description ->
  row_tooltips_at_labels self ->
  to_html_table self spaces_replacement top_right_corner_text na_rep
    language_for_description
  = (subset_trace self ++ all_reads self,
     Ok (html_table_with_own_help self spaces_replacement
           top_right_corner_text na_rep language_for_description)).
Proof.
  intros Hl Ht Hrows.
  rewrite (to_html_table_run self spaces_replacement top_right_corner_text
             na_rep language_for_description Hl Ht).
  now rewrite (html_table_own_help self _ _ _ _ Hrows).
Qed.

Lemma to_html_table_text_witness :
  let self := sheet_with_tooltips in
  to_html_table self "_" "Sheet" "" (Some "native")
  = (subset_trace self ++ all_reads self,
     Ok (html_table_with_own_help self "_" "Sheet" "" (Some "native"))) /\
  subset_trace self ++ all_reads self
  = [Warning subset_warning; GetCell 0 0; GetCell 0 1] /\
  exported_column_labels self "_" = ["c1"; "c2"] /\
  html_label_title (columns_help_text (cell_indices self))
    (0 + snd (export_offset self)) = Some (title_format "help c1") /\
  html_label_title (columns_help_text (cell_indices self))
    (1 + snd (export_offset self)) = Some (title_format "help c2") /\
  exported_row_labels self "_" = ["r1"] /\
  html_label_title (rows_help_text (cell_indices self))
    (0 + fst (export_offset self)) = Some (title_format "help r1") /\
  html_cell_title (Some "native") (_get_cell_at self 0 0)
  = Some (title_format "four") /\
  html_cell_title (Some "native") (_get_cell_at self 0 1)
  = Some (title_format "4*2").
Proof.
  split; [|repeat split; reflexivity].
  apply (to_html_table_text sheet_with_tooltips "_" "Sheet" ""
           (Some "native")).
  - unfold labels_cover_shape. simpl. lia.
  - repeat split.
    + intros c Hc. simpl in Hc.
      destruct c as [|[|c]]; [discriminate|discriminate|lia].
    + intros r Hr. simpl in Hr.
      destruct r as [|r]; [discriminate|lia].
    + intros r c _ Hc. simpl in Hc.
      destruct c as [|[|c]]; [discriminate|discriminate|lia].
  - right. reflexivity.
Defined.

(** * The sheet of cells ([src/spreadsheet.py]) *)

Lemma list_setitem_some {A} (l : list A) (i : nat) (x : A) :
  i < List.length l ->
  exists l', list_setitem l i x = Some l' /\
    List.length l' = List.length l /\
    nth_error l' i = Some x /\
    (forall k, k <> i -> nth_error l' k = nth_error l k) /\
    (forall y, In y l' -> y = x \/ In y l).
Proof.
  revert i. induction l as [|y rest IH]; intros i Hi; [simpl in Hi; lia|].
  destruct i as [|i'].
  - exists (x :: rest). cbn. repeat split; auto.
    + intros [|k] Hk; [congruence|reflexivity].
    + intros z [Hz|Hz]; auto.
  - destruct (IH i') as [rest' (Hset & Hlen & Hnth & Hother & Hin)];
      [simpl in Hi; lia|].
    exists (y :: rest'). cbn [list_setitem]. rewrite Hset.
    repeat split; cbn; auto.
    + intros [|k] Hk; [reflexivity|]. cbn. apply Hother. congruence.
    + intros z [Hz|Hz]; [right; left; exact Hz|].
      destruct (Hin z Hz); auto.
Qed.

Lemma list_setitem_none {A} (l : list A) (i : nat) (x : A) :
  List.length l <= i -> list_setitem l i x = None.
Proof.
  revert i. induction l as [|y rest IH]; intros i Hi; [reflexivity|].
  destruct i as [|i']; [simpl in Hi; lia|].
  cbn. rewrite IH; [reflexivity|simpl in Hi; lia].
Qed.

Lemma py_index_from_start {A} (l : list A) (i : Z) :
  (0 <= i)%Z -> Py.index l i = nth_error l (Z.to_nat i).
Proof.
  intros Hi. unfold Py.index.
  replace (i <? 0)%Z with false by (symmetry; apply Z.ltb_ge; lia).
  reflexivity.
Qed.

Lemma setitem_from_start {A} (l : list A) (i : Z) (x : A) :
  (0 <= i)%Z -> Spreadsheet.setitem l i x = list_setitem l (Z.to_nat i) x.
Proof.
  intros Hi. unfold Spreadsheet.setitem.
  replace (i <? 0)%Z with false by (symmetry; apply Z.ltb_ge; lia).
  reflexivity.
Qed.

Lemma py_index_outside {A} (l : list A) (i : Z) :
  (i < - Z.of_nat (List.length l) \/ Z.of_nat (List.length l) <= i)%Z ->
  Py.index l i = None.
Proof.
  intros Hi. unfold Py.index.
  destruct (Z.ltb_spec i 0).
  - destruct (Z.ltb_spec (i + Z.of_nat (List.length l)) 0); [reflexivity|lia].
  - apply nth_error_None. lia.
Qed.

Lemma setitem_outside {A} (l : list A) (i : Z) (x : A) :
  (i < - Z.of_nat (List.length l) \/ Z.of_nat (List.length l) <= i)%Z ->
  Spreadsheet.setitem l i x = None.
Proof.
  intros Hi. unfold Spreadsheet.setitem.
  destruct (Z.ltb_spec i 0).
  - destruct (Z.ltb_spec (i + Z.of_nat (List.length l)) 0); [reflexivity|lia].
  - apply list_setitem_none. lia.
Qed.

Lemma py_index_in {A} (l : list A) (i : Z) (x : A) :
  Py.index l i = Some x -> In x l.
Proof.
  unfold Py.index.
  destruct (i <? 0)%Z;
    [destruct (i + Z.of_nat (List.length l) <? 0)%Z; [discriminate|]|];
    apply nth_error_In.
Qed.

Lemma fold_append_const {A} (x : A) (l : list nat) (acc : list A) :
  fold_left (fun row (_ : nat) => row ++ [x]) l acc
  = acc ++ repeat x (List.length l).
Proof.
  revert acc. induction l as [|k l IH]; intros acc;
    [symmetry; apply app_nil_r|].
  cbn [fold_left List.length repeat]. rewrite IH, <- app_assoc. reflexivity.
Qed.

Lemma initialise_array_repeat (empty_cell : Cell) (ci : Spreadsheet.Indices) :
  Spreadsheet._initialise_array empty_cell ci
  = repeat (repeat empty_cell (snd (Spreadsheet.shape ci)))
      (fst (Spreadsheet.shape ci)).
Proof.
  unfold Spreadsheet._initialise_array. cbv zeta.
  rewrite fold_append_const. cbn [app]. unfold range.
  rewrite !length_seq. rewrite fold_append_const. cbn [app].
  rewrite length_seq. reflexivity.
Qed.

Lemma nth_error_repeat_lt {A} (x : A) (n i : nat) :
  i < n -> nth_error (repeat x n) i = Some x.
Proof.
  revert i. induction n as [|n IH]; intros i Hi; [lia|].
  destruct i as [|i]; [reflexivity|]. cbn. apply IH. lia.
Qed.

Lemma well_shaped_init (empty_cell : Cell) (ci : Spreadsheet.Indices) :
  Spreadsheet.well_shaped (Spreadsheet.init empty_cell ci).
Proof.
  unfold Spreadsheet.well_shaped, Spreadsheet.init.
  cbn [Spreadsheet._sheet Spreadsheet.cell_indices].
  rewrite initialise_array_repeat. split; [apply repeat_length|].
  apply Forall_forall. intros row Hrow.
  apply repeat_spec in Hrow. subst row. apply repeat_length.
Qed.

Lemma iloc_get_in_sheet (self : Spreadsheet.t) (index : Z * Z) :
  Spreadsheet.in_sheet self index ->
  forall row cell,
  nth_error (Spreadsheet._sheet self) (Z.to_nat (fst index)) = Some row ->
  nth_error row (Z.to_nat (snd index)) = Some cell ->
  Spreadsheet.iloc_get self index = ([], Ok (Some cell)).
Proof.
  intros [Hi Hj] row cell Hrow Hcell. destruct index as [i j].
  cbn [fst snd] in *.
  unfold Spreadsheet.iloc_get, Spreadsheet._get_item, Spreadsheet.resolve.
  rewrite bind_ret_l.
  rewrite (py_index_from_start _ i) by lia. rewrite Hrow.
  cbn [orelse]. rewrite bind_ret_l.
  rewrite (py_index_from_start _ j) by lia. rewrite Hcell.
  reflexivity.
Qed.

(** X18: A new spreadsheet has the rows and columns of its shape, and
    every position inside it holds the empty cell. *)
Theorem spreadsheet_init_holds_empty_cells (empty_cell : Cell)
  (ci : Spreadsheet.Indices) (index : Z * Z) :
  Spreadsheet.in_sheet (Spreadsheet.init empty_cell ci) index ->
  Spreadsheet.well_shaped (Spreadsheet.init empty_cell ci) /\
  Spreadsheet.iloc_get (Spreadsheet.init empty_cell ci) index
  = ([], Ok (Some empty_cell)).
Proof.
  intros Hin. split; [apply well_shaped_init|].
  pose proof Hin as [Hi Hj].
  cbn [Spreadsheet.init Spreadsheet.cell_indices] in Hi, Hj.
  apply (iloc_get_in_sheet _ _ Hin
           (repeat empty_cell (snd (Spreadsheet.shape ci)))).
  - cbn [Spreadsheet.init Spreadsheet._sheet].
    rewrite initialise_array_repeat. apply nth_error_repeat_lt. lia.
  - apply nth_error_repeat_lt. lia.
Qed.

Lemma spreadsheet_init_holds_empty_cells_witness :
  Spreadsheet.in_sheet script_sheet (1, 2)%Z /\
  (Spreadsheet.well_shaped script_sheet /\
   Spreadsheet.iloc_get script_sheet (1, 2)%Z
   = ([], Ok (Some (plain_cell Py.SNone)))).
Proof.
  assert (Hin : Spreadsheet.in_sheet script_sheet (1, 2)%Z)
    by (unfold Spreadsheet.in_sheet; cbn; lia).
  split; [exact Hin|].
  exact (spreadsheet_init_holds_empty_cells (plain_cell Py.SNone)
           script_indices (1, 2)%Z Hin).
Defined.

Lemma well_shaped_row (self : Spreadsheet.t) (i : nat) :
  Spreadsheet.well_shaped self ->
  i < fst (Spreadsheet.shape (Spreadsheet.cell_indices self)) ->
  exists row, nth_error (Spreadsheet._sheet self) i = Some row /\
    List.length row = snd (Spreadsheet.shape (Spreadsheet.cell_indices self)).
Proof.
  intros [Hlen Hrows] Hi.
  destruct (nth_error (Spreadsheet._sheet self) i) as [row|] eqn:Hrow.
  - exists row. split; [reflexivity|].
    rewrite Forall_forall in Hrows. apply Hrows.
    now apply nth_error_In with i.
  - apply nth_error_None in Hrow. lia.
Qed.

Lemma well_shaped_cell (self : Spreadsheet.t) (i j : nat) :
  Spreadsheet.well_shaped self ->
  i < fst (Spreadsheet.shape (Spreadsheet.cell_indices self)) ->
  j < snd (Spreadsheet.shape (Spreadsheet.cell_indices self)) ->
  exists row cell, nth_error (Spreadsheet._sheet self) i = Some row /\
    List.length row = snd (Spreadsheet.shape (Spreadsheet.cell_indices self)) /\
    nth_error row j = Some cell.
Proof.
  intros Hws Hi Hj. destruct (well_shaped_row self i Hws Hi) as [row [Hrow Hlen]].
  destruct (nth_error row j) as [cell|] eqn:Hcell.
  - exists row, cell. auto.
  - apply nth_error_None in Hcell. lia.
Qed.

(** X19: On a sheet with the rows and columns of its shape, an assignment
    at an integer index inside the sheet succeeds without any effect, keeps
    the indices and the shape, makes the position hold the assigned cell
    (or the cell built around the assigned value), and leaves every other
    position as it was. *)
Theorem spreadsheet_iloc_set_then_get
  (value_cell : Z -> Z -> Py.scalar -> Cell) (self : Spreadsheet.t)
  (index : Z * Z) (val : Spreadsheet.item) :
  Spreadsheet.well_shaped self ->
  Spreadsheet.in_sheet self index ->
  exists self',
    Spreadsheet.iloc_set value_cell self index val = ([], Ok self') /\
    Spreadsheet.cell_indices self' = Spreadsheet.cell_indices self /\
    Spreadsheet.well_shaped self' /\
    Spreadsheet.iloc_get self' index
    = ([], Ok (Some (Spreadsheet.stored value_cell (fst index) (snd index)
                       val))) /\
    forall other, Spreadsheet.in_sheet self other -> other <> index ->
      Spreadsheet.iloc_get self' other = Spreadsheet.iloc_get self other.
Proof.
  intros Hws Hin. pose proof Hin as [Hi Hj]. destruct index as [i j].
  cbn [fst snd] in *.
  destruct (well_shaped_cell self (Z.to_nat i) (Z.to_nat j) Hws)
    as [row [cell (Hrow & Hlen & Hcell)]]; [lia|lia|].
  set (new := Spreadsheet.stored value_cell i j val).
  destruct (list_setitem_some row (Z.to_nat j) new)
    as [row' (Hset & Hlen' & Hnew & Hkeep & _)]; [lia|].
  destruct Hws as [Hrows Hall].
  destruct (list_setitem_some (Spreadsheet._sheet self) (Z.to_nat i) row')
    as [sheet' (Hset2 & Hlen2 & Hnew2 & Hkeep2 & Hin2)]; [lia|].
  exists {| Spreadsheet.cell_indices := Spreadsheet.cell_indices self;
            Spreadsheet._sheet := sheet' |}.
  assert (Hws' : Spreadsheet.well_shaped
            {| Spreadsheet.cell_indices := Spreadsheet.cell_indices self;
               Spreadsheet._sheet := sheet' |}).
  { split; cbn [Spreadsheet._sheet Spreadsheet.cell_indices]; [lia|].
    apply Forall_forall. intros r Hr. destruct (Hin2 r Hr) as [->|Hold].
    - lia.
    - rewrite Forall_forall in Hall. now apply Hall. }
  split; [|split; [reflexivity|split; [exact Hws'|split]]].
  - unfold Spreadsheet.iloc_set, Spreadsheet._set_item, Spreadsheet.resolve.
    rewrite bind_ret_l.
    rewrite (py_index_from_start _ i) by lia. rewrite Hrow.
    cbn [orelse]. rewrite bind_ret_l.
    rewrite (setitem_from_start _ j) by lia.
    fold (Spreadsheet.stored value_cell i j val). fold new. rewrite Hset.
    cbn [orelse]. rewrite bind_ret_l.
    rewrite (setitem_from_start _ i) by lia. rewrite Hset2.
    reflexivity.
  - apply (iloc_get_in_sheet _ (i, j)) with (row := row').
    + exact Hin.
    + exact Hnew2.
    + exact Hnew.
  - intros [i' j'] Hother Hne. pose proof Hother as [Hi' Hj'].
    cbn [fst snd] in Hi', Hj'.
    destruct (well_shaped_cell self (Z.to_nat i') (Z.to_nat j')
                (conj Hrows Hall))
      as [orow [ocell (Horow & Holen & Hocell)]]; [lia|lia|].
    rewrite (iloc_get_in_sheet self (i', j') Hother orow ocell Horow Hocell).
    destruct (Nat.eq_dec (Z.to_nat i') (Z.to_nat i)) as [Hsame|Hdiff].
    + assert (Hjne : Z.to_nat j' <> Z.to_nat j).
      { intros Heq. apply Hne. f_equal; lia. }
      rewrite Hsame, Hrow in Horow. injection Horow as <-.
      apply (iloc_get_in_sheet _ (i', j')) with (row := row').
      * exact Hother.
      * cbn [fst Spreadsheet._sheet]. rewrite Hsame. exact Hnew2.
      * cbn [snd]. rewrite (Hkeep _ Hjne). exact Hocell.
    + apply (iloc_get_in_sheet _ (i', j')) with (row := orow).
      * exact Hother.
      * cbn [fst Spreadsheet._sheet]. rewrite (Hkeep2 _ Hdiff). exact Horow.
      * exact Hocell.
Qed.

Lemma spreadsheet_iloc_set_then_get_witness :
  Spreadsheet.well_shaped script_sheet /\
  Spreadsheet.in_sheet script_sheet (0, 1)%Z /\
  exists self',
    Spreadsheet.iloc_set script_value_cell script_sheet (0, 1)%Z
      (Spreadsheet.ItemValue (Py.SNum 7)) = ([], Ok self') /\
    Spreadsheet.cell_indices self' = Spreadsheet.cell_indices script_sheet /\
    Spreadsheet.well_shaped self' /\
    Spreadsheet.iloc_get self' (0, 1)%Z
    = ([], Ok (Some (plain_cell (Py.SNum 7)))) /\
    forall other, Spreadsheet.in_sheet script_sheet other ->
      other <> (0, 1)%Z ->
      Spreadsheet.iloc_get self' other
      = Spreadsheet.iloc_get script_sheet other.
Proof.
  assert (Hws : Spreadsheet.well_shaped script_sheet)
    by apply well_shaped_init.
  assert (Hin : Spreadsheet.in_sheet script_sheet (0, 1)%Z)
    by (unfold Spreadsheet.in_sheet; cbn; lia).
  split; [exact Hws|split; [exact Hin|]].
  exact (spreadsheet_iloc_set_then_get script_value_cell script_sheet
           (0, 1)%Z (Spreadsheet.ItemValue (Py.SNum 7)) Hws Hin).
Defined.

(** X20: On a sheet with the rows and columns of its shape, reading or
    assigning at an integer index that lies beyond the sheet, from either
    end, raises [IndexError] without any effect. *)
Theorem spreadsheet_iloc_raises_out_of_sheet
  (value_cell : Z -> Z -> Py.scalar -> Cell) (self : Spreadsheet.t)
  (index : Z * Z) (val : Spreadsheet.item) :
  Spreadsheet.well_shaped self ->
  Spreadsheet.out_of_sheet self index ->
  Spreadsheet.iloc_get self index = ([], Raise IndexError) /\
  Spreadsheet.iloc_set value_cell self index val = ([], Raise IndexError).
Proof.
  intros [Hrows Hall] Hout. destruct index as [i j].
  unfold Spreadsheet.out_of_sheet in Hout. cbn [fst snd] in Hout.
  unfold Spreadsheet.iloc_get, Spreadsheet.iloc_set, Spreadsheet._get_item,
    Spreadsheet._set_item, Spreadsheet.resolve.
  rewrite !bind_ret_l.
  destruct (Py.index (Spreadsheet._sheet self) i) as [row|] eqn:Hrow.
  - assert (Hlen : List.length row
              = snd (Spreadsheet.shape (Spreadsheet.cell_indices self))).
    { rewrite Forall_forall in Hall. apply Hall.
      now apply py_index_in with i. }
    assert (Hj : (j < - Z.of_nat (List.length row)
                  \/ Z.of_nat (List.length row) <= j)%Z).
    { destruct Hout as [Hout|[Hout|[Hout|Hout]]]; try lia;
        rewrite py_index_outside in Hrow by lia; discriminate. }
    cbn [orelse]. rewrite !bind_ret_l.
    rewrite (py_index_outside row j Hj), (setitem_outside row j _ Hj).
    split; reflexivity.
  - split; reflexivity.
Qed.

Lemma spreadsheet_iloc_raises_out_of_sheet_witness :
  Spreadsheet.well_shaped script_sheet /\
  Spreadsheet.out_of_sheet script_sheet (-1, 6)%Z /\
  Spreadsheet.iloc_get script_sheet (-1, 6)%Z = ([], Raise IndexError) /\
  Spreadsheet.iloc_set script_value_cell script_sheet (-1, 6)%Z
    (Spreadsheet.ItemValue (Py.SNum 7)) = ([], Raise IndexError).
Proof.
  assert (Hws : Spreadsheet.well_shaped script_sheet)
    by apply well_shaped_init.
  assert (Hout : Spreadsheet.out_of_sheet script_sheet (-1, 6)%Z)
    by (unfold Spreadsheet.out_of_sheet; cbn; lia).
  split; [exact Hws|split; [exact Hout|]].
  exact (spreadsheet_iloc_raises_out_of_sheet script_value_cell script_sheet
           (-1, 6)%Z (Spreadsheet.ItemValue (Py.SNum 7)) Hws Hout).
Defined.

Lemma list_index_absent (l : list string) (x : string) :
  ~ In x l -> Spreadsheet.list_index l x = None.
Proof.
  induction l as [|y rest IH]; intros Hx; [reflexivity|].
  cbn. destruct (String.eqb_spec y x) as [->|_].
  - exfalso. apply Hx. now left.
  - rewrite IH; [reflexivity|]. intros Hin. apply Hx. now right.
Qed.

Lemma list_index_distinct (l : list string) (i : nat) (x : string) :
  NoDup l -> nth_error l i = Some x -> Spreadsheet.list_index l x = Some i.
Proof.
  revert i. induction l as [|y rest IH]; intros i Hnd Hi;
    [destruct i; discriminate|].
  inversion Hnd as [|? ? Hy Hrest]; subst.
  destruct i as [|i]; cbn in Hi |- *.
  - injection Hi as ->. now rewrite String.eqb_refl.
  - destruct (String.eqb_spec y x) as [->|_].
    + exfalso. apply Hy. now apply nth_error_In with i.
    + now rewrite (IH i Hrest Hi).
Qed.

(** X21: Addressing by nicknames looks both names up among the nicknames
    of the rows: a second name that is not a row nickname makes reading and
    assigning raise [ValueError] without any effect, whether or not it is a
    column nickname. *)
Theorem spreadsheet_loc_rejects_name_outside_row_nicknames
  (value_cell : Z -> Z -> Py.scalar -> Cell) (self : Spreadsheet.t)
  (a b : string) (val : Spreadsheet.item) :
  ~ In b (Spreadsheet.rows_nicknames (Spreadsheet.cell_indices self)) ->
  exists msg,
    Spreadsheet.loc_get self (a, b) = ([], Raise (ValueError msg)) /\
    Spreadsheet.loc_set value_cell self (a, b) val
    = ([], Raise (ValueError msg)).
Proof.
  intros Hb.
  unfold Spreadsheet.loc_get, Spreadsheet.loc_set, Spreadsheet._get_item,
    Spreadsheet._set_item, Spreadsheet.resolve.
  rewrite (list_index_absent _ b Hb).
  destruct (Spreadsheet.list_index _ a) as [x|].
  - eexists. split; reflexivity.
  - eexists. split; reflexivity.
Qed.

Lemma spreadsheet_loc_rejects_name_outside_row_nicknames_witness :
  In "col_b" (Spreadsheet.columns_nicknames
                (Spreadsheet.cell_indices script_sheet)) /\
  exists msg,
    Spreadsheet.loc_get script_sheet ("row_a", "col_b")
    = ([], Raise (ValueError msg)) /\
    Spreadsheet.loc_set script_value_cell script_sheet ("row_a", "col_b")
      (Spreadsheet.ItemValue (Py.SNum 7)) = ([], Raise (ValueError msg)).
Proof.
  split; [cbn; tauto|].
  apply (spreadsheet_loc_rejects_name_outside_row_nicknames
           script_value_cell script_sheet "row_a" "col_b"
           (Spreadsheet.ItemValue (Py.SNum 7))).
  cbn. intros H. repeat (destruct H as [H|H]; [discriminate H|]). exact H.
Defined.

(** X22: With distinct row nicknames, addressing by the nicknames found at
    positions [x] and [y] of the row nicknames reads and assigns the cell
    at integer index [(x, y)]: the second name selects the column by its
    position among the rows. *)
Theorem spreadsheet_loc_is_iloc_at_row_positions
  (value_cell : Z -> Z -> Py.scalar -> Cell) (self : Spreadsheet.t)
  (a b : string) (x y : nat) (val : Spreadsheet.item) :
  NoDup (Spreadsheet.rows_nicknames (Spreadsheet.cell_indices self)) ->
  nth_error (Spreadsheet.rows_nicknames (Spreadsheet.cell_indices self)) x
  = Some a ->
  nth_error (Spreadsheet.rows_nicknames (Spreadsheet.cell_indices self)) y
  = Some b ->
  Spreadsheet.loc_get self (a, b)
  = Spreadsheet.iloc_get self (Z.of_nat x, Z.of_nat y) /\
  Spreadsheet.loc_set value_cell self (a, b) val
  = Spreadsheet.iloc_set value_cell self (Z.of_nat x, Z.of_nat y) val.
Proof.
  intros Hnd Ha Hb.
  unfold Spreadsheet.loc_get, Spreadsheet.loc_set, Spreadsheet.iloc_get,
    Spreadsheet.iloc_set, Spreadsheet._get_item, Spreadsheet._set_item,
    Spreadsheet.resolve.
  rewrite (list_index_distinct _ x a Hnd Ha),
    (list_index_distinct _ y b Hnd Hb).
  cbn [orelse]. rewrite !bind_ret_l. split; reflexivity.
Qed.

Lemma spreadsheet_loc_is_iloc_at_row_positions_witness :
  Spreadsheet.loc_get script_sheet ("row_ab", "row_ad")
  = Spreadsheet.iloc_get script_sheet (1, 3)%Z /\
  Spreadsheet.loc_set script_value_cell script_sheet ("row_ab", "row_ad")
    (Spreadsheet.ItemValue (Py.SNum 7))
  = Spreadsheet.iloc_set script_value_cell script_sheet (1, 3)%Z
      (Spreadsheet.ItemValue (Py.SNum 7)).
Proof.
  apply (spreadsheet_loc_is_iloc_at_row_positions script_value_cell
           script_sheet "row_ab" "row_ad" 1 3
           (Spreadsheet.ItemValue (Py.SNum 7))).
  - cbn. repeat constructor; cbn; intros H;
      repeat (destruct H as [H|H]; [discriminate H|]); exact H.
  - reflexivity.
  - reflexivity.
Defined.

(** ** The encoders of the sheet of cells *)

Lemma iloc_get_is_iloc_cell (self : Spreadsheet.t) (r c : nat) :
  Spreadsheet.iloc_get self (Z.of_nat r, Z.of_nat c)
  = mmap Some (Spreadsheet.iloc_cell self r c).
Proof.
  unfold Spreadsheet.iloc_get, Spreadsheet._get_item, Spreadsheet.resolve,
    Spreadsheet.iloc_cell.
  rewrite bind_ret_l.
  destruct (Py.index (Spreadsheet._sheet self) (Z.of_nat r)) as [row|];
    [|reflexivity].
  cbn [orelse]. rewrite !bind_ret_l.
  destruct (Py.index row (Z.of_nat c)); reflexivity.
Qed.

Lemma iloc_cell_run (self : Spreadsheet.t) (r c : nat) :
  Spreadsheet.well_shaped self ->
  r < fst (Spreadsheet.shape (Spreadsheet.cell_indices self)) ->
  c < snd (Spreadsheet.shape (Spreadsheet.cell_indices self)) ->
  exists row cell,
    In row (Spreadsheet._sheet self) /\ In cell row /\
    Spreadsheet.cell_at_position self r c = Some cell /\
    Spreadsheet.iloc_cell self r c = ([], Ok cell).
Proof.
  intros Hws Hr Hc.
  destruct (well_shaped_cell self r c Hws Hr Hc)
    as [row [cell (Hrow & Hlen & Hcell)]].
  exists row, cell. split; [now apply nth_error_In with r|].
  split; [now apply nth_error_In with c|].
  unfold Spreadsheet.cell_at_position, Spreadsheet.iloc_cell.
  rewrite Hrow. split; [exact Hcell|].
  rewrite (py_index_from_start _ (Z.of_nat r)) by lia.
  rewrite Nat2Z.id, Hrow. cbn [orelse]. rewrite bind_ret_l.
  rewrite (py_index_from_start _ (Z.of_nat c)) by lia.
  rewrite Nat2Z.id, Hcell. reflexivity.
Qed.

Lemma list_by_position {A B} (f : A -> B) (l : list A) (d : B) :
  map f l
  = map (fun i => match nth_error l i with Some x => f x | None => d end)
      (seq 0 (List.length l)).
Proof.
  induction l as [|x l IH]; [reflexivity|].
  cbn [map List.length seq nth_error]. f_equal.
  rewrite <- seq_shift, map_map. exact IH.
Qed.

Lemma values_by_position (self : Spreadsheet.t) :
  Spreadsheet.well_shaped self ->
  Spreadsheet.values self
  = map (fun r => map (Spreadsheet.value_at self r)
                    (seq 0 (snd (Spreadsheet.shape
                                   (Spreadsheet.cell_indices self)))))
      (seq 0 (fst (Spreadsheet.shape (Spreadsheet.cell_indices self)))).
Proof.
  intros [Hrows Hall]. unfold Spreadsheet.values.
  rewrite (list_by_position (map value) (Spreadsheet._sheet self) []).
  rewrite Hrows. apply map_ext_in. intros r Hr.
  apply in_seq in Hr.
  unfold Spreadsheet.value_at, Spreadsheet.cell_at_position.
  destruct (nth_error (Spreadsheet._sheet self) r) as [row|] eqn:Hrow.
  - rewrite (list_by_position value row Py.SNone).
    rewrite Forall_forall in Hall.
    rewrite (Hall row) by now apply nth_error_In with r.
    reflexivity.
  - apply nth_error_None in Hrow. lia.
Qed.

(** X23: On a sheet with the rows and columns of its shape,
    [values_to_string] returns, without any effect, the text of the values
    of the cells: the rows between brackets, values separated by a comma
    and a space, rows by a comma and a line feed, [None] spelt None. *)
Theorem spreadsheet_values_to_string_renders_values (self : Spreadsheet.t) :
  Spreadsheet.well_shaped self ->
  Spreadsheet.values_to_string self
  = ([], Ok (render_table (Spreadsheet.values self))).
Proof.
  intros Hws. rewrite (values_by_position self Hws).
  unfold Spreadsheet.values_to_string, range.
  set (rows := fst (Spreadsheet.shape (Spreadsheet.cell_indices self))).
  set (cols := snd (Spreadsheet.shape (Spreadsheet.cell_indices self))).
  rewrite (for_in_join (fun _ => [])
             (fun r => render_row (map (Spreadsheet.value_at self r)
                                     (seq 0 cols)))
             ("," ^^ Py.newline) _ (Z.of_nat rows - 1)).
  - rewrite flat_map_nil, bind_run_ret. unfold render_table.
    now rewrite append_assoc, map_map.
  - lia.
  - intros r export Hr.
    rewrite (for_in_join (fun _ => [])
               (fun c => Py.str (Spreadsheet.value_at self r c))
               ", " _ (Z.of_nat cols - 1)).
    + rewrite flat_map_nil, bind_run_ret. unfold render_row.
      rewrite map_map. now rewrite !append_assoc.
    + lia.
    + intros c e Hc.
      destruct (iloc_cell_run self r c Hws) as [row [cell (_ & _ & Hat & Hrun)]];
        [lia|lia|].
      rewrite Hrun, bind_run_ret. unfold Spreadsheet.value_at.
      rewrite Hat. reflexivity.
Qed.

Lemma well_shaped_small_sheet : Spreadsheet.well_shaped small_sheet.
Proof. split; [reflexivity|]. repeat constructor. Qed.

Lemma spreadsheet_values_to_string_renders_values_witness :
  Spreadsheet.well_shaped small_sheet /\
  Spreadsheet.values_to_string small_sheet
  = ([], Ok (render_table (Spreadsheet.values small_sheet))).
Proof.
  split; [exact well_shaped_small_sheet|].
  exact (spreadsheet_values_to_string_renders_values small_sheet
           well_shaped_small_sheet).
Defined.

Lemma for_each_run {X} (T : X -> list event) (l : list X)
  (body : X -> M unit) :
  (forall x, In x l -> body x = (T x, Ok tt)) ->
  for_each l body = (flat_map T l, Ok tt).
Proof.
  unfold for_each. induction l as [|x l IH]; intros Hbody; [reflexivity|].
  cbn [for_in flat_map]. rewrite (Hbody x) by now left.
  rewrite bind_run, IH by (intros y Hy; apply Hbody; now right).
  reflexivity.
Qed.

Lemma spreadsheet_excel_cell_run (self : Spreadsheet.t) (xlsx : library)
  (r c : nat) :
  accepts_all xlsx ->
  Spreadsheet.well_shaped self ->
  Spreadsheet.formulas_for_excel self ->
  r < fst (Spreadsheet.shape (Spreadsheet.cell_indices self)) ->
  c < snd (Spreadsheet.shape (Spreadsheet.cell_indices self)) ->
  Spreadsheet.excel_cell self xlsx r c
  = (Spreadsheet.written self r c, Ok tt).
Proof.
  intros Hall Hws Hf Hr Hc. unfold Spreadsheet.excel_cell.
  destruct (iloc_cell_run self r c Hws Hr Hc)
    as [row [cell (Hrow & Hcell & Hat & Hrun)]].
  rewrite Hrun. change (@pair (list event) (result Cell) [] (Ok cell)) with (ret cell).
  rewrite bind_ret_l. unfold Spreadsheet.written. rewrite Hat.
  destruct (Py.is_none (value cell)) eqn:Hnone; [reflexivity|].
  cbn [negb]. destruct (cell_type cell) eqn:Hty;
    [now rewrite (xlsx_call_accepts xlsx _ Hall)|].
  specialize (Hf row cell Hrow Hcell Hnone Hty).
  destruct (Dict.get (parse cell) "excel") as [formula|]; [|congruence].
  cbn [orelse]. rewrite bind_ret_l.
  now rewrite (xlsx_call_accepts xlsx _ Hall).
Qed.

Lemma spreadsheet_to_excel_accepted (self : Spreadsheet.t)
  (xlsx : library) (file_path : string) (sheet_name : Py.scalar) :
  accepts_all xlsx ->
  Spreadsheet.well_shaped self ->
  Spreadsheet.formulas_for_excel self ->
  ends_in_xlsx file_path -> nonempty_str sheet_name ->
  Spreadsheet.to_excel self xlsx file_path sheet_name
  = ([WorkbookOpen file_path; AddWorksheet WsResults (Py.str sheet_name)]
     ++ flat_map (fun r =>
          flat_map (Spreadsheet.written self r)
            (seq 0 (snd (Spreadsheet.shape (Spreadsheet.cell_indices self)))))
          (seq 0 (fst (Spreadsheet.shape (Spreadsheet.cell_indices self))))
     ++ [WorkbookClose], Ok tt).
Proof.
  intros Hall Hws Hf Hpath Hname. unfold Spreadsheet.to_excel.
  apply bad_suffix_spec in Hpath. apply bad_sheet_name_spec in Hname.
  rewrite Hpath, Hname. rewrite !(xlsx_call_accepts xlsx _ Hall).
  rewrite !bind_emit_run.
  unfold Spreadsheet.sheet_shape, range. cbn [fst snd].
  rewrite (for_each_run (fun r =>
             flat_map (Spreadsheet.written self r)
               (seq 0 (snd (Spreadsheet.shape
                              (Spreadsheet.cell_indices self)))))).
  - rewrite bind_run. reflexivity.
  - intros r Hr. apply in_seq in Hr.
    apply for_each_run. intros c Hc. apply in_seq in Hc.
    apply spreadsheet_excel_cell_run; auto; lia.
Qed.

(** X24: For a path that ends in .xlsx and a non-empty sheet name, on a
    sheet with the rows and columns of its shape whose computed cells have
    a formula for the workbook, and when the workbook writer carries out
    the calls listed next, the [to_excel] of the sheet of cells returns
    after it has opened the workbook, added the worksheet, written the
    cells that have a value in row-major order at their own position,
    without labels and without a format, and closed the workbook. *)
Theorem spreadsheet_to_excel_writes_cells (self : Spreadsheet.t)
  (xlsx : library) (file_path : string) (sheet_name : Py.scalar) :
  let calls :=
    [WorkbookOpen file_path; AddWorksheet WsResults (Py.str sheet_name)]
    ++ flat_map (fun r =>
         flat_map (Spreadsheet.written self r)
           (seq 0 (snd (Spreadsheet.shape (Spreadsheet.cell_indices self)))))
         (seq 0 (fst (Spreadsheet.shape (Spreadsheet.cell_indices self))))
    ++ [WorkbookClose] in
  accepts xlsx calls ->
  Spreadsheet.well_shaped self ->
  Spreadsheet.formulas_for_excel self ->
  ends_in_xlsx file_path -> nonempty_str sheet_name ->
  Spreadsheet.to_excel self xlsx file_path sheet_name = (calls, Ok tt).
Proof.
  intros calls Hacc Hws Hf Hpath Hname.
  pose proof (spreadsheet_to_excel_accepted self xlsx_accepts file_path
                sheet_name accepts_all_accepts Hws Hf Hpath Hname) as Hrun.
  fold calls in Hrun. rewrite <- Hrun.
  apply spreadsheet_to_excel_follows. now rewrite Hrun.
Qed.

Lemma spreadsheet_to_excel_writes_cells_witness :
  accepts xlsx_checks_names
    [WorkbookOpen "excel.xlsx"; AddWorksheet WsResults "Results";
     Write WsResults 0 0 (Py.SNum 7) None;
     Write WsResults 1 0 (Py.SNum 9) None;
     Write WsResults 1 1 (Py.SNum 10) None;
     WorkbookClose] /\
  Spreadsheet.to_excel small_sheet xlsx_checks_names "excel.xlsx"
    (Py.SStr "Results")
  = ([WorkbookOpen "excel.xlsx"; AddWorksheet WsResults "Results";
      Write WsResults 0 0 (Py.SNum 7) None;
      Write WsResults 1 0 (Py.SNum 9) None;
      Write WsResults 1 1 (Py.SNum 10) None;
      WorkbookClose], Ok tt).
Proof.
  assert (Hacc : accepts xlsx_checks_names
            [WorkbookOpen "excel.xlsx"; AddWorksheet WsResults "Results";
             Write WsResults 0 0 (Py.SNum 7) None;
             Write WsResults 1 0 (Py.SNum 9) None;
             Write WsResults 1 1 (Py.SNum 10) None;
             WorkbookClose]).
  { intros e He _. cbn in He.
    repeat (destruct He as [<-|He]; [reflexivity|]). destruct He. }
  split; [exact Hacc|].
  apply (spreadsheet_to_excel_writes_cells small_sheet xlsx_checks_names
           "excel.xlsx" (Py.SStr "Results")).
  - exact Hacc.
  - exact well_shaped_small_sheet.
  - intros row cell Hrow Hcell _ Hty. exfalso.
    cbn in Hrow.
    destruct Hrow as [<-|[<-|[]]]; cbn in Hcell;
      destruct Hcell as [<-|[<-|[]]]; discriminate Hty.
  - exists "excel". reflexivity.
  - exists "Results". split; [reflexivity|discriminate].
Defined.

Lemma spreadsheet_language_loop_total (lu ls : list string) (cell : Cell) :
  List.length lu = List.length ls ->
  (forall lang, In lang ls -> Dict.get (parse cell) lang <> None) ->
  exists p,
    for_in (enumerate ls)
      (fun '(i, language) pseudolang_and_val =>
         text <- orelse (Dict.get (parse cell) language)
                   (KeyError language) ;;
         name <- orelse (nth_error lu i) IndexError ;;
         ret (Dict.set pseudolang_and_val name (Py.OStr text)))%py
      Dict.empty = ([], Ok p).
Proof.
  intros Hlen Hspeak. apply for_in_quiet_total.
  intros [i lang] d Hin. apply in_enumerate in Hin as [Hi Hlang].
  destruct (Dict.get (parse cell) lang) as [text|] eqn:Htext;
    [|now apply Hspeak in Hlang].
  destruct (nth_error lu i) as [name|] eqn:Hname;
    [|apply nth_error_None in Hname; lia].
  eexists. reflexivity.
Qed.

Lemma iloc_cell_met (self : Spreadsheet.t) (by_row : bool) (i j : nat) :
  Spreadsheet.well_shaped self ->
  (if by_row then i else j)
    < fst (Spreadsheet.shape (Spreadsheet.cell_indices self)) ->
  (if by_row then j else i)
    < snd (Spreadsheet.shape (Spreadsheet.cell_indices self)) ->
  exists row cell,
    In row (Spreadsheet._sheet self) /\ In cell row /\
    Spreadsheet.cell_met self by_row i j = Some cell /\
    (if by_row then Spreadsheet.iloc_cell self i j
     else Spreadsheet.iloc_cell self j i) = ret cell.
Proof.
  intros Hws Hr Hc. unfold Spreadsheet.cell_met.
  destruct by_row; apply iloc_cell_run; assumption.
Qed.

(** What a turn of the inner loop does to the dictionary it fills. *)
Lemma spreadsheet_dictionary_cell_run (self : Spreadsheet.t) (by_row : bool)
  (ls lu y : list string) (i j : nat) (acc : Dict.t Py.obj) :
  Spreadsheet.well_shaped self ->
  List.length lu = List.length ls ->
  Spreadsheet.cells_speak self ls ->
  (if by_row then i else j)
    < fst (Spreadsheet.shape (Spreadsheet.cell_indices self)) ->
  (if by_row then j else i)
    < snd (Spreadsheet.shape (Spreadsheet.cell_indices self)) ->
  j < List.length y ->
  exists acc',
    Spreadsheet.to_dictionary_cell self by_row ls lu y i j acc
    = ([], Ok acc') /\
    match Spreadsheet.inner_key self by_row y i j with
    | Some k => exists rec, Spreadsheet.record_of self by_row i j rec /\
                  acc' = Dict.set acc k rec
    | None => acc' = acc
    end.
Proof.
  intros Hws Hlen Hspeak Hr Hc Hj.
  destruct (iloc_cell_met self by_row i j Hws Hr Hc)
    as [row [cell (Hrow & Hcell & Hmet & Hrun)]].
  unfold Spreadsheet.to_dictionary_cell, Spreadsheet.inner_key.
  rewrite Hrun, bind_ret_l, Hmet.
  destruct (Py.is_none (value cell)) eqn:Hnone.
  - exists acc. split; reflexivity.
  - destruct (spreadsheet_language_loop_total lu ls cell Hlen) as [p Hp].
    { intros lang Hlang. now apply (Hspeak row cell lang). }
    cbv zeta. rewrite Hp, bind_run. cbn [fst snd app].
    destruct (nth_error y j) as [label|] eqn:Hlabel;
      [|apply nth_error_None in Hlabel; lia].
    eexists. split; [reflexivity|].
    eexists. split; [|reflexivity].
    exists cell. split; [exact Hmet|].
    cbn [obj_get]. rewrite dict_get_set. reflexivity.
Qed.

(** The inner loop returns, and what it returns holds one record per key. *)
Lemma spreadsheet_dictionary_line_run (self : Spreadsheet.t) (by_row : bool)
  (ls lu y : list string) (yr i : nat) :
  Spreadsheet.well_shaped self ->
  List.length lu = List.length ls ->
  Spreadsheet.cells_speak self ls ->
  (forall j, j < yr ->
     (if by_row then i else j)
       < fst (Spreadsheet.shape (Spreadsheet.cell_indices self)) /\
     (if by_row then j else i)
       < snd (Spreadsheet.shape (Spreadsheet.cell_indices self))) ->
  yr <= List.length y ->
  exists inner,
    for_in (range yr) (Spreadsheet.to_dictionary_cell self by_row ls lu y i)
      Dict.empty = ([], Ok inner) /\
    Spreadsheet.line_of self by_row y yr i (Py.ODict inner).
Proof.
  intros Hws Hlen Hspeak Hin Hy.
  assert (Hturn : forall j acc, j < yr ->
            exists acc',
              Spreadsheet.to_dictionary_cell self by_row ls lu y i j acc
              = ([], Ok acc') /\
              match Spreadsheet.inner_key self by_row y i j with
              | Some k => exists rec,
                    Spreadsheet.record_of self by_row i j rec /\
                    acc' = Dict.set acc k rec
              | None => acc' = acc
              end).
  { intros j acc Hj. destruct (Hin j Hj) as [Hr Hc].
    apply spreadsheet_dictionary_cell_run; auto. lia. }
  destruct (for_in_quiet_total (range yr)
              (Spreadsheet.to_dictionary_cell self by_row ls lu y i)
              Dict.empty) as [inner Hinner].
  { intros j acc Hj. apply in_seq in Hj.
    destruct (Hturn j acc) as [acc' [Hrun _]]; [lia|]. eauto. }
  exists inner. split; [exact Hinner|].
  destruct (dict_loop_spec
              (Spreadsheet.to_dictionary_cell self by_row ls lu y i)
              (Spreadsheet.inner_key self by_row y i)
              (Spreadsheet.record_of self by_row i) yr) with (d := inner)
    as [_ Hget].
  - intros j acc acc' Hj Hok.
    destruct (Hturn j acc Hj) as [acc'' [Hrun Hspec]].
    rewrite Hrun in Hok. injection Hok as <-. exact Hspec.
  - now rewrite Hinner.
  - intros l. specialize (Hget l). cbn [obj_get]. exact Hget.
Qed.

(** The two loops return, and what they return holds one line per key. *)
Lemma spreadsheet_dictionary_loops (self : Spreadsheet.t) (by_row : bool)
  (ls lu x y : list string) (xr yr : nat) :
  Spreadsheet.well_shaped self ->
  List.length lu = List.length ls ->
  Spreadsheet.cells_speak self ls ->
  (forall i j, i < xr -> j < yr ->
     (if by_row then i else j)
       < fst (Spreadsheet.shape (Spreadsheet.cell_indices self)) /\
     (if by_row then j else i)
       < snd (Spreadsheet.shape (Spreadsheet.cell_indices self))) ->
  xr <= List.length x -> yr <= List.length y ->
  exists values,
    for_in (range xr) (fun idx_x values =>
      x_values <- for_in (range yr)
                    (Spreadsheet.to_dictionary_cell self by_row ls lu y idx_x)
                    Dict.empty ;;
      label <- orelse (nth_error x idx_x) IndexError ;;
      ret (Dict.set values label (Py.ODict x_values)))%py Dict.empty
    = ([], Ok values) /\
    forall l,
      match last_index (fun i => key_is (nth_error x i) l) xr with
      | Some i => exists line, Dict.get values l = Some line /\
                    Spreadsheet.line_of self by_row y yr i line
      | None => Dict.get values l = None
      end.
Proof.
  intros Hws Hlen Hspeak Hin Hx Hy.
  set (body := fun (idx_x : nat) (values : Dict.t Py.obj) =>
      (x_values <- for_in (range yr)
                    (Spreadsheet.to_dictionary_cell self by_row ls lu y idx_x)
                    Dict.empty ;;
       label <- orelse (nth_error x idx_x) IndexError ;;
       ret (Dict.set values label (Py.ODict x_values)))%py).
  assert (Hturn : forall i acc, i < xr ->
            exists label line,
              nth_error x i = Some label /\
              Spreadsheet.line_of self by_row y yr i line /\
              body i acc = ([], Ok (Dict.set acc label line))).
  { intros i acc Hi.
    destruct (spreadsheet_dictionary_line_run self by_row ls lu y yr i)
      as [inner [Hinner Hline]]; auto.
    destruct (nth_error x i) as [label|] eqn:Hlabel;
      [|apply nth_error_None in Hlabel; lia].
    exists label, (Py.ODict inner). split; [reflexivity|].
    split; [exact Hline|].
    unfold body. rewrite Hinner, bind_run, Hlabel. reflexivity. }
  destruct (for_in_quiet_total (range xr) body Dict.empty)
    as [values Hvalues].
  { intros i acc Hi. apply in_seq in Hi.
    destruct (Hturn i acc) as [label [line (_ & _ & Hrun)]]; [lia|]. eauto. }
  exists values. split; [exact Hvalues|].
  destruct (dict_loop_spec body (fun i => nth_error x i)
              (Spreadsheet.line_of self by_row y yr) xr) with (d := values)
    as [_ Hget].
  - intros i acc acc' Hi Hok.
    destruct (Hturn i acc Hi) as [label [line (Hlabel & Hline & Hrun)]].
    rewrite Hrun in Hok. injection Hok as <-. rewrite Hlabel. eauto.
  - now rewrite Hvalues.
  - exact Hget.
Qed.

Lemma key_is_label_at (labels : list string) (i : nat) (l : string) :
  key_is (nth_error labels i) l = label_at labels i l.
Proof. reflexivity. Qed.

Lemma last_index_distinct_label (labels : list string) (n i : nat)
  (l : string) :
  distinct_labels labels n -> i < n -> nth_error labels i = Some l ->
  last_index (fun k => key_is (nth_error labels k) l) n = Some i.
Proof.
  intros Hnd Hi Hl. apply last_index_intro; [exact Hi| |].
  - rewrite key_is_label_at. now apply label_at_eq.
  - intros j Hj. rewrite key_is_label_at.
    destruct (label_at labels j l) eqn:Hlj; [|reflexivity].
    assert (i = j); [|lia].
    apply (distinct_labels_at_most_one labels n l Hnd); try lia; auto.
    now apply label_at_eq.
Qed.

(** What the two labels of a cell lead to in the returned dictionary. *)
Lemma spreadsheet_dictionary_lookup (self : Spreadsheet.t) (by_row : bool)
  (x y : list string) (xr yr : nat) (values : Dict.t Py.obj) (i j : nat)
  (xl yl : string) (cell : Cell) :
  (forall l,
     match last_index (fun i => key_is (nth_error x i) l) xr with
     | Some i => exists line, Dict.get values l = Some line /\
                   Spreadsheet.line_of self by_row y yr i line
     | None => Dict.get values l = None
     end) ->
  distinct_labels x xr -> distinct_labels y yr ->
  i < xr -> j < yr ->
  nth_error x i = Some xl -> nth_error y j = Some yl ->
  Spreadsheet.cell_met self by_row i j = Some cell ->
  match Spreadsheet.lookup (Py.ODict values) xl yl with
  | Some rec => Py.is_none (value cell) = false /\
      obj_get rec "value" = Some (Py.of_scalar (value cell))
  | None => Py.is_none (value cell) = true
  end.
Proof.
  intros Hvalues Hdx Hdy Hi Hj Hxl Hyl Hmet.
  specialize (Hvalues xl).
  rewrite (last_index_distinct_label x xr i xl Hdx Hi Hxl) in Hvalues.
  destruct Hvalues as [line [Hline Hspec]].
  unfold Spreadsheet.lookup. cbn [obj_get]. rewrite Hline.
  specialize (Hspec yl).
  assert (Hother : forall j', j' < yr -> j' <> j ->
            key_is (Spreadsheet.inner_key self by_row y i j') yl = false).
  { intros j' Hj' Hne. unfold Spreadsheet.inner_key.
    destruct (Spreadsheet.cell_met self by_row i j') as [cell'|];
      [|reflexivity].
    destruct (Py.is_none (value cell')); [reflexivity|].
    rewrite key_is_label_at.
    destruct (label_at y j' yl) eqn:Hl; [|reflexivity].
    exfalso. apply Hne.
    apply (distinct_labels_at_most_one y yr yl Hdy); try lia; auto.
    now apply label_at_eq. }
  destruct (Py.is_none (value cell)) eqn:Hnone.
  - rewrite last_index_none_intro in Hspec.
    + now rewrite Hspec.
    + intros j' Hj'. destruct (Nat.eq_dec j' j) as [->|Hne];
        [|now apply Hother].
      unfold Spreadsheet.inner_key. now rewrite Hmet, Hnone.
  - rewrite (last_index_intro _ yr j) in Hspec.
    + destruct Hspec as [rec [-> [cell' [Hmet' Hvalue]]]].
      rewrite Hmet in Hmet'. injection Hmet' as <-. now split.
    + exact Hj.
    + unfold Spreadsheet.inner_key. rewrite Hmet, Hnone.
      rewrite key_is_label_at. now apply label_at_eq.
    + intros j' Hj'. apply Hother; lia.
Qed.

Lemma cell_at_position_in_shape (self : Spreadsheet.t) (r c : nat)
  (cell : Cell) :
  Spreadsheet.well_shaped self ->
  Spreadsheet.cell_at_position self r c = Some cell ->
  r < fst (Spreadsheet.shape (Spreadsheet.cell_indices self)) /\
  c < snd (Spreadsheet.shape (Spreadsheet.cell_indices self)).
Proof.
  intros [Hrows Hall] Hat. unfold Spreadsheet.cell_at_position in Hat.
  destruct (nth_error (Spreadsheet._sheet self) r) as [row|] eqn:Hrow;
    [|discriminate].
  split.
  - rewrite <- Hrows. now apply nth_error_Some_lt with row.
  - rewrite Forall_forall in Hall.
    rewrite <- (Hall row) by now apply nth_error_In with r.
    now apply nth_error_Some_lt with cell.
Qed.

(** X25: On a sheet with the rows and columns of its shape, whose
    nicknames name every row and column once and whose cells with a value
    have a text in every exported language, the [to_dictionary] of the
    sheet of cells returns without any effect when the pseudonyms, if
    given, are as many as the languages. In what it returns, the nicknames
    of a cell, row first when [by_row] and column first otherwise, lead to
    a record exactly when the cell has a value, and the record holds that
    value under the key value. *)
Theorem spreadsheet_to_dictionary_entries (self : Spreadsheet.t)
  (languages : option (list string)) (by_row : bool)
  (languages_pseudonyms : option (list string)) :
  Spreadsheet.well_shaped self ->
  Spreadsheet.nicknames_name_shape self ->
  pseudonyms_match (Spreadsheet.languages_exported self languages)
    languages_pseudonyms ->
  Spreadsheet.cells_speak self
    (Spreadsheet.languages_exported self languages) ->
  exists values,
    Spreadsheet.to_dictionary self languages by_row languages_pseudonyms
    = ([], Ok values) /\
    forall r c rn cn cell,
      nth_error (Spreadsheet.rows_nicknames (Spreadsheet.cell_indices self)) r
      = Some rn ->
      nth_error
        (Spreadsheet.columns_nicknames (Spreadsheet.cell_indices self)) c
      = Some cn ->
      Spreadsheet.cell_at_position self r c = Some cell ->
      match Spreadsheet.lookup values (if by_row then rn else cn)
              (if by_row then cn else rn) with
      | Some rec => Py.is_none (value cell) = false /\
          obj_get rec "value" = Some (Py.of_scalar (value cell))
      | None => Py.is_none (value cell) = true
      end.
Proof.
  intros Hws (Hrn & Hcn & Hdr & Hdc) Hmatch Hspeak.
  unfold Spreadsheet.to_dictionary.
  fold (Spreadsheet.languages_exported self languages).
  set (ls := Spreadsheet.languages_exported self languages) in *.
  set (lu := match languages_pseudonyms with Some p => p | None => ls end).
  assert (Hlen : List.length lu = List.length ls).
  { unfold lu. destruct languages_pseudonyms; [exact Hmatch|reflexivity]. }
  replace (match languages_pseudonyms with
           | Some p => negb (Nat.eqb (List.length p) (List.length ls))
           | None => false
           end) with false.
  2:{ destruct languages_pseudonyms as [p|]; [|reflexivity].
      symmetry. apply negb_false_iff, Nat.eqb_eq. exact Hmatch. }
  cbv zeta. unfold Spreadsheet.sheet_shape. cbn [fst snd].
  set (rows := fst (Spreadsheet.shape (Spreadsheet.cell_indices self))) in *.
  set (cols := snd (Spreadsheet.shape (Spreadsheet.cell_indices self))) in *.
  destruct by_row.
  - destruct (spreadsheet_dictionary_loops self true ls lu
                (Spreadsheet.rows_nicknames (Spreadsheet.cell_indices self))
                (Spreadsheet.columns_nicknames (Spreadsheet.cell_indices self))
                rows cols) as [values [Hrun Hspec]]; auto.
    exists (Py.ODict values). split.
    + rewrite Hrun. reflexivity.
    + intros r c rn cn cell Hr Hc Hat.
      destruct (cell_at_position_in_shape self r c cell Hws Hat) as [Hr' Hc'].
      apply (spreadsheet_dictionary_lookup self true
               (Spreadsheet.rows_nicknames (Spreadsheet.cell_indices self))
               (Spreadsheet.columns_nicknames (Spreadsheet.cell_indices self))
               rows cols values r c rn cn cell); auto.
  - destruct (spreadsheet_dictionary_loops self false ls lu
                (Spreadsheet.columns_nicknames (Spreadsheet.cell_indices self))
                (Spreadsheet.rows_nicknames (Spreadsheet.cell_indices self))
                cols rows) as [values [Hrun Hspec]]; auto.
    exists (Py.ODict values). split.
    + rewrite Hrun. reflexivity.
    + intros r c rn cn cell Hr Hc Hat.
      destruct (cell_at_position_in_shape self r c cell Hws Hat) as [Hr' Hc'].
      apply (spreadsheet_dictionary_lookup self false
               (Spreadsheet.columns_nicknames (Spreadsheet.cell_indices self))
               (Spreadsheet.rows_nicknames (Spreadsheet.cell_indices self))
               cols rows values c r cn rn cell); auto.
Qed.

Lemma spreadsheet_to_dictionary_entries_witness :
  exists values,
    Spreadsheet.to_dictionary small_sheet None false
      (Some ["xlsx"; "description"]) = ([], Ok values) /\
    forall r c rn cn cell,
      nth_error
        (Spreadsheet.rows_nicknames (Spreadsheet.cell_indices small_sheet)) r
      = Some rn ->
      nth_error
        (Spreadsheet.columns_nicknames (Spreadsheet.cell_indices small_sheet))
        c = Some cn ->
      Spreadsheet.cell_at_position small_sheet r c = Some cell ->
      match Spreadsheet.lookup values cn rn with
      | Some rec => Py.is_none (value cell) = false /\
          obj_get rec "value" = Some (Py.of_scalar (value cell))
      | None => Py.is_none (value cell) = true
      end.
Proof.
  apply (spreadsheet_to_dictionary_entries small_sheet None false
           (Some ["xlsx"; "description"])).
  - exact well_shaped_small_sheet.
  - unfold Spreadsheet.nicknames_name_shape, distinct_labels. cbn.
    repeat split; try lia;
      repeat constructor; cbn; intros H;
      repeat (destruct H as [H|H]; [discriminate H|]); exact H.
  - reflexivity.
  - intros row cell lang Hrow Hcell _ Hlang. cbn in Hrow, Hlang.
    destruct Hrow as [<-|[<-|[]]]; cbn in Hcell;
      destruct Hcell as [<-|[<-|[]]];
      destruct Hlang as [<-|[<-|[]]]; discriminate.
Defined.

(** * What every encoder does with the cells *)

(** ** A returning computation has read a cell *)

Lemma reads_bind_l {A B} (r c : nat) (m : M A) (f : A -> M B) :
  reads_cell r c m -> reads_cell r c (bind m f).
Proof.
  intros Hm b Hok. apply bind_ok_inv in Hok as [a [Ha [_ ->]]].
  apply in_or_app. left. now apply Hm with a.
Qed.

Lemma reads_bind_r {A B} (r c : nat) (m : M A) (f : A -> M B) :
  (forall a, reads_cell r c (f a)) -> reads_cell r c (bind m f).
Proof.
  intros Hf b Hok. apply bind_ok_inv in Hok as [a [_ [Hb ->]]].
  apply in_or_app. right. now apply (Hf a) with b.
Qed.

Lemma reads_for_in {X S} (r c : nat) (x : X) (l : list X)
  (body : X -> S -> M S) (s : S) :
  In x l -> (forall s', reads_cell r c (body x s')) ->
  reads_cell r c (for_in l body s).
Proof.
  intros Hx Hbody. revert s. induction l as [|y l IH]; intros s;
    [destruct Hx|].
  cbn [for_in]. destruct Hx as [->|Hx].
  - apply reads_bind_l. apply Hbody.
  - apply reads_bind_r. intros s'. now apply IH.
Qed.

Lemma reads_get_cell_at (self : Sheet) (r c : nat) :
  reads_cell r c (get_cell_at self r c).
Proof. intros a _. now left. Qed.

Lemma reads_mmap {A B} (r c : nat) (g : A -> B) (m : M A) :
  reads_cell r c m -> reads_cell r c (mmap g m).
Proof.
  intros Hm b Hok. unfold mmap in *. cbn [fst snd] in *.
  destruct (snd m) as [a|e] eqn:Ha; [|discriminate].
  now apply Hm with a.
Qed.

Lemma in_py_range (k r n : nat) :
  r < n -> In (Z.of_nat r) (Py.range (- Z.of_nat k) (Z.of_nat n)).
Proof.
  intros Hr. rewrite py_range_after. apply in_or_app. right.
  apply in_map. apply in_seq. lia.
Qed.

Section ReadsEveryCell.

Variable self : Sheet.
Variables r c : nat.
Hypothesis Hr : r < fst (shape self).
Hypothesis Hc : c < snd (shape self).

Lemma row_index_is_data (k : Z) : (k < 0)%Z -> (Z.of_nat r =? k)%Z = false.
Proof. intros Hk. apply Z.eqb_neq. lia. Qed.

Lemma to_csv_reads sr corner sep lt na :
  reads_cell r c (to_csv self sr corner sep lt na).
Proof.
  unfold to_csv. apply reads_bind_r. intros _.
  apply reads_for_in with (x := Z.of_nat r);
    [exact (in_py_range 1 r _ Hr)|].
  intros export. rewrite row_index_is_data by lia.
  apply reads_bind_l. apply reads_bind_r. intros label. cbv zeta.
  apply reads_for_in with (x := c); [apply in_seq; lia|].
  intros export'. apply reads_bind_l. rewrite Nat2Z.id.
  apply reads_get_cell_at.
Qed.

Lemma to_markdown_reads sr corner na :
  reads_cell r c (to_markdown self sr corner na).
Proof.
  unfold to_markdown. apply reads_bind_r. intros _.
  apply reads_for_in with (x := Z.of_nat r);
    [exact (in_py_range 2 r _ Hr)|].
  intros export. rewrite !row_index_is_data by lia. cbv zeta.
  apply reads_bind_r. intros label.
  apply reads_for_in with (x := c); [apply in_seq; lia|].
  intros export'. apply reads_bind_l. rewrite Nat2Z.id.
  apply reads_get_cell_at.
Qed.

Lemma to_html_table_reads sr corner na ld :
  reads_cell r c (to_html_table self sr corner na ld).
Proof.
  unfold to_html_table. apply reads_bind_r. intros _.
  apply reads_bind_l.
  apply reads_for_in with (x := Z.of_nat r);
    [exact (in_py_range 1 r _ Hr)|].
  intros export. rewrite row_index_is_data by lia. cbv zeta.
  apply reads_bind_l. apply reads_bind_r. intros title.
  apply reads_bind_r. intros label.
  apply reads_for_in with (x := c); [apply in_seq; lia|].
  intros export'. apply reads_bind_l. rewrite Nat2Z.id.
  apply reads_get_cell_at.
Qed.

Lemma to_dictionary_reads ls by_row lp sr skip nr :
  reads_cell r c (to_dictionary self ls by_row lp sr skip nr).
Proof.
  unfold to_dictionary. apply reads_bind_r. intros _. cbv zeta.
  match goal with |- reads_cell _ _ (if ?b then _ else _) => destruct b end;
    [intros a Hok; discriminate|].
  apply reads_bind_l.
  destruct by_row.
  - apply reads_for_in with (x := r); [apply in_seq; exact (conj (Nat.le_0_l r) Hr)|].
    intros outer. unfold to_dictionary_line. apply reads_bind_l.
    apply reads_for_in with (x := c);
      [apply in_seq; exact (conj (Nat.le_0_l c) Hc)|].
    intros inner. unfold to_dictionary_cell. apply reads_bind_l.
    apply reads_get_cell_at.
  - apply reads_for_in with (x := c);
      [apply in_seq; exact (conj (Nat.le_0_l c) Hc)|].
    intros outer. unfold to_dictionary_line. apply reads_bind_l.
    apply reads_for_in with (x := r);
      [apply in_seq; exact (conj (Nat.le_0_l r) Hr)|].
    intros inner. unfold to_dictionary_cell. apply reads_bind_l.
    apply reads_get_cell_at.
Qed.

Lemma all_reads_cell : In (GetCell r c) (all_reads self).
Proof. apply all_reads_spec. exists r, c. auto. Qed.

(** Every encoder call that returns has read the cell. *)
Lemma run_encoder_reads (xlsx : library) (call : encoder_call) :
  reads_cell r c (run_encoder self xlsx call).
Proof.
  destruct call; cbn [run_encoder]; apply reads_mmap.
  - intros [] Hok.
    now apply (to_excel_cells_ok self xlsx _ _ _ _ _ _ _ Hok r c Hr Hc).
  - apply to_dictionary_reads.
  - intros a _. rewrite to_string_of_values_run. cbn [fst].
    apply in_or_app. right. apply all_reads_cell.
  - intros a _. rewrite to_2d_list_run. cbn [fst].
    apply in_or_app. right. apply all_reads_cell.
  - apply to_csv_reads.
  - apply to_markdown_reads.
  - intros a Hok. pose proof (to_numpy_run self) as Hrun.
    destruct (has_overflow self).
    + rewrite Hrun in Hok. discriminate.
    + destruct Hrun as [a' [-> _]]. cbn [fst].
      apply in_or_app. right. apply in_or_app. left. apply all_reads_cell.
  - apply to_html_table_reads.
Qed.

End ReadsEveryCell.

(** ** Which cells are in the result *)

(** With distinct labels on both axes, [to_dictionary] leaves a cell out
    exactly when the cell is skipped. *)
Lemma to_dictionary_absent_iff_skipped (self : Sheet)
  (ls : option (list string)) (by_row : bool) (lp : option (list string))
  (sr : string) (skip : bool) (nr values : Py.obj) :
  snd (to_dictionary self ls by_row lp sr skip nr) = Ok values ->
  let plan := axis_plan self by_row sr in
  distinct_labels (x plan) (x_range plan) ->
  distinct_labels (y plan) (y_range plan) ->
  forall i j lx ly,
    i < x_range plan -> j < y_range plan ->
    nth_error (x plan) i = Some lx -> nth_error (y plan) j = Some ly ->
    (record_at values (x_start_key plan) lx (y_start_key plan) ly = None
     <-> skipped skip (cell_at self by_row i j) = true).
Proof.
  intros Hok plan Hdx Hdy i j lx ly Hi Hj Hlx Hly.
  pose proof (record_at_spec self ls by_row lp sr skip nr values Hok lx ly)
    as Hspec.
  cbv zeta in Hspec. fold plan in Hspec. unfold select_cell in Hspec.
  pose proof (last_index_distinct_label (x plan) (x_range plan) i lx
                Hdx Hi Hlx) as Hx.
  pose proof (last_index_distinct_label (y plan) (y_range plan) j ly
                Hdy Hj Hly) as Hy.
  change (last_index (fun i => label_at (x plan) i lx) (x_range plan)
          = Some i) in Hx.
  change (last_index (fun j => label_at (y plan) j ly) (y_range plan)
          = Some j) in Hy.
  rewrite Hx in Hspec.
  rewrite (last_index_and_unique (fun j => label_at (y plan) j ly)
             (fun j => negb (skipped skip (cell_at self by_row i j)))
             (y_range plan) j
             (distinct_labels_at_most_one (y plan) (y_range plan) ly Hdy) Hy)
    in Hspec.
  destruct (skipped skip (cell_at self by_row i j)); cbn [negb] in Hspec.
  - split; auto.
  - destruct Hspec as [rec [-> _]]. split; discriminate.
Qed.

(** C3, as the code has it: every encoder call that returns has read
    every cell of the exported shape, whichever workbook writer [to_excel]
    is given, and a cell is left out only as follows.
    [to_string_of_values] and [to_2d_list] return the text and the list of
    all the values, [None] included; [to_csv], [to_markdown] and
    [to_html_table] return the text with one field per cell, a [None] cell
    shown as [na_rep], when the labels cover the shape (and, for
    [to_html_table], the tooltips are available); [to_numpy] returns an
    array with an entry for every cell, NaN for a [None] cell;
    [to_dictionary], the one encoder with a parameter for it, with
    distinct labels on both axes has no record for a cell exactly when the
    cell's value is [None] and [skip_nan_cell] is set; [to_excel], which
    has no such parameter, writes an entry at the cell's position, shifted
    by the labels, exactly when the cell's value is not [None]. *)
Theorem encoders_visit_every_cell (self : Sheet) (xlsx : library)
  (call : encoder_call) (out : output) :
  snd (run_encoder self xlsx call) = Ok out ->
  (forall r c, r < fst (shape self) -> c < snd (shape self) ->
     In (GetCell r c) (fst (run_encoder self xlsx call))) /\
  cells_in_result self call (fst (run_encoder self xlsx call)) out.
Proof.
  intros Hok. split.
  { intros r c Hr Hc. exact (run_encoder_reads self r c Hr Hc xlsx call out Hok). }
  destruct call as [fp sn sr lrf lcf vsn vsh | ls by_row lp sr skip nr | |
                    | sr corner sep lt na | sr corner na | | sr corner na ld];
    cbn [run_encoder cells_in_result mmap fst snd] in *.
  - intros r c Hr Hc.
    destruct (snd (to_excel self xlsx fp sn sr lrf lcf vsn vsh))
      as [[]|e] eqn:Hrun; [|discriminate].
    now apply (to_excel_cells_ok self xlsx _ _ _ _ _ _ _ Hrun r c Hr Hc).
  - intros Hdx Hdy values i j lx ly -> Hi Hj Hlx Hly.
    destruct (snd (to_dictionary self ls by_row lp sr skip nr))
      as [values'|e] eqn:Hrun; [|discriminate].
    injection Hok as ->.
    rewrite (to_dictionary_absent_iff_skipped self _ _ _ _ _ _ _ Hrun
               Hdx Hdy i j lx ly Hi Hj Hlx Hly).
    unfold skipped. apply andb_true_iff.
  - rewrite to_string_of_values_run in Hok. cbn [snd] in Hok. congruence.
  - rewrite to_2d_list_run in Hok. cbn [snd] in Hok. congruence.
  - intros Hl. rewrite (to_csv_run self _ _ _ _ _ Hl) in Hok.
    cbn [snd] in Hok. congruence.
  - intros Hl. rewrite (to_markdown_run self _ _ _ Hl) in Hok.
    cbn [snd] in Hok. congruence.
  - pose proof (to_numpy_run self) as Hrun.
    destruct (has_overflow self).
    + rewrite Hrun in Hok. discriminate.
    + destruct Hrun as [a [Hrun [_ Hentries]]]. rewrite Hrun in Hok.
      cbn [snd] in Hok. exists a. split; [congruence|].
      intros r c Hr Hc. split; [now apply Hentries|].
      intros Hnone. rewrite (Hentries r c Hr Hc).
      destruct (value (_get_cell_at self r c)); try discriminate.
      reflexivity.
  - intros Hl Ht. rewrite (to_html_table_run self _ _ _ _ Hl Ht) in Hok.
    cbn [snd] in Hok. congruence.
Qed.

Lemma encoders_visit_every_cell_witness :
  let self := sheet_7_none_9_10 in
  let excel := ToExcel "results.xlsx" (Py.SStr "Results") " "
                 [("bold", Py.SNum 1)] [("bold", Py.SNum 1)] None [] in
  let dict := ToDictionary None true None " " true Py.ONone in
  (snd (run_encoder self xlsx_accepts excel) = Ok OutNone /\
   (forall r c, r < fst (shape self) -> c < snd (shape self) ->
      In (GetCell r c) (fst (run_encoder self xlsx_accepts excel))) /\
   cells_in_result self excel (fst (run_encoder self xlsx_accepts excel))
     OutNone) /\
  (exists values,
     snd (run_encoder self xlsx_accepts dict) = Ok (OutObj values) /\
     (forall r c, r < fst (shape self) -> c < snd (shape self) ->
        In (GetCell r c) (fst (run_encoder self xlsx_accepts dict))) /\
     cells_in_result self dict (fst (run_encoder self xlsx_accepts dict))
       (OutObj values)) /\
  snd (run_encoder self xlsx_accepts ToNumpy)
  = Ok (OutArray {| np_shape := (2, 2);
                    np_data := [[NpNum 7; NpNaN]; [NpNum 9; NpNum 10]] |}) /\
  (forall r c, r < fst (shape self) -> c < snd (shape self) ->
     In (GetCell r c) (fst (run_encoder self xlsx_accepts ToNumpy))) /\
  cells_in_result self ToNumpy (fst (run_encoder self xlsx_accepts ToNumpy))
    (OutArray {| np_shape := (2, 2);
                 np_data := [[NpNum 7; NpNaN]; [NpNum 9; NpNum 10]] |}).
Proof.
  cbv zeta. split; [|split].
  - split; [reflexivity|].
    apply (encoders_visit_every_cell sheet_7_none_9_10 xlsx_accepts
             (ToExcel "results.xlsx" (Py.SStr "Results") " "
                [("bold", Py.SNum 1)] [("bold", Py.SNum 1)] None [])).
    reflexivity.
  - eexists. split; [reflexivity|].
    apply (encoders_visit_every_cell sheet_7_none_9_10 xlsx_accepts
             (ToDictionary None true None " " true Py.ONone)).
    reflexivity.
  - split; [reflexivity|].
    apply (encoders_visit_every_cell sheet_7_none_9_10 xlsx_accepts ToNumpy).
    reflexivity.
Defined.

(** * A worksheet name the workbook writer turns down *)

Lemma xlsx_call_rejected (lib : library) (e : event) (err : exn) :
  lib e = Some err -> xlsx_call lib e = ([], Raise err).
Proof. intros H. unfold xlsx_call. now rewrite H. Qed.

(** X26: when the workbook writer turns down the name of the results
    worksheet, [Serialization.to_excel] raises the writer's error right
    after the subset warning and the opening of the workbook: no format
    is registered, no cell is read, nothing is written and the workbook
    is not closed. *)
Theorem to_excel_stops_at_rejected_worksheet (self : Sheet) (xlsx : library)
  (file_path : string) (sheet_name : Py.scalar) (spaces_replacement : string)
  (label_row_format label_column_format : style)
  (variables_sheet_name : option string)
  (variables_sheet_header : Dict.t string) (err : exn) :
  bad_suffix file_path = false -> bad_sheet_name sheet_name = false ->
  xlsx (AddWorksheet WsResults (Py.str sheet_name)) = Some err ->
  to_excel self xlsx file_path sheet_name spaces_replacement label_row_format
    label_column_format variables_sheet_name variables_sheet_header
  = (subset_trace self ++ [WorkbookOpen file_path], Raise err).
Proof.
  intros Hpath Hname Herr. unfold to_excel, subset_trace.
  rewrite Hpath, Hname, log_export_subset_warning_run.
  rewrite (xlsx_call_rejected xlsx _ err Herr).
  unfold bind, emit. cbn [fst snd app]. now destruct (export_subset self).
Qed.

Lemma to_excel_stops_at_rejected_worksheet_witness :
  bad_suffix "results.xlsx" = false /\
  bad_sheet_name (Py.SStr "a/b") = false /\
  to_excel sheet_7_none_9_10 xlsx_checks_names "results.xlsx"
    (Py.SStr "a/b") " " [("bold", Py.SNum 1)] [("bold", Py.SNum 1)] None []
  = ([WorkbookOpen "results.xlsx"],
     Raise (LibraryError "InvalidWorksheetName")).
Proof.
  split; [reflexivity|]. split; [reflexivity|].
  apply (to_excel_stops_at_rejected_worksheet sheet_7_none_9_10
           xlsx_checks_names "results.xlsx" (Py.SStr "a/b") " "
           [("bold", Py.SNum 1)] [("bold", Py.SNum 1)] None []
           (LibraryError "InvalidWorksheetName"));
    reflexivity.
Defined.

(** X27: when the workbook writer turns down the name of the worksheet,
    [Spreadsheet.to_excel] raises the writer's error right after the
    opening of the workbook: no cell is written and the workbook is not
    closed. *)
Theorem spreadsheet_to_excel_stops_at_rejected_worksheet
  (self : Spreadsheet.t) (xlsx : library) (file_path : string)
  (sheet_name : Py.scalar) (err : exn) :
  bad_suffix file_path = false -> bad_sheet_name sheet_name = false ->
  xlsx (AddWorksheet WsResults (Py.str sheet_name)) = Some err ->
  Spreadsheet.to_excel self xlsx file_path sheet_name
  = ([WorkbookOpen file_path], Raise err).
Proof.
  intros Hpath Hname Herr. unfold Spreadsheet.to_excel.
  rewrite Hpath, Hname. rewrite (xlsx_call_rejected xlsx _ err Herr).
  reflexivity.
Qed.

Lemma spreadsheet_to_excel_stops_at_rejected_worksheet_witness :
  bad_suffix "excel.xlsx" = false /\
  bad_sheet_name (Py.SStr "a/b") = false /\
  Spreadsheet.to_excel small_sheet xlsx_checks_names "excel.xlsx"
    (Py.SStr "a/b")
  = ([WorkbookOpen "excel.xlsx"], Raise (LibraryError "InvalidWorksheetName")).
Proof.
  split; [reflexivity|]. split; [reflexivity|].
  apply (spreadsheet_to_excel_stops_at_rejected_worksheet small_sheet
           xlsx_checks_names "excel.xlsx" (Py.SStr "a/b")
           (LibraryError "InvalidWorksheetName"));
    reflexivity.
Defined.
